(** * Socket.IO server core: Socket, Namespace, ParentNamespace, Client, Server

    A shallow embedding of [lib/socket.ts], [lib/namespace.ts] (the
    namespace, the parent namespace and the client) and [lib/index.ts].

    The JavaScript objects live in one explicit store ([State]).  Every
    method is a function in the monad [M], which threads the store, collects
    the externally visible effects of the call in a trace ([Event]) and
    propagates JavaScript exceptions ([Throw]).

    Conventions of the embedding.
    - Objects are referred to by reference, as in the source: a [Socket] by
      its index in the socket heap, a [Namespace] by its key in
      [Server.nsps], a [Client] by the id of its connection, a [Set<Room>]
      of a namespace by its index in a heap of sets (the source shares one
      such set between a parent namespace and its children).
    - User callbacks are data: a connect middleware is a function from the
      socket to an optional error, a namespace matcher answers [(err,
      allow)]; both call back synchronously and once.  Event listeners are
      observers: a local emission is recorded in the trace together with the
      store the listeners see at that moment.
    - [process.nextTick(f)] appends a task to [ticks]; [run_tick] runs the
      oldest one. *)

From Stdlib Require Import String Ascii List ZArith Bool.
From Stdlib.Strings Require Import Byte.
From stdpp Require Import base option list gmap strings sets fin_maps pretty.
Local Open Scope string_scope.

(** ** Identifiers *)

Abbreviation SocketId := string (only parsing).
Abbreviation Room := string (only parsing).
Abbreviation ClientId := string (only parsing).
(** Identity of a [Socket] object (two sockets may carry the same id). *)
Abbreviation SockRef := nat (only parsing).
(** Identity of a [Set<Room>] object. *)
Abbreviation SetRef := nat (only parsing).

(** ** Packets and arguments *)

Inductive PacketType :=
  CONNECT | DISCONNECT | EVENT | ACK | ERROR | BINARY_EVENT | BINARY_ACK.

(** The JavaScript values that travel as arguments of [emit]. *)
Inductive Value :=
| VStr (s : string)
| VNum (n : Z)
| VBool (b : bool)
| VBin (bs : list byte)
| VFun (f : nat)
| VSock (r : SockRef).

(** [typeof v === "function"] *)
Definition is_function (v : Value) : bool :=
  match v with VFun _ => true | _ => false end.

(** [typeof args[args.length - 1] === "function"] *)
Definition last_is_function (args : list Value) : bool :=
  match last args with Some v => is_function v | None => false end.

(** Modelled from the spec: [hasBin] of the package has-binary2, the
    "structural scan for binary payloads". *)
Definition hasBin (args : list Value) : bool :=
  existsb (fun v => match v with VBin _ => true | _ => false end) args.

Inductive PData :=
| DNone
| DArgs (args : list Value)
| DStr (s : string).

Record Packet := mkPacket {
  p_type : PacketType;
  p_nsp : option string;
  p_id : option nat;
  p_data : PData
}.

Definition set_p_nsp (n : string) (p : Packet) : Packet :=
  mkPacket (p_type p) (Some n) (p_id p) (p_data p).

(** A frame of the transport, as produced by the encoder. *)
Inductive Frame :=
| FText (s : string)
| FBinary (bs : list byte).

(** ** Flags *)

(** [BroadcastFlags]: a JavaScript object whose keys may be absent. *)
Record BroadcastFlags := mkFlags {
  f_compress : option bool;
  f_binary : option bool;
  f_volatile : option bool;
  f_broadcast : option bool;
  f_local : option bool
}.

(** The empty object [{}]. *)
Definition no_flags : BroadcastFlags := mkFlags None None None None None.

(** Truthiness of an optional boolean property. *)
Definition truthy (o : option bool) : bool := default false o.

Definition set_f_compress (v : bool) (f : BroadcastFlags) :=
  mkFlags (Some v) (f_binary f) (f_volatile f) (f_broadcast f) (f_local f).
Definition set_f_binary (v : bool) (f : BroadcastFlags) :=
  mkFlags (f_compress f) (Some v) (f_volatile f) (f_broadcast f) (f_local f).
Definition set_f_volatile (v : bool) (f : BroadcastFlags) :=
  mkFlags (f_compress f) (f_binary f) (Some v) (f_broadcast f) (f_local f).
Definition set_f_broadcast (v : bool) (f : BroadcastFlags) :=
  mkFlags (f_compress f) (f_binary f) (f_volatile f) (Some v) (f_local f).
Definition set_f_local (v : bool) (f : BroadcastFlags) :=
  mkFlags (f_compress f) (f_binary f) (f_volatile f) (f_broadcast f) (Some v).

(** The options object of [Socket.packet] / [Client.packet]: the flags and
    the [preEncoded] mark set by an adapter broadcast. *)
Record PacketOpts := mkOpts {
  o_flags : BroadcastFlags;
  o_preEncoded : bool
}.

(** What is handed to [packet]: a packet object, or frames already encoded. *)
Inductive Payload :=
| PPacket (p : Packet)
| PEncoded (fs : list Frame).

(** The options of [Adapter.broadcast]. *)
Record BroadcastOptions := mkBroadcastOptions {
  b_rooms : gset Room;
  b_except : option (gset SocketId);
  b_flags : BroadcastFlags
}.

(** ** Handshake *)

Inductive Query :=
| QObject (kvs : list (string * string))
| QIndex (i : nat).

Record Request := mkRequest {
  req_headers : list (string * string);
  req_url : string;
  (** [url.parse(url, true).query] *)
  req_query : list (string * string);
  (** [request.connection.encrypted] *)
  req_encrypted : bool
}.

Record Handshake := mkHandshake {
  h_headers : list (string * string);
  h_time : nat;
  h_address : string;
  h_xdomain : bool;
  h_secure : bool;
  h_issued : nat;
  h_url : string;
  h_query : list (string * string)
}.

(** ** Event emitters *)

(** The listener registry of an [EventEmitter]: event name and listener, in
    registration order. *)
Abbreviation Listeners := (list (string * nat)) (only parsing).

Definition listeners (ev : string) (l : Listeners) : list nat :=
  map snd (filter (fun p => fst p = ev) l).

(** ** Socket *)

Record Socket := mkSocket {
  s_id : SocketId;
  (** [nsp], by the key of the namespace in [Server.nsps] *)
  s_nsp : string;
  (** [client], by the id of its connection *)
  s_client : ClientId;
  s_handshake : Handshake;
  s_connected : bool;
  s_disconnected : bool;
  s_acks : gmap nat Value;
  s_flags : BroadcastFlags;
  s__rooms : gset Room;
  s_listeners : Listeners
}.

Definition set_s_connected (c d : bool) (s : Socket) : Socket :=
  mkSocket (s_id s) (s_nsp s) (s_client s) (s_handshake s) c d
    (s_acks s) (s_flags s) (s__rooms s) (s_listeners s).
Definition set_s_acks (a : gmap nat Value) (s : Socket) : Socket :=
  mkSocket (s_id s) (s_nsp s) (s_client s) (s_handshake s) (s_connected s)
    (s_disconnected s) a (s_flags s) (s__rooms s) (s_listeners s).
Definition set_s_flags (f : BroadcastFlags) (s : Socket) : Socket :=
  mkSocket (s_id s) (s_nsp s) (s_client s) (s_handshake s) (s_connected s)
    (s_disconnected s) (s_acks s) f (s__rooms s) (s_listeners s).
Definition set_s__rooms (r : gset Room) (s : Socket) : Socket :=
  mkSocket (s_id s) (s_nsp s) (s_client s) (s_handshake s) (s_connected s)
    (s_disconnected s) (s_acks s) (s_flags s) r (s_listeners s).

(** ** Adapter *)

(** Modelled from the spec: the in-memory [Adapter] of the package
    socket.io-adapter, "rooms: Room -> set<SocketId> and inverse sids:
    SocketId -> set<Room>". *)
Record Adapter := mkAdapter {
  a_rooms : gmap Room (gset SocketId);
  a_sids : gmap SocketId (gset Room)
}.

Definition new_Adapter : Adapter := mkAdapter ∅ ∅.

(** ** Namespace *)

(** A connect middleware [(socket, next)]: the error it passes to [next]. *)
Abbreviation Middleware := (Socket -> option string) (only parsing).

Record Namespace := mkNamespace {
  n_name : string;
  n_connected : gmap SocketId SockRef;
  n_adapter : Adapter;
  n_fns : list Middleware;
  (** [rooms] is a reference to a [Set] object of the heap [roomsets] *)
  n_rooms : SetRef;
  n_flags : BroadcastFlags;
  n_ids : nat;
  n_sockets : gmap SocketId SockRef;
  n_listeners : Listeners
}.

Definition set_n_connected (v : gmap SocketId SockRef) (n : Namespace) :=
  mkNamespace (n_name n) v (n_adapter n) (n_fns n) (n_rooms n) (n_flags n)
    (n_ids n) (n_sockets n) (n_listeners n).
Definition set_n_adapter (v : Adapter) (n : Namespace) :=
  mkNamespace (n_name n) (n_connected n) v (n_fns n) (n_rooms n) (n_flags n)
    (n_ids n) (n_sockets n) (n_listeners n).
Definition set_n_fns (v : list Middleware) (n : Namespace) :=
  mkNamespace (n_name n) (n_connected n) (n_adapter n) v (n_rooms n)
    (n_flags n) (n_ids n) (n_sockets n) (n_listeners n).
Definition set_n_rooms (v : SetRef) (n : Namespace) :=
  mkNamespace (n_name n) (n_connected n) (n_adapter n) (n_fns n) v
    (n_flags n) (n_ids n) (n_sockets n) (n_listeners n).
Definition set_n_flags (v : BroadcastFlags) (n : Namespace) :=
  mkNamespace (n_name n) (n_connected n) (n_adapter n) (n_fns n) (n_rooms n)
    v (n_ids n) (n_sockets n) (n_listeners n).
Definition set_n_ids (v : nat) (n : Namespace) :=
  mkNamespace (n_name n) (n_connected n) (n_adapter n) (n_fns n) (n_rooms n)
    (n_flags n) v (n_sockets n) (n_listeners n).
Definition set_n_sockets (v : gmap SocketId SockRef) (n : Namespace) :=
  mkNamespace (n_name n) (n_connected n) (n_adapter n) (n_fns n) (n_rooms n)
    (n_flags n) (n_ids n) v (n_listeners n).
Definition set_n_listeners (v : Listeners) (n : Namespace) :=
  mkNamespace (n_name n) (n_connected n) (n_adapter n) (n_fns n) (n_rooms n)
    (n_flags n) (n_ids n) (n_sockets n) v.

(** ** ParentNamespace *)

(** A [ParentNamespace] has no adapter ([initAdapter() {}]); [children] holds
    the child namespaces by their key in [Server.nsps]. *)
Record ParentNamespace := mkParent {
  pn_name : string;
  pn_fns : list Middleware;
  pn_rooms : SetRef;
  pn_flags : BroadcastFlags;
  pn_listeners : Listeners;
  pn_children : list string
}.

Definition set_pn_flags (v : BroadcastFlags) (p : ParentNamespace) :=
  mkParent (pn_name p) (pn_fns p) (pn_rooms p) v (pn_listeners p)
    (pn_children p).
Definition set_pn_children (v : list string) (p : ParentNamespace) :=
  mkParent (pn_name p) (pn_fns p) (pn_rooms p) (pn_flags p) (pn_listeners p) v.

(** A matcher registered with [Server.of]: the [(err, allow)] it passes to
    its callback. *)
Abbreviation Matcher := (string -> Query -> bool * bool) (only parsing).

(** ** Client and its connection *)

Inductive ReadyState := Opening | Open | Closing | Closed.

Definition is_open (r : ReadyState) : bool :=
  match r with Open => true | _ => false end.

(** The Engine.IO connection, as far as the core reads it. *)
Record Conn := mkConn {
  readyState : ReadyState;
  (** [conn.transport.writable] *)
  writable : bool;
  request : Request;
  remoteAddress : string
}.

Record Client := mkClient {
  c_id : ClientId;
  c_conn : Conn;
  (** [sockets], a [Map] that is iterated: kept in insertion order *)
  c_sockets : list (SocketId * SockRef);
  c_nsps : gmap string SockRef;
  c_connectBuffer : list string;
  (** the listeners of [setup] are attached *)
  c_bound : bool;
  (** the decoder has not been destroyed *)
  c_decoder : bool
}.

Definition set_c_conn (v : Conn) (c : Client) :=
  mkClient (c_id c) v (c_sockets c) (c_nsps c) (c_connectBuffer c)
    (c_bound c) (c_decoder c).
Definition set_c_sockets (v : list (SocketId * SockRef)) (c : Client) :=
  mkClient (c_id c) (c_conn c) v (c_nsps c) (c_connectBuffer c)
    (c_bound c) (c_decoder c).
Definition set_c_nsps (v : gmap string SockRef) (c : Client) :=
  mkClient (c_id c) (c_conn c) (c_sockets c) v (c_connectBuffer c)
    (c_bound c) (c_decoder c).
Definition set_c_connectBuffer (v : list string) (c : Client) :=
  mkClient (c_id c) (c_conn c) (c_sockets c) (c_nsps c) v
    (c_bound c) (c_decoder c).
Definition set_c_bound (v : bool) (c : Client) :=
  mkClient (c_id c) (c_conn c) (c_sockets c) (c_nsps c) (c_connectBuffer c)
    v (c_decoder c).
Definition set_c_decoder (v : bool) (c : Client) :=
  mkClient (c_id c) (c_conn c) (c_sockets c) (c_nsps c) (c_connectBuffer c)
    (c_bound c) v.

Definition set_readyState (r : ReadyState) (c : Conn) :=
  mkConn r (writable c) (request c) (remoteAddress c).

(** Insertion-ordered [Map]: [set], [delete], [get]. *)
Fixpoint omap_set {V} (k : string) (v : V) (m : list (string * V)) :=
  match m with
  | [] => [(k, v)]
  | (k', v') :: m' =>
      if bool_decide (k' = k) then (k, v) :: m' else (k', v') :: omap_set k v m'
  end.

Definition omap_delete {V} (k : string) (m : list (string * V)) :=
  filter (fun p => fst p ≠ k) m.

Fixpoint omap_get {V} (k : string) (m : list (string * V)) : option V :=
  match m with
  | [] => None
  | (k', v') :: m' => if bool_decide (k' = k) then Some v' else omap_get k m'
  end.

(** ** Server *)

(** The Engine.IO server created by [attach].  [initialPacket] is the
    [initialPacket] of the options that [attach] hands to [engine.attach];
    [own_initialPacket] is the property [initialPacket] of the engine object
    itself, the one that [Namespace.use] deletes. *)
Record Engine := mkEngine {
  initialPacket : option (list Frame);
  own_initialPacket : option (list Frame)
}.

(** Modelled from the spec: [engine.attach(srv, opts)], with the "optional
    ability to attach an initialPacket that is piggy-backed on the handshake
    response".  The engine keeps the options it is given; the object it
    returns gets no property [initialPacket] from the code of the server. *)
Definition engine_attach (initialPacket : option (list Frame)) : Engine :=
  mkEngine initialPacket None.

(** A continuation handed to [process.nextTick]. *)
Inductive Task :=
(** the continuation of [Namespace.add] for [socket], after the middleware
    answered [err]; its [fn] is the closure of [Client.doConnect] *)
| TAdd (nsp : string) (socket : SockRef) (err : option string).

Record State := mkState {
  (** [Server.encoder.encode] *)
  encoder : Packet -> list Frame;
  nsps : gmap string Namespace;
  (** [Server.parentNsps], a [Map] iterated in insertion order *)
  parentNsps : list (Matcher * ParentNamespace);
  (** [ParentNamespace.count] *)
  parentCount : nat;
  eio : option Engine;
  clients : gmap ClientId Client;
  (** the [Socket] objects *)
  sockets : list Socket;
  (** the [Set<Room>] objects of the namespaces *)
  roomsets : list (gset Room);
  (** the pending [process.nextTick] continuations, oldest first *)
  ticks : list Task;
  (** the time read by [new Date()] *)
  clock : nat
}.

Definition set_nsps (v : gmap string Namespace) (st : State) :=
  mkState (encoder st) v (parentNsps st) (parentCount st) (eio st)
    (clients st) (sockets st) (roomsets st) (ticks st) (clock st).
Definition set_parentNsps (v : list (Matcher * ParentNamespace)) (st : State) :=
  mkState (encoder st) (nsps st) v (parentCount st) (eio st)
    (clients st) (sockets st) (roomsets st) (ticks st) (clock st).
Definition set_parentCount (v : nat) (st : State) :=
  mkState (encoder st) (nsps st) (parentNsps st) v (eio st)
    (clients st) (sockets st) (roomsets st) (ticks st) (clock st).
Definition set_eio (v : option Engine) (st : State) :=
  mkState (encoder st) (nsps st) (parentNsps st) (parentCount st) v
    (clients st) (sockets st) (roomsets st) (ticks st) (clock st).
Definition set_clients (v : gmap ClientId Client) (st : State) :=
  mkState (encoder st) (nsps st) (parentNsps st) (parentCount st) (eio st)
    v (sockets st) (roomsets st) (ticks st) (clock st).
Definition set_sockets (v : list Socket) (st : State) :=
  mkState (encoder st) (nsps st) (parentNsps st) (parentCount st) (eio st)
    (clients st) v (roomsets st) (ticks st) (clock st).
Definition set_roomsets (v : list (gset Room)) (st : State) :=
  mkState (encoder st) (nsps st) (parentNsps st) (parentCount st) (eio st)
    (clients st) (sockets st) v (ticks st) (clock st).
Definition set_ticks (v : list Task) (st : State) :=
  mkState (encoder st) (nsps st) (parentNsps st) (parentCount st) (eio st)
    (clients st) (sockets st) (roomsets st) v (clock st).

(** ** Effects *)

(** The emitter a local event is raised on. *)
Inductive Target :=
| OnSocket (r : SockRef)
| OnNamespace (name : string).

(** What a call does that its environment can see. *)
Inductive Event :=
(** [conn.write(frame, {compress})] on the connection of a client *)
| EvWrite (c : ClientId) (frame : Frame) (compress : option bool)
(** [adapter.broadcast(packet, opts)] on the adapter of a namespace *)
| EvBroadcast (nsp : string) (packet : Packet) (opts : BroadcastOptions)
(** [EventEmitter.prototype.emit] on a socket or a namespace; [seen] is the
    store at the time the listeners run *)
| EvLocal (on : Target) (ev : string) (args : list Value) (seen : State)
(** a matcher of [Server.parentNsps] is called (by its position) *)
| EvMatcher (index : nat) (name : string) (query : Query)
(** [conn.close()] *)
| EvClose (c : ClientId)
(** [console.error] *)
| EvStderr (msg : string).

Inductive Outcome (A : Type) :=
| Ret (a : A)
(** [throw new Error(msg)] *)
| Throw (msg : string)
(** a reference of the store points nowhere (no JavaScript run does that) *)
| Stuck.
Arguments Ret {A} a.
Arguments Throw {A} msg.
Arguments Stuck {A}.

#[projections(primitive)]
Record Run (A : Type) := mkRun {
  outcome : Outcome A;
  after : State;
  trace : list Event
}.
Arguments mkRun {A} _ _ _.
Arguments outcome {A} _.
Arguments after {A} _.
Arguments trace {A} _.

Definition M (A : Type) : Type := State -> Run A.

#[global] Instance M_ret : MRet M := fun A a st => mkRun (Ret a) st [].

#[global] Instance M_bind : MBind M := fun A B f m st =>
  let r := m st in
  match outcome r with
  | Ret a => let r' := f a (after r) in
             mkRun (outcome r') (after r') (trace r ++ trace r')
  | Throw e => mkRun (Throw e) (after r) (trace r)
  | Stuck => mkRun Stuck (after r) (trace r)
  end.

Definition throw {A} (msg : string) : M A := fun st => mkRun (Throw msg) st [].
Definition tell (es : list Event) : M unit := fun st => mkRun (Ret tt) st es.
Definition modify (f : State -> State) : M unit := fun st => mkRun (Ret tt) (f st) [].
Definition gets {A} (f : State -> A) : M A := fun st => mkRun (Ret (f st)) st [].
Definition deref {A} (f : State -> option A) : M A := fun st =>
  match f st with
  | Some a => mkRun (Ret a) st []
  | None => mkRun Stuck st []
  end.

(** [for (const x of xs) body(x)] *)
Fixpoint for_each {A} (xs : list A) (body : A -> M unit) : M unit :=
  match xs with
  | [] => mret tt
  | x :: xs' => body x ;; for_each xs' body
  end.

Definition get_socket (r : SockRef) : M Socket := deref (fun st => sockets st !! r).
Definition get_nsp (name : string) : M Namespace := deref (fun st => nsps st !! name).
Definition get_client (c : ClientId) : M Client := deref (fun st => clients st !! c).

Definition update_socket (r : SockRef) (f : Socket -> Socket) : M unit :=
  modify (fun st => set_sockets (alter f r (sockets st)) st).
Definition update_nsp (name : string) (f : Namespace -> Namespace) : M unit :=
  modify (fun st => set_nsps (alter f name (nsps st)) st).
Definition update_client (c : ClientId) (f : Client -> Client) : M unit :=
  modify (fun st => set_clients (alter f c (clients st)) st).
Definition stuck {A} : M A := fun st => mkRun Stuck st [].

(** ** EventEmitter *)

(** Modelled from the spec: [EventEmitter.prototype.emit] of Node.js, the
    "explicit publish-subscribe registry per object".  The listeners of the
    event are invoked with the remaining arguments; an ["error"] event
    without a listener is thrown. *)
Definition EventEmitter_emit (on : Target) (ls : Listeners) (args : list Value)
  : M unit :=
  match args with
  | VStr ev :: rest =>
      match listeners ev ls with
      | [] => if bool_decide (ev = "error") then throw "Unhandled error."
              else st ← gets (fun st => st); tell [EvLocal on ev rest st]
      | _ => st ← gets (fun st => st); tell [EvLocal on ev rest st]
      end
  | _ => mret tt
  end.

(** [~events.indexOf(ev)] for a list [events] of blacklisted names. *)
Definition blacklisted (events : list string) (args : list Value) : bool :=
  match args with
  | VStr ev :: _ => bool_decide (ev ∈ events)
  | _ => false
  end.

(** ** Adapter operations *)

(** Modelled from the spec: "addAll(sid, rooms): add sid to every room;
    create rooms on demand". *)
Definition Adapter_addAll (id : SocketId) (rooms : gset Room) (a : Adapter)
  : Adapter :=
  mkAdapter
    (union_with (fun s1 s2 => Some (s1 ∪ s2))
       (gset_to_gmap {[id]} rooms) (a_rooms a))
    (<[id := rooms ∪ default ∅ (a_sids a !! id)]> (a_sids a)).

(** A room without [id]; [None] when that leaves it empty. *)
Definition room_without (id : SocketId) (members : gset SocketId)
  : option (gset SocketId) :=
  if decide (id ∈ members)
  then if decide (members ∖ {[id]} = ∅) then None else Some (members ∖ {[id]})
  else Some members.

(** Modelled from the spec: "del(sid, room): remove sid from room; delete
    room when empty". *)
Definition Adapter_del (id : SocketId) (room : Room) (a : Adapter) : Adapter :=
  mkAdapter
    (match a_rooms a !! room with
     | Some members =>
         match room_without id members with
         | Some members' => <[room := members']> (a_rooms a)
         | None => delete room (a_rooms a)
         end
     | None => a_rooms a
     end)
    (alter (fun rs => rs ∖ {[room]}) id (a_sids a)).

(** Modelled from the spec: "delAll(sid): remove sid from every room it
    belongs to". *)
Definition Adapter_delAll (id : SocketId) (a : Adapter) : Adapter :=
  mkAdapter (omap (room_without id) (a_rooms a)) (delete id (a_sids a)).

(** Modelled from the spec: "socketRooms(sid): return the set of rooms
    containing sid, or empty". *)
Definition Adapter_socketRooms (id : SocketId) (a : Adapter) : option (gset Room) :=
  a_sids a !! id.

(** Modelled from the spec: the sids a broadcast targets.  "If rooms is
    empty: target every sid known to the adapter.  Else: target the union of
    all sids in those rooms.  Remove any sid in except." *)
Definition Adapter_targets (a : Adapter) (opts : BroadcastOptions)
  : gset SocketId :=
  (if decide (b_rooms opts = ∅) then dom (a_sids a)
   else ⋃ (map (fun r => default ∅ (a_rooms a !! r)) (elements (b_rooms opts))))
  ∖ default ∅ (b_except opts).

(** ** Client.packet and Socket.packet *)

(** The inner [writeToEngine(encodedPackets)] of [Client.packet]: what it
    writes on the connection of [c]. *)
Definition writeToEngine (cid : ClientId) (c : Client) (fl : BroadcastFlags)
    (encodedPackets : list Frame) : list Event :=
  if truthy (f_volatile fl) && negb (writable (c_conn c)) then []
  else map (fun f => EvWrite cid f (f_compress fl)) encodedPackets.

(** [Client.packet(packet, opts?)]: writes to the transport only when the
    connection is open. *)
Definition Client_packet (cid : ClientId) (payload : Payload)
    (opts : option PacketOpts) : M unit :=
  c ← get_client cid;
  let opts := default (mkOpts no_flags false) opts in
  if is_open (readyState (c_conn c)) then
    frames ← match o_preEncoded opts, payload with
             | false, PPacket p => enc ← gets encoder; mret (enc p)
             | true, PEncoded fs => mret fs
             | _, _ => stuck
             end;
    tell (writeToEngine cid c (o_flags opts) frames)
  else mret tt.

(** [opts.compress = false !== opts.compress] *)
Definition compress_of (fl : BroadcastFlags) : BroadcastFlags :=
  set_f_compress (negb (bool_decide (f_compress fl = Some false))) fl.

(** [Socket.packet(packet, opts = {})] *)
Definition Socket_packet (r : SockRef) (payload : Payload)
    (opts : option PacketOpts) : M unit :=
  s ← get_socket r;
  let payload :=
    match payload with
    | PPacket p => PPacket (set_p_nsp (s_nsp s) p)
    | PEncoded fs => PEncoded fs
    end in
  let o := default (mkOpts no_flags false) opts in
  Client_packet (s_client s) payload
    (Some (mkOpts (compress_of (o_flags o)) (o_preEncoded o))).

(** Modelled from the spec: [Adapter.broadcast] of the in-memory adapter.
    "Pre-encode the packet once; write the encoded frames to every targeted
    Socket's Client with the flags' compress value."  The call itself is
    recorded in the trace before the deliveries. *)
Definition Adapter_broadcast (nsp : string) (packet : Packet)
    (opts : BroadcastOptions) : M unit :=
  tell [EvBroadcast nsp packet opts];;
  n ← get_nsp nsp;
  enc ← gets encoder;
  let frames := enc (set_p_nsp (n_name n) packet) in
  let packetOpts :=
    mkOpts (mkFlags (f_compress (b_flags opts)) None
                    (f_volatile (b_flags opts)) None None) true in
  for_each (elements (Adapter_targets (n_adapter n) opts)) (fun id =>
    match n_connected n !! id with
    | Some r => Socket_packet r (PEncoded frames) (Some packetOpts)
    | None => mret tt
    end).

(** ** Socket *)

(** The blacklisted events of [socket.ts]. *)
Definition Socket_events : list string :=
  ["error"; "connect"; "disconnect"; "disconnecting"; "newListener";
   "removeListener"].

(** [this._rooms.clear(); this.flags = {}] *)
Definition reset_staged (s : Socket) : Socket :=
  set_s_flags no_flags (set_s__rooms ∅ s).

(** The [type] of the packet of an [emit]: the [binary] flag when it is
    set, [hasBin(args)] otherwise. *)
Definition event_type (flags : BroadcastFlags) (args : list Value) : PacketType :=
  if match f_binary flags with Some b => b | None => hasBin args end
  then BINARY_EVENT else EVENT.

(** [rooms.size || flags.broadcast] *)
Definition broadcasting (rooms : gset Room) (flags : BroadcastFlags) : bool :=
  negb (bool_decide (rooms = ∅)) || truthy (f_broadcast flags).

(** [Socket.emit(ev, ...args)]; [args] is the whole of [arguments]. *)
Definition Socket_emit (r : SockRef) (args : list Value) : M unit :=
  s ← get_socket r;
  if blacklisted Socket_events args then
    EventEmitter_emit (OnSocket r) (s_listeners s) args
  else
    let type := event_type (s_flags s) args in
    (* access last argument to see if it's an ACK callback *)
    '(data, id) ←
      (if last_is_function args then
         if broadcasting (s__rooms s) (s_flags s)
         then throw "Callbacks are not supported when broadcasting"
         else
           n ← get_nsp (s_nsp s);
           (* this.acks.set(this.nsp.ids, args.pop()) *)
           update_socket r (fun s =>
             set_s_acks (<[n_ids n := default (VBool false) (last args)]> (s_acks s)) s);;
           (* packet.id = this.nsp.ids++ *)
           update_nsp (s_nsp s) (set_n_ids (S (n_ids n)));;
           mret (removelast args, Some (n_ids n))
       else mret (args, None));
    let packet := mkPacket type None id (DArgs data) in
    let rooms := s__rooms s in
    let flags := s_flags s in
    (* reset flags *)
    update_socket r reset_staged;;
    if broadcasting rooms flags then
      Adapter_broadcast (s_nsp s) packet
        (mkBroadcastOptions rooms (Some {[s_id s]}) flags)
    else
      Socket_packet r (PPacket packet) (Some (mkOpts flags false)).

(** [Socket.to(name)] and [Socket.in(name)] *)
Definition Socket_to (r : SockRef) (name : Room) : M unit :=
  update_socket r (fun s => set_s__rooms (s__rooms s ∪ {[name]}) s).
Definition Socket_in (r : SockRef) (name : Room) : M unit :=
  update_socket r (fun s => set_s__rooms (s__rooms s ∪ {[name]}) s).

(** [Socket.send(...args)] and [Socket.write(...args)] *)
Definition Socket_send (r : SockRef) (args : list Value) : M unit :=
  Socket_emit r (VStr "message" :: args).
Definition Socket_write (r : SockRef) (args : list Value) : M unit :=
  Socket_emit r (VStr "message" :: args).

(** The flag setters: [compress(b)], [binary(b)] and the getters
    [volatile], [broadcast], [local]. *)
Definition Socket_compress (r : SockRef) (b : bool) : M unit :=
  update_socket r (fun s => set_s_flags (set_f_compress b (s_flags s)) s).
Definition Socket_binary (r : SockRef) (b : bool) : M unit :=
  update_socket r (fun s => set_s_flags (set_f_binary b (s_flags s)) s).
Definition Socket_volatile (r : SockRef) : M unit :=
  update_socket r (fun s => set_s_flags (set_f_volatile true (s_flags s)) s).
Definition Socket_broadcast (r : SockRef) : M unit :=
  update_socket r (fun s => set_s_flags (set_f_broadcast true (s_flags s)) s).
Definition Socket_local (r : SockRef) : M unit :=
  update_socket r (fun s => set_s_flags (set_f_local true (s_flags s)) s).

(** [Socket.join(rooms)]: [adapter.addAll(this.id, new Set(rooms))] *)
Definition Socket_join (r : SockRef) (rooms : list Room) : M unit :=
  s ← get_socket r;
  update_nsp (s_nsp s) (fun n =>
    set_n_adapter (Adapter_addAll (s_id s) (list_to_set rooms) (n_adapter n)) n).

(** [Socket.leave(room)]: [adapter.del(this.id, room)] *)
Definition Socket_leave (r : SockRef) (room : Room) : M unit :=
  s ← get_socket r;
  update_nsp (s_nsp s) (fun n =>
    set_n_adapter (Adapter_del (s_id s) room (n_adapter n)) n).

(** [Socket.leaveAll()]: [adapter.delAll(this.id)] *)
Definition Socket_leaveAll (r : SockRef) : M unit :=
  s ← get_socket r;
  update_nsp (s_nsp s) (fun n =>
    set_n_adapter (Adapter_delAll (s_id s) (n_adapter n)) n).

(** The getter [Socket.rooms]: [adapter.socketRooms(this.id) || new Set()] *)
Definition Socket_rooms (s : Socket) (st : State) : gset Room :=
  match nsps st !! s_nsp s with
  | Some n => default ∅ (Adapter_socketRooms (s_id s) (n_adapter n))
  | None => ∅
  end.

(** [Socket.onconnect()] *)
Definition Socket_onconnect (r : SockRef) : M unit :=
  s ← get_socket r;
  update_nsp (s_nsp s) (fun n =>
    set_n_connected (<[s_id s := r]> (n_connected n)) n);;
  Socket_join r [s_id s];;
  n ← get_nsp (s_nsp s);
  let skip := bool_decide (n_name n = "/") && bool_decide (length (n_fns n) = 0) in
  if skip then mret tt
  else Socket_packet r (PPacket (mkPacket CONNECT None None DNone)) None.

(** [Socket.error(err)] *)
Definition Socket_error (r : SockRef) (err : string) : M unit :=
  Socket_packet r (PPacket (mkPacket ERROR None None (DStr err))) None.

(** [Namespace.remove(socket)] *)
Definition Namespace_remove (r : SockRef) : M unit :=
  s ← get_socket r;
  n ← get_nsp (s_nsp s);
  if bool_decide (is_Some (n_sockets n !! s_id s)) then
    update_nsp (s_nsp s) (fun n => set_n_sockets (delete (s_id s) (n_sockets n)) n)
  else mret tt.

(** [Client.remove(socket)] *)
Definition Client_remove (r : SockRef) : M unit :=
  s ← get_socket r;
  c ← get_client (s_client s);
  match omap_get (s_id s) (c_sockets c) with
  | Some r' =>
      s' ← get_socket r';
      (* const nsp = this.sockets.get(socket.id).nsp.name *)
      update_client (s_client s) (fun c =>
        set_c_nsps (delete (s_nsp s') (c_nsps c))
          (set_c_sockets (omap_delete (s_id s) (c_sockets c)) c))
  | None => mret tt
  end.

(** [Socket.onclose(reason)] *)
Definition Socket_onclose (r : SockRef) (reason : string) : M unit :=
  s ← get_socket r;
  if negb (s_connected s) then mret tt
  else
    EventEmitter_emit (OnSocket r) (s_listeners s)
      [VStr "disconnecting"; VStr reason];;
    Socket_leaveAll r;;
    Namespace_remove r;;
    Client_remove r;;
    update_socket r (set_s_connected false true);;
    update_nsp (s_nsp s) (fun n =>
      set_n_connected (delete (s_id s) (n_connected n)) n);;
    EventEmitter_emit (OnSocket r) (s_listeners s)
      [VStr "disconnect"; VStr reason].

(** [Socket.onerror(err)].  An error is known by its message; the second
    line on the standard error is that of [console.error(err.stack)]. *)
Definition Socket_onerror (r : SockRef) (err : string) : M unit :=
  s ← get_socket r;
  match listeners "error" (s_listeners s) with
  | [] => tell [EvStderr "Missing error handler on `socket`."; EvStderr err]
  | _ => EventEmitter_emit (OnSocket r) (s_listeners s) [VStr "error"; VStr err]
  end.

(** [Socket.disconnect(close = false)].  [Client.disconnect] calls back into
    this method, so the method takes it as an argument; the knot is tied in
    [Socket_disconnect] below. *)
Definition Socket_disconnect_with (client_disconnect : ClientId -> M unit)
    (r : SockRef) (close : bool) : M unit :=
  s ← get_socket r;
  if negb (s_connected s) then mret tt
  else if close then client_disconnect (s_client s)
  else
    Socket_packet r (PPacket (mkPacket DISCONNECT None None DNone)) None;;
    Socket_onclose r "server namespace disconnect".

(** ** Namespace *)

(** The blacklisted events of [namespace.ts]. *)
Definition Namespace_events : list string :=
  ["connect"; "connection"; "newListener"].

(** [new Namespace(server, name)]; [rooms] is the reference of its fresh
    [Set]. *)
Definition new_Namespace (name : string) (rooms : SetRef) : Namespace :=
  mkNamespace name ∅ new_Adapter [] rooms no_flags 0 ∅ [].

(** Allocation of a [new Set()] for the rooms of a namespace. *)
Definition new_roomset : M SetRef :=
  ref ← gets (fun st => length (roomsets st));
  modify (fun st => set_roomsets (roomsets st ++ [∅]) st);;
  mret ref.

(** [Namespace.use(fn)].  The [delete] removes the property of the engine
    object; the options that [attach] handed to the engine are another
    object and keep their [initialPacket]. *)
Definition Namespace_use (name : string) (fn : Middleware) : M unit :=
  n ← get_nsp name;
  e ← gets eio;
  match e with
  | Some e =>
      if bool_decide (n_name n = "/")
      then (* delete this.server.eio.initialPacket *)
           modify (set_eio (Some (mkEngine (initialPacket e) None)))
      else mret tt
  | None => mret tt
  end;;
  update_nsp name (fun n => set_n_fns (n_fns n ++ [fn]) n).

(** The private [Namespace.run(socket, fn)]: the error handed to [fn]. *)
Fixpoint Namespace_run (fns : list Middleware) (s : Socket) : option string :=
  match fns with
  | [] => None
  | f :: fns' =>
      match f s with
      | Some err => Some err
      | None => Namespace_run fns' s
      end
  end.

(** [Namespace.to(name)] and [Namespace.in(name)] *)
Definition Namespace_to (name : string) (room : Room) : M unit :=
  n ← get_nsp name;
  modify (fun st => set_roomsets (alter (fun s => s ∪ {[room]}) (n_rooms n) (roomsets st)) st).
Definition Namespace_in (name : string) (room : Room) : M unit :=
  n ← get_nsp name;
  modify (fun st => set_roomsets (alter (fun s => s ∪ {[room]}) (n_rooms n) (roomsets st)) st).

Definition Namespace_compress (name : string) (b : bool) : M unit :=
  update_nsp name (fun n => set_n_flags (set_f_compress b (n_flags n)) n).
Definition Namespace_binary (name : string) (b : bool) : M unit :=
  update_nsp name (fun n => set_n_flags (set_f_binary b (n_flags n)) n).
Definition Namespace_volatile (name : string) : M unit :=
  update_nsp name (fun n => set_n_flags (set_f_volatile true (n_flags n)) n).
Definition Namespace_local (name : string) : M unit :=
  update_nsp name (fun n => set_n_flags (set_f_local true (n_flags n)) n).

(** [Object.assign({}, query, requestQuery)] *)
Definition assign_query (query : Query) (requestQuery : list (string * string))
  : list (string * string) :=
  fold_left (fun m kv => omap_set (fst kv) (snd kv) m)
    (match query with QObject kvs => kvs | QIndex _ => [] end ++ requestQuery) [].

(** The private [Socket.buildHandshake(query)] *)
Definition buildHandshake (c : Client) (query : Query) (now : nat) : Handshake :=
  let req := request (c_conn c) in
  mkHandshake (req_headers req) now (remoteAddress (c_conn c))
    (match omap_get "origin" (req_headers req) with
     | Some o => negb (bool_decide (o = ""))
     | None => false
     end)
    (req_encrypted req) now (req_url req) (assign_query query (req_query req)).

(** [new Socket(nsp, client, query)] *)
Definition new_Socket (n : Namespace) (c : Client) (query : Query) (now : nat)
  : Socket :=
  mkSocket
    (if bool_decide (n_name n ≠ "/") then n_name n ++ "#" ++ c_id c else c_id c)
    (n_name n) (c_id c) (buildHandshake c query now) true false ∅ no_flags ∅ [].

(** The private [Namespace.add(client, query, fn)]: constructs the socket,
    runs the middleware and schedules the continuation. *)
Definition Namespace_add (name : string) (cid : ClientId) (query : Query)
  : M SockRef :=
  n ← get_nsp name;
  c ← get_client cid;
  now ← gets clock;
  let socket := new_Socket n c query now in
  r ← gets (fun st => length (sockets st));
  modify (fun st => set_sockets (sockets st ++ [socket]) st);;
  let err := Namespace_run (n_fns n) socket in
  modify (fun st => set_ticks (ticks st ++ [TAdd name r err]) st);;
  mret r.

(** [Namespace.emit(ev, ...args)] *)
Definition Namespace_emit (name : string) (args : list Value) : M unit :=
  n ← get_nsp name;
  if blacklisted Namespace_events args then
    EventEmitter_emit (OnNamespace name) (n_listeners n) args
  else
    let packet := mkPacket (event_type (n_flags n) args) None None (DArgs args) in
    if last_is_function args then
      throw "Callbacks are not supported when broadcasting"
    else
      (* const rooms = new Set(this.rooms) *)
      rooms ← deref (fun st => roomsets st !! n_rooms n);
      let flags := n_flags n in
      (* this.rooms.clear() empties the Set object itself *)
      modify (fun st => set_roomsets (<[n_rooms n := ∅]> (roomsets st)) st);;
      update_nsp name (set_n_flags no_flags);;
      Adapter_broadcast name packet (mkBroadcastOptions rooms None flags).

Definition Namespace_send (name : string) (args : list Value) : M unit :=
  Namespace_emit name (VStr "message" :: args).
Definition Namespace_write (name : string) (args : list Value) : M unit :=
  Namespace_emit name (VStr "message" :: args).

(** ** ParentNamespace *)

Definition get_parent (i : nat) : M ParentNamespace :=
  deref (fun st => snd <$> parentNsps st !! i).
Definition update_parent (i : nat) (f : ParentNamespace -> ParentNamespace)
  : M unit :=
  modify (fun st =>
    set_parentNsps (alter (fun mp => (fst mp, f (snd mp))) i (parentNsps st)) st).

(** [ParentNamespace.to(name)], inherited from [Namespace] *)
Definition ParentNamespace_to (i : nat) (room : Room) : M unit :=
  p ← get_parent i;
  modify (fun st => set_roomsets (alter (fun s => s ∪ {[room]}) (pn_rooms p) (roomsets st)) st).

(** [ParentNamespace.emit(...args)] *)
Definition ParentNamespace_emit (i : nat) (args : list Value) : M unit :=
  p ← get_parent i;
  for_each (pn_children p) (fun child =>
    p ← get_parent i;
    (* nsp.rooms = this.rooms; nsp.flags = this.flags *)
    update_nsp child (fun n => set_n_flags (pn_flags p) (set_n_rooms (pn_rooms p) n));;
    Namespace_emit child args);;
  p ← get_parent i;
  modify (fun st => set_roomsets (<[pn_rooms p := ∅]> (roomsets st)) st);;
  update_parent i (set_pn_flags no_flags).

(** [ParentNamespace.createChild(name)] *)
Definition ParentNamespace_createChild (i : nat) (name : string) : M string :=
  p ← get_parent i;
  rooms ← new_roomset;
  let namespace :=
    set_n_listeners
      (map (fun l => ("connect", l)) (listeners "connect" (pn_listeners p)) ++
       map (fun l => ("connection", l)) (listeners "connection" (pn_listeners p)))
      (set_n_fns (pn_fns p) (new_Namespace name rooms)) in
  update_parent i (fun p => set_pn_children (pn_children p ++ [name]) p);;
  modify (fun st => set_nsps (<[name := namespace]> (nsps st)) st);;
  mret name.

(** ** Server *)

(** [new Server()]: the default namespace is created eagerly. *)
Definition new_Server (enc : Packet -> list Frame) (now : nat) : State :=
  mkState enc {["/" := new_Namespace "/" 0]} [] 0 None ∅ [] [∅] [] now.

(** [if (String(name)[0] !== "/") name = "/" + name] *)
Definition slashed (name : string) : string :=
  if bool_decide (String.get 0 name ≠ Some "/"%char) then "/" ++ name else name.

(** [Server.of(name, fn?)] for a string [name]. *)
Definition Server_of (name : string) (fn : option nat) : M string :=
  let name := slashed name in
  found ← gets (fun st => nsps st !! name);
  match found with
  | Some _ => mret tt
  | None =>
      rooms ← new_roomset;
      modify (fun st => set_nsps (<[name := new_Namespace name rooms]> (nsps st)) st)
  end;;
  match fn with
  | Some l =>
      update_nsp name (fun n => set_n_listeners (n_listeners n ++ [("connect", l)]) n)
  | None => mret tt
  end;;
  mret name.

(** [Server.of(name, fn?)] for a function [name] (a [RegExp] is wrapped into
    one): registers a parent namespace under the matcher. *)
Definition Server_of_matcher (m : Matcher) (fn : option nat) : M nat :=
  count ← gets parentCount;
  modify (set_parentCount (S count));;
  rooms ← new_roomset;
  let parentNsp :=
    mkParent ("/_" ++ pretty count) [] rooms no_flags
      (match fn with Some l => [("connect", l)] | None => [] end) [] in
  i ← gets (fun st => length (parentNsps st));
  modify (fun st => set_parentNsps (parentNsps st ++ [(m, parentNsp)]) st);;
  mret i.

(** The loop [run] of [Server.checkNamespace]: the position of the first
    matcher that accepts. *)
Fixpoint checkNamespace_run (ms : list (Matcher * ParentNamespace)) (i : nat)
    (name : string) (query : Query) : M (option nat) :=
  match ms with
  | [] => mret None
  | (m, _) :: ms' =>
      tell [EvMatcher i name query];;
      let '(err, allow) := m name query in
      if err || negb allow then checkNamespace_run ms' (S i) name query
      else mret (Some i)
  end.

(** [Server.checkNamespace(name, query, fn)]: what [fn] is called with. *)
Definition Server_checkNamespace (name : string) (query : Query)
  : M (option string) :=
  ms ← gets parentNsps;
  if bool_decide (length ms = 0) then mret None
  else
    found ← checkNamespace_run ms 0 name query;
    match found with
    | Some i => child ← ParentNamespace_createChild i name; mret (Some child)
    | None => mret None
    end.

(** [Server.attach(srv, opts)]: [initialPacket] is [opts.initialPacket]. *)
Definition Server_attach (initialPacket : option (list Frame)) : M unit :=
  sockets ← get_nsp "/";
  if bool_decide (0 < length (n_fns sockets)) then
    (* this.initEngine(srv, opts) *)
    modify (set_eio (Some (engine_attach initialPacket)))
  else
    enc ← gets encoder;
    (* the CONNECT packet will be merged with Engine.IO handshake *)
    let connectPacket := mkPacket CONNECT (Some "/") None DNone in
    (* opts.initialPacket = this.encoder.encode(connectPacket) *)
    modify (set_eio (Some (engine_attach (Some (enc connectPacket))))).

(** ** Client *)

(** [new Client(server, conn)] *)
Definition new_Client (id : ClientId) (conn : Conn) : Client :=
  mkClient id conn [] ∅ [] true true.

(** The private [Client.doConnect(name, query)] *)
Definition Client_doConnect (cid : ClientId) (name : string) (query : Query)
  : M unit :=
  nsp ← Server_of name None;
  c ← get_client cid;
  if negb (bool_decide (name = "/")) && negb (bool_decide (is_Some (c_nsps c !! "/")))
  then
    update_client cid (fun c => set_c_connectBuffer (c_connectBuffer c ++ [name]) c)
  else
    Namespace_add nsp cid query;; mret tt.

(** [Client.connect(name, query = {})] *)
Definition Client_connect (cid : ClientId) (name : string) (query : option Query)
  : M unit :=
  let query := default (QObject []) query in
  known ← gets nsps;
  if bool_decide (is_Some (known !! name)) then Client_doConnect cid name query
  else
    dynamicNsp ← Server_checkNamespace name query;
    match dynamicNsp with
    | Some _ => Client_doConnect cid name query
    | None =>
        Client_packet cid
          (PPacket (mkPacket ERROR (Some name) None (DStr "Invalid namespace")))
          None
    end.

(** The closure [fn] that [Client.doConnect] hands to [Namespace.add], for
    the socket [r] it created. *)
Definition Client_doConnect_fn (r : SockRef) : M unit :=
  s ← get_socket r;
  update_client (s_client s) (fun c =>
    set_c_nsps (<[s_nsp s := r]> (c_nsps c))
      (set_c_sockets (omap_set (s_id s) r (c_sockets c)) c));;
  c ← get_client (s_client s);
  if bool_decide (s_nsp s = "/") && bool_decide (0 < length (c_connectBuffer c))
  then
    (* this.connectBuffer.forEach(this.connect, this): connect(name, index) *)
    for_each (imap (fun i name => (i, name)) (c_connectBuffer c))
      (fun p => Client_connect (s_client s) (snd p) (Some (QIndex (fst p))));;
    update_client (s_client s) (set_c_connectBuffer [])
  else mret tt.

(** The continuation that [Namespace.add] hands to [process.nextTick]. *)
Definition Namespace_add_tick (name : string) (r : SockRef) (err : option string)
  : M unit :=
  s ← get_socket r;
  c ← get_client (s_client s);
  if is_open (readyState (c_conn c)) then
    match err with
    | Some msg => Socket_error r msg
    | None =>
        (* track socket *)
        update_nsp name (fun n => set_n_sockets (<[s_id s := r]> (n_sockets n)) n);;
        Socket_onconnect r;;
        Client_doConnect_fn r;;
        (* fire user-set events *)
        n ← get_nsp name;
        EventEmitter_emit (OnNamespace name) (n_listeners n) [VStr "connect"; VSock r];;
        EventEmitter_emit (OnNamespace name) (n_listeners n) [VStr "connection"; VSock r]
    end
  else mret tt.

(** The private [Client.onclose(reason)] *)
Definition Client_onclose (cid : ClientId) (reason : string) : M unit :=
  (* destroy() *)
  update_client cid (set_c_bound false);;
  c ← get_client cid;
  for_each (map snd (c_sockets c)) (fun r => Socket_onclose r reason);;
  update_client cid (set_c_sockets []);;
  update_client cid (set_c_decoder false).

(** Modelled from the spec: [close()] of the transport connection, which
    leaves the connection no longer open. *)
Definition Conn_close (cid : ClientId) : M unit :=
  tell [EvClose cid];;
  update_client cid (fun c => set_c_conn (set_readyState Closing (c_conn c)) c).

(** The private [Client.close()] *)
Definition Client_close (cid : ClientId) : M unit :=
  c ← get_client cid;
  if is_open (readyState (c_conn c)) then
    Conn_close cid;;
    Client_onclose cid "forced server close"
  else mret tt.

(** [Client.disconnect()] *)
Definition Client_disconnect (cid : ClientId) : M unit :=
  c ← get_client cid;
  for_each (map snd (c_sockets c)) (fun r =>
    Socket_disconnect_with (fun _ => mret tt) r false);;
  update_client cid (set_c_sockets []);;
  Client_close cid.


(** The private [Client.onerror(err)] *)
Definition Client_onerror (cid : ClientId) (err : string) : M unit :=
  c ← get_client cid;
  for_each (map snd (c_sockets c)) (fun r => Socket_onerror r err);;
  Conn_close cid.

(** The private [Server.onconnection(conn)] *)
Definition Server_onconnection (id : ClientId) (conn : Conn) : M unit :=
  modify (fun st => set_clients (<[id := new_Client id conn]> (clients st)) st);;
  Client_connect id "/" None.

(** ** The event loop *)

Definition run_task (t : Task) : M unit :=
  match t with
  | TAdd nsp socket err => Namespace_add_tick nsp socket err
  end.

(** Runs the oldest continuation scheduled with [process.nextTick]. *)
Definition run_tick : M unit :=
  ts ← gets ticks;
  match ts with
  | [] => mret tt
  | t :: ts' => modify (set_ticks ts');; run_task t
  end.

(** ** Incoming packets *)

(** A middleware of [Socket.use]: [(event, next)], the error it passes to
    [next].  The array [fns] of a socket is an argument of the functions
    that read it. *)
Abbreviation EventMiddleware := (list Value -> option string) (only parsing).

(** [Socket.use(fn)]: [this.fns.push(fn)] *)
Definition Socket_use (fns : list EventMiddleware) (fn : EventMiddleware)
  : list EventMiddleware :=
  (fns ++ [fn])%list.

(** The private [Socket.run(event, fn)]: the error handed to [fn]. *)
Fixpoint Socket_run (fns : list EventMiddleware) (event : list Value)
  : option string :=
  match fns with
  | [] => None
  | f :: fns' =>
      match f event with
      | Some err => Some err
      | None => Socket_run fns' event
      end
  end.

(** What the inbound path hands to [process.nextTick]. *)
Inductive Continuation :=
(** [socket.onpacket(packet)], scheduled by [Client.ondecoded] *)
| KPacket (socket : SockRef) (packet : Packet)
(** the continuation of [Socket.dispatch] for [event], after the middleware
    answered [err] *)
| KDispatch (socket : SockRef) (event : list Value) (err : option string).

(** What [Socket.onpacket] leaves to its environment. *)
Inductive Reaction :=
(** a continuation was handed to [process.nextTick] *)
| Scheduled (k : Continuation)
(** the stored callback [f] was applied to [args] *)
| Called (f : Value) (args : list Value)
| Nothing.

(** The private [Socket.dispatch(event)]: runs the middleware and schedules
    the continuation. *)
Definition Socket_dispatch (fns : list EventMiddleware) (r : SockRef)
    (event : list Value) : Continuation :=
  KDispatch r event (Socket_run fns event).

(** The continuation that [Socket.dispatch] hands to [process.nextTick]. *)
Definition Socket_dispatch_tick (r : SockRef) (event : list Value)
    (err : option string) : M unit :=
  match err with
  | Some msg => Socket_error r msg
  | None =>
      s ← get_socket r;
      EventEmitter_emit (OnSocket r) (s_listeners s) event
  end.

(** The callback made by the private [Socket.ack(id)], when it is called
    with [args]; [sent] is the variable of its closure, whose new value is
    returned. *)
Definition Socket_ack (r : SockRef) (id : nat) (sent : bool) (args : list Value)
  : M bool :=
  (* prevent double callbacks *)
  if sent then mret true
  else
    Socket_packet r
      (PPacket (mkPacket (if hasBin args then BINARY_ACK else ACK) None (Some id)
                  (DArgs args)))
      None;;
    mret true.

(** The arguments that a packet carries: [packet.data || []] in [onevent],
    the array that [apply] spreads in [onack].  The decoder hands an array
    or nothing there; on a string the model is stuck. *)
Definition packet_args (packet : Packet) : M (list Value) :=
  match p_data packet with
  | DArgs args => mret args
  | DNone => mret []
  | DStr _ => stuck
  end.

(** The private [Socket.onevent(packet)].  The callback [this.ack(id)] that
    is pushed on the arguments is the function value [VFun id]. *)
Definition Socket_onevent (fns : list EventMiddleware) (r : SockRef)
    (packet : Packet) : M Continuation :=
  args ← packet_args packet;
  let args :=
    match p_id packet with
    | Some id => (args ++ [VFun id])%list
    | None => args
    end in
  mret (Socket_dispatch fns r args).

(** The private [Socket.onack(packet)]: the callback that is applied, with
    its arguments. *)
Definition Socket_onack (r : SockRef) (packet : Packet)
  : M (option (Value * list Value)) :=
  s ← get_socket r;
  match p_id packet with
  | Some id =>
      match s_acks s !! id with
      | Some ack =>
          if is_function ack then
            args ← packet_args packet;
            update_socket r (fun s => set_s_acks (delete id (s_acks s)) s);;
            mret (Some (ack, args))
          else mret None
      | None => mret None
      end
  | None => mret None
  end.

(** The private [Socket.ondisconnect()] *)
Definition Socket_ondisconnect (r : SockRef) : M unit :=
  Socket_onclose r "client namespace disconnect".

(** The message of [new Error(packet.data)] for the string, or nothing, that
    an ERROR packet carries. *)
Definition error_message (packet : Packet) : M string :=
  match p_data packet with
  | DStr s => mret s
  | DNone => mret ""
  | DArgs _ => stuck
  end.

(** [Socket.onpacket(packet)] *)
Definition Socket_onpacket (fns : list EventMiddleware) (r : SockRef)
    (packet : Packet) : M Reaction :=
  match p_type packet with
  | EVENT | BINARY_EVENT =>
      k ← Socket_onevent fns r packet; mret (Scheduled k)
  | ACK | BINARY_ACK =>
      called ← Socket_onack r packet;
      mret (match called with
            | Some (f, args) => Called f args
            | None => Nothing
            end)
  | DISCONNECT => Socket_ondisconnect r;; mret Nothing
  | ERROR => err ← error_message packet; Socket_onerror r err;; mret Nothing
  | CONNECT => mret Nothing
  end.

(** Runs a continuation of the inbound path; [fns] gives the middleware of
    each socket. *)
Definition run_continuation (fns : SockRef -> list EventMiddleware)
    (k : Continuation) : M Reaction :=
  match k with
  | KPacket r packet => Socket_onpacket (fns r) r packet
  | KDispatch r event err => Socket_dispatch_tick r event err;; mret Nothing
  end.

(** [try { body } catch (e) { handler(e) }] *)
Definition try_catch {A} (body : M A) (handler : string -> M A) : M A :=
  fun st =>
    let r := body st in
    match outcome r with
    | Throw e =>
        let r' := handler e (after r) in
        mkRun (outcome r') (after r') (trace r ++ trace r')
    | _ => r
    end.

Section Inbound.

(** [url.parse(nsp).pathname] and [url.parse(nsp, true).query] of Node.js. *)
Variable url_parse : string -> string * list (string * string).

(** The private [Client.ondecoded(packet)]: the continuation it schedules. *)
Definition Client_ondecoded (cid : ClientId) (packet : Packet)
  : M (option Continuation) :=
  match p_type packet with
  | CONNECT =>
      match p_nsp packet with
      | Some nsp =>
          Client_connect cid (fst (url_parse nsp))
            (Some (QObject (snd (url_parse nsp))));;
          mret None
      | None => stuck
      end
  | _ =>
      c ← get_client cid;
      match p_nsp packet ≫= (fun nsp => c_nsps c !! nsp) with
      | Some socket => mret (Some (KPacket socket packet))
      | None => mret None
      end
  end.

(** The private [Client.ondata(data)]; [decoded] is what [decoder.add(data)]
    does with the data: the error it throws, or the packet it emits as
    [decoded], if the data completes one. *)
Definition Client_ondata (cid : ClientId) (decoded : string + option Packet)
  : M (option Continuation) :=
  try_catch
    (match decoded with
     | inl e => throw e
     | inr (Some packet) => Client_ondecoded cid packet
     | inr None => mret None
     end)
    (fun e => Client_onerror cid e;; mret None).

End Inbound.

(** ** Reading a trace *)

Definition writes (tr : list Event) : list (ClientId * Frame * option bool) :=
  omap (fun e => match e with EvWrite c f z => Some (c, f, z) | _ => None end) tr.

Definition broadcasts (tr : list Event) : list (string * Packet * BroadcastOptions) :=
  omap (fun e => match e with EvBroadcast n p o => Some (n, p, o) | _ => None end) tr.

Definition locals (tr : list Event) : list (Target * string * list Value) :=
  omap (fun e => match e with EvLocal t ev a _ => Some (t, ev, a) | _ => None end) tr.

Definition matchers_called (tr : list Event) : list nat :=
  omap (fun e => match e with EvMatcher i _ _ => Some i | _ => None end) tr.

(** ** A concrete server, for the examples *)

Definition demo_type (t : PacketType) : string :=
  match t with
  | CONNECT => "0" | DISCONNECT => "1" | EVENT => "2" | ACK => "3"
  | ERROR => "4" | BINARY_EVENT => "5" | BINARY_ACK => "6"
  end.

Definition demo_value (v : Value) : string :=
  match v with
  | VStr s => s
  | VNum _ => "<num>"
  | VBool b => if b then "true" else "false"
  | VBin _ => "<bin>"
  | VFun _ => "<fn>"
  | VSock _ => "<socket>"
  end.

(** An encoder with one text frame per packet: type, namespace, one mark
    per unit of the id, and the data. *)
Definition demo_encode (p : Packet) : list Frame :=
  [FText (demo_type (p_type p) ++ default "" (p_nsp p) ++ ","
          ++ match p_id p with
             | Some i => String.concat "" (replicate i "i")
             | None => ""
             end
          ++ match p_data p with
             | DNone => ""
             | DStr s => s
             | DArgs a => "[" ++ String.concat "," (map demo_value a) ++ "]"
             end)].

Definition demo_conn : Conn :=
  mkConn Open true (mkRequest [] "/socket.io/" [] false) "10.0.0.1".

(** A fresh server on which the transport connection [c1] was just
    accepted: its default-namespace socket (reference 0) is constructed, its
    approval is pending. *)
Definition demo_pending : State :=
  after (Server_onconnection "c1" demo_conn (new_Server demo_encode 0)).

(** The same server one tick later: socket 0 of client [c1] is approved
    in the default namespace. *)
Definition demo_server : State := after (run_tick demo_pending).

(** * Properties *)

(** ** Running the monad *)

Lemma bind_run {A B} (m : M A) (f : A -> M B) st :
  (m ≫= f) st =
  match outcome (m st) with
  | Ret a => mkRun (outcome (f a (after (m st)))) (after (f a (after (m st))))
               (trace (m st) ++ trace (f a (after (m st))))
  | Throw e => mkRun (Throw e) (after (m st)) (trace (m st))
  | Stuck => mkRun Stuck (after (m st)) (trace (m st))
  end.
Proof. reflexivity. Qed.

Lemma bind_deref {A B} (f : State -> option A) (k : A -> M B) st a :
  f st = Some a -> (deref f ≫= k) st = k a st.
Proof. intros H. rewrite bind_run. unfold deref. rewrite H. reflexivity. Qed.

Lemma bind_deref_None {A B} (f : State -> option A) (k : A -> M B) st :
  f st = None -> (deref f ≫= k) st = mkRun Stuck st [].
Proof. intros H. rewrite bind_run. unfold deref. rewrite H. reflexivity. Qed.

Lemma bind_modify {B} (f : State -> State) (k : unit -> M B) st :
  (modify f ≫= k) st = k tt (f st).
Proof. reflexivity. Qed.

Lemma bind_gets {A B} (f : State -> A) (k : A -> M B) st :
  (gets f ≫= k) st = k (f st) st.
Proof. reflexivity. Qed.

Lemma bind_mret {A B} (a : A) (k : A -> M B) st : (mret a ≫= k) st = k a st.
Proof. reflexivity. Qed.

Lemma bind_throw {A B} (e : string) (k : A -> M B) st :
  (throw e ≫= k) st = mkRun (Throw e) st [].
Proof. reflexivity. Qed.

Lemma bind_stuck {A B} (k : A -> M B) st : (stuck ≫= k) st = mkRun Stuck st [].
Proof. reflexivity. Qed.

Lemma bind_tell {B} (es : list Event) (k : unit -> M B) st :
  (tell es ≫= k) st =
  mkRun (outcome (k tt st)) (after (k tt st)) (es ++ trace (k tt st)).
Proof. reflexivity. Qed.

Lemma bind_assoc {A B C} (m : M A) (f : A -> M B) (g : B -> M C) st :
  ((m ≫= f) ≫= g) st = (m ≫= (fun a => f a ≫= g)) st.
Proof.
  unfold mbind, M_bind. destruct (m st) as [[a|e|] st1 t1]; cbn; [|reflexivity..].
  destruct (f a st1) as [[b|e|] st2 t2]; cbn; [|reflexivity..].
  rewrite app_assoc. reflexivity.
Qed.

Lemma bind_ext {A B} (m : M A) (f g : A -> M B) st :
  (forall a st', f a st' = g a st') -> (m ≫= f) st = (m ≫= g) st.
Proof.
  intros H. rewrite !bind_run. destruct (m st) as [[a|e|] st1 t1]; cbn;
    rewrite ?H; reflexivity.
Qed.

Lemma bind_ret_silent {A B} (m : M A) (k : A -> M B) st a st' :
  m st = mkRun (Ret a) st' [] -> (m ≫= k) st = k a st'.
Proof. intros H. rewrite bind_run, H. reflexivity. Qed.

(** A computation that returns, leaves the store alone and has trace [tr]. *)
Lemma bind_pure {A B} (m : M A) (k : A -> M B) st a tr :
  m st = mkRun (Ret a) st tr ->
  (m ≫= k) st = mkRun (outcome (k a st)) (after (k a st)) (tr ++ trace (k a st)).
Proof. intros H. rewrite bind_run, H. reflexivity. Qed.

Ltac mstep :=
  first
    [ rewrite bind_modify
    | rewrite bind_gets
    | rewrite bind_mret
    | rewrite bind_throw
    | rewrite bind_stuck
    | rewrite bind_assoc
    | erewrite bind_deref by eassumption ].
Ltac msteps := repeat mstep.

(** ** Traces *)

Definition is_write (e : Event) : Prop :=
  match e with EvWrite _ _ _ => True | _ => False end.

Lemma writeToEngine_writes cid c fl fs : Forall is_write (writeToEngine cid c fl fs).
Proof.
  unfold writeToEngine. case_match; [constructor|].
  apply Forall_forall. intros e He. apply list_elem_of_fmap in He as (f & -> & _).
  exact I.
Qed.

Lemma broadcasts_writes tr : Forall is_write tr -> broadcasts tr = [].
Proof.
  induction 1 as [|e tr He _ IH]; [reflexivity|].
  destruct e; try contradiction. exact IH.
Qed.

Lemma locals_writes tr : Forall is_write tr -> locals tr = [].
Proof.
  induction 1 as [|e tr He _ IH]; [reflexivity|].
  destruct e; try contradiction. exact IH.
Qed.

Lemma broadcasts_app t1 t2 : broadcasts (t1 ++ t2) = (broadcasts t1 ++ broadcasts t2)%list.
Proof. unfold broadcasts. apply omap_app. Qed.

Lemma writes_app t1 t2 : writes (t1 ++ t2) = (writes t1 ++ writes t2)%list.
Proof. unfold writes. apply omap_app. Qed.

(** ** Client.packet and Socket.packet *)

(** What [Client.packet] writes for the frames [fs]. *)
Definition transport_writes (cid : ClientId) (c : Client) (fl : BroadcastFlags)
    (fs : list Frame) : list Event :=
  if is_open (readyState (c_conn c)) then writeToEngine cid c fl fs else [].

Lemma Client_packet_packet cid c p o st :
  clients st !! cid = Some c ->
  Client_packet cid (PPacket p) o st =
  mkRun (Ret tt) st
    (transport_writes cid c (o_flags (default (mkOpts no_flags false) o))
       (encoder st p)) \/
  (o_preEncoded (default (mkOpts no_flags false) o) = true /\
   is_open (readyState (c_conn c)) = true /\
   Client_packet cid (PPacket p) o st = mkRun Stuck st []).
Proof.
  intros Hc. unfold Client_packet, get_client, transport_writes. msteps.
  destruct (is_open (readyState (c_conn c))); [|left; reflexivity].
  destruct (o_preEncoded (default (mkOpts no_flags false) o)).
  - right. msteps. done.
  - left. msteps. reflexivity.
Qed.

Lemma Client_packet_run cid c p fl st :
  clients st !! cid = Some c ->
  Client_packet cid (PPacket p) (Some (mkOpts fl false)) st =
  mkRun (Ret tt) st (transport_writes cid c fl (encoder st p)).
Proof.
  intros Hc. unfold Client_packet, get_client, transport_writes. msteps. cbn.
  destruct (is_open (readyState (c_conn c))); [|reflexivity].
  msteps. reflexivity.
Qed.

Lemma Client_packet_default cid c p st :
  clients st !! cid = Some c ->
  Client_packet cid (PPacket p) None st =
  mkRun (Ret tt) st (transport_writes cid c no_flags (encoder st p)).
Proof.
  intros Hc. unfold Client_packet, get_client, transport_writes. msteps. cbn.
  destruct (is_open (readyState (c_conn c))); [|reflexivity].
  msteps. reflexivity.
Qed.

(** [Client.packet] never changes the store, and only writes. *)
Lemma Client_packet_frame cid payload o st :
  after (Client_packet cid payload o st) = st /\
  Forall is_write (trace (Client_packet cid payload o st)).
Proof.
  unfold Client_packet, get_client.
  destruct (clients st !! cid) as [c|] eqn:Hc.
  2:{ rewrite bind_deref_None by done. split; [reflexivity|constructor]. }
  msteps. destruct (is_open (readyState (c_conn c))); [|split; [reflexivity|constructor]].
  destruct (o_preEncoded _), payload; msteps;
    (split; [reflexivity|]); try constructor; apply writeToEngine_writes.
Qed.

Lemma Socket_packet_run r s p fl st :
  sockets st !! r = Some s ->
  Socket_packet r (PPacket p) (Some (mkOpts fl false)) st =
  Client_packet (s_client s) (PPacket (set_p_nsp (s_nsp s) p))
    (Some (mkOpts (compress_of fl) false)) st.
Proof. intros Hs. unfold Socket_packet, get_socket. msteps. reflexivity. Qed.

Lemma Socket_packet_default r s p st :
  sockets st !! r = Some s ->
  Socket_packet r (PPacket p) None st =
  Client_packet (s_client s) (PPacket (set_p_nsp (s_nsp s) p))
    (Some (mkOpts (compress_of no_flags) false)) st.
Proof. intros Hs. unfold Socket_packet, get_socket. msteps. reflexivity. Qed.

Lemma Socket_packet_frame r payload o st :
  after (Socket_packet r payload o st) = st /\
  Forall is_write (trace (Socket_packet r payload o st)).
Proof.
  unfold Socket_packet, get_socket.
  destruct (sockets st !! r) as [s|] eqn:Hs.
  2:{ rewrite bind_deref_None by done. split; [reflexivity|constructor]. }
  msteps. apply Client_packet_frame.
Qed.

(** A loop whose body leaves the store alone and only writes does so too. *)
Lemma for_each_frame {A} (xs : list A) (body : A -> M unit) st :
  (forall x st, after (body x st) = st /\ Forall is_write (trace (body x st))) ->
  after (for_each xs body st) = st /\
  Forall is_write (trace (for_each xs body st)).
Proof.
  intros Hb. induction xs as [|x xs IH]; [split; [reflexivity|constructor]|].
  cbn [for_each]. rewrite bind_run.
  destruct (Hb x st) as [Hst Htr].
  destruct (body x st) as [[[]|e|] st1 t1]; cbn in *; subst st1; [|done..].
  destruct IH as [IH1 IH2]. split; [exact IH1|].
  apply Forall_app. done.
Qed.

(** [Adapter.broadcast] leaves the store alone; its trace is the call
    followed by writes. *)
Lemma Adapter_broadcast_frame nsp p opts st :
  after (Adapter_broadcast nsp p opts st) = st /\
  exists deliveries,
    trace (Adapter_broadcast nsp p opts st) = EvBroadcast nsp p opts :: deliveries /\
    Forall is_write deliveries.
Proof.
  unfold Adapter_broadcast, get_nsp. rewrite bind_tell.
  destruct (nsps st !! nsp) as [n|] eqn:Hn.
  2:{ rewrite bind_deref_None by done. cbn. split; [reflexivity|].
      exists []. split; [reflexivity|constructor]. }
  msteps.
  match goal with |- context [for_each ?xs ?body st] =>
    destruct (for_each_frame xs body st) as [H1 H2] end.
  { intros id st'. destruct (n_connected n !! id).
    - apply Socket_packet_frame.
    - split; [reflexivity|constructor]. }
  cbn. split; [exact H1|]. eexists. split; [reflexivity|exact H2].
Qed.

Lemma Adapter_broadcast_broadcasts nsp p opts st :
  broadcasts (trace (Adapter_broadcast nsp p opts st)) = [(nsp, p, opts)].
Proof.
  destruct (Adapter_broadcast_frame nsp p opts st) as (_ & d & -> & Hd).
  rewrite <- (broadcasts_writes d Hd). reflexivity.
Qed.


(** ** Socket.emit *)

Lemma Socket_emit_reserved r s args st :
  sockets st !! r = Some s ->
  blacklisted Socket_events args = true ->
  Socket_emit r args st = EventEmitter_emit (OnSocket r) (s_listeners s) args st.
Proof.
  intros Hs Hb. unfold Socket_emit, get_socket. msteps. rewrite Hb. reflexivity.
Qed.

Lemma Socket_emit_throws r s args st :
  sockets st !! r = Some s ->
  blacklisted Socket_events args = false ->
  last_is_function args = true ->
  broadcasting (s__rooms s) (s_flags s) = true ->
  Socket_emit r args st =
  mkRun (Throw "Callbacks are not supported when broadcasting") st [].
Proof.
  intros Hs Hb Hl Hr. unfold Socket_emit, get_socket. msteps.
  rewrite Hb, Hl, Hr. msteps. reflexivity.
Qed.

(** An emit without callback: the staged rooms and flags are reset, then the
    packet goes to the adapter or to [Socket.packet]. *)
Lemma Socket_emit_plain r s args st :
  sockets st !! r = Some s ->
  blacklisted Socket_events args = false ->
  last_is_function args = false ->
  Socket_emit r args st =
  (if broadcasting (s__rooms s) (s_flags s) then
     Adapter_broadcast (s_nsp s)
       (mkPacket (event_type (s_flags s) args) None None (DArgs args))
       (mkBroadcastOptions (s__rooms s) (Some {[s_id s]}) (s_flags s))
   else
     Socket_packet r
       (PPacket (mkPacket (event_type (s_flags s) args) None None (DArgs args)))
       (Some (mkOpts (s_flags s) false)))
    (set_sockets (alter reset_staged r (sockets st)) st).
Proof.
  intros Hs Hb Hl. unfold Socket_emit, get_socket. msteps.
  rewrite Hb, Hl. msteps. unfold update_socket. msteps. reflexivity.
Qed.

(** The store after an emit with an ack callback, sent directly. *)
Definition ack_stored (r : SockRef) (s : Socket) (n : Namespace)
    (args : list Value) (st : State) : State :=
  let st1 :=
    set_sockets
      (alter (fun s => set_s_acks
                (<[n_ids n := default (VBool false) (last args)]> (s_acks s)) s)
         r (sockets st)) st in
  let st2 := set_nsps (alter (set_n_ids (S (n_ids n))) (s_nsp s) (nsps st1)) st1 in
  set_sockets (alter reset_staged r (sockets st2)) st2.

Lemma Socket_emit_ack r s n args st :
  sockets st !! r = Some s ->
  nsps st !! s_nsp s = Some n ->
  blacklisted Socket_events args = false ->
  last_is_function args = true ->
  broadcasting (s__rooms s) (s_flags s) = false ->
  Socket_emit r args st =
  Socket_packet r
    (PPacket (mkPacket (event_type (s_flags s) args) None (Some (n_ids n))
                (DArgs (removelast args))))
    (Some (mkOpts (s_flags s) false))
    (ack_stored r s n args st).
Proof.
  intros Hs Hn Hb Hl Hr. unfold Socket_emit, get_socket, get_nsp. msteps.
  rewrite Hb, Hl, Hr. msteps. unfold update_socket, update_nsp. msteps.
  reflexivity.
Qed.

Lemma ack_stored_socket r s n args st :
  sockets st !! r = Some s ->
  sockets (ack_stored r s n args st) !! r =
  Some (reset_staged
          (set_s_acks (<[n_ids n := default (VBool false) (last args)]> (s_acks s)) s)).
Proof.
  intros Hs. unfold ack_stored. cbn.
  rewrite !list_lookup_alter_eq, Hs. reflexivity.
Qed.

Lemma ack_stored_other r r' s n args st :
  r ≠ r' ->
  sockets (ack_stored r s n args st) !! r' = sockets st !! r'.
Proof.
  intros Hne. unfold ack_stored. cbn.
  rewrite !list_lookup_alter_ne by done. reflexivity.
Qed.




(** ** Ack callbacks *)

Lemma Namespace_emit_throws name n args st :
  nsps st !! name = Some n ->
  blacklisted Namespace_events args = false ->
  last_is_function args = true ->
  Namespace_emit name args st =
  mkRun (Throw "Callbacks are not supported when broadcasting") st [].
Proof.
  intros Hn Hb Hl. unfold Namespace_emit, get_nsp. msteps.
  rewrite Hb, Hl. reflexivity.
Qed.

Lemma last_is_function_Some args :
  last_is_function args = true ->
  exists cb, last args = Some cb /\ is_function cb = true.
Proof.
  unfold last_is_function. destruct (last args) as [v|]; [|done].
  intros H. exists v. done.
Qed.

(** An emit of a reserved event name goes to the local listeners only:
    whatever the arguments, the store is untouched and nothing is sent; the
    only failure is that of an [error] event without listener. *)
Lemma EventEmitter_emit_local on ls args st :
  let run := EventEmitter_emit on ls args st in
  after run = st /\ writes (trace run) = [] /\ broadcasts (trace run) = [] /\
  (outcome run = Ret tt \/ outcome run = Throw "Unhandled error.").
Proof.
  unfold EventEmitter_emit. destruct args as [|[ev| | | | |] rest];
    try (cbn; split; [reflexivity|]; split; [reflexivity|]; split; [reflexivity|];
         left; reflexivity).
  destruct (listeners ev ls); [case_bool_decide|];
    cbn; (split; [reflexivity|]); (split; [reflexivity|]); (split; [reflexivity|]);
    (left + right); reflexivity.
Qed.

(** C3 (amended).  For a non-reserved event name: if the last argument of
    [Socket.emit] is a function while a room is staged or the broadcast flag
    is set, or the last argument of [Namespace.emit] is a function, the call
    throws "Callbacks are not supported when broadcasting", the store is
    untouched (no ack id is allocated or stored) and nothing is sent;
    otherwise ([Socket.emit], not broadcasting) the id is the counter of the
    namespace, which is incremented, the callback is stored in [acks] under
    that id and the packet written carries the id and the arguments without
    the callback.  For a reserved event name the check of the callback is
    not reached: the call does not throw that error, the store is untouched
    (no ack id is allocated or stored) and nothing is sent. *)
Theorem emit_callback_when_broadcasting :
  (forall r s args st,
     sockets st !! r = Some s ->
     blacklisted Socket_events args = false ->
     last_is_function args = true ->
     (broadcasting (s__rooms s) (s_flags s) = true ->
      Socket_emit r args st =
      mkRun (Throw "Callbacks are not supported when broadcasting") st []) /\
     (broadcasting (s__rooms s) (s_flags s) = false ->
      forall n c,
        nsps st !! s_nsp s = Some n ->
        clients st !! s_client s = Some c ->
        let run := Socket_emit r args st in
        exists cb,
          last args = Some cb /\ is_function cb = true /\
          outcome run = Ret tt /\
          (s_acks <$> sockets (after run) !! r) = Some (<[n_ids n := cb]> (s_acks s)) /\
          (n_ids <$> nsps (after run) !! s_nsp s) = Some (S (n_ids n)) /\
          trace run =
            transport_writes (s_client s) c (compress_of (s_flags s))
              (encoder st
                 (mkPacket (event_type (s_flags s) args) (Some (s_nsp s))
                    (Some (n_ids n)) (DArgs (removelast args)))))) /\
  (forall name n args st,
     nsps st !! name = Some n ->
     blacklisted Namespace_events args = false ->
     last_is_function args = true ->
     Namespace_emit name args st =
     mkRun (Throw "Callbacks are not supported when broadcasting") st []) /\
  (forall r s args st,
     sockets st !! r = Some s ->
     blacklisted Socket_events args = true ->
     let run := Socket_emit r args st in
     outcome run <> Throw "Callbacks are not supported when broadcasting" /\
     after run = st /\ writes (trace run) = [] /\ broadcasts (trace run) = []) /\
  (forall name n args st,
     nsps st !! name = Some n ->
     blacklisted Namespace_events args = true ->
     let run := Namespace_emit name args st in
     outcome run <> Throw "Callbacks are not supported when broadcasting" /\
     after run = st /\ writes (trace run) = [] /\ broadcasts (trace run) = []).
Proof.
  split; [|split; [apply Namespace_emit_throws|]].
  2:{ split.
      - intros r s args st Hs Hb run. subst run.
        rewrite (Socket_emit_reserved r s) by done.
        destruct (EventEmitter_emit_local (OnSocket r) (s_listeners s) args st)
          as (Ha & Hw & Hbc & [Ho|Ho]); rewrite Ho; done.
      - intros name n args st Hn Hb run. subst run.
        assert (Hrun : Namespace_emit name args st =
                       EventEmitter_emit (OnNamespace name) (n_listeners n) args st).
        { unfold Namespace_emit, get_nsp. msteps. rewrite Hb. reflexivity. }
        rewrite Hrun.
        destruct (EventEmitter_emit_local (OnNamespace name) (n_listeners n) args st)
          as (Ha & Hw & Hbc & [Ho|Ho]); rewrite Ho; done. }
  intros r s args st Hs Hb Hl. split.
  - intros Hbr. apply (Socket_emit_throws r s); done.
  - intros Hbr n c Hn Hc run. subst run.
    destruct (last_is_function_Some args Hl) as (cb & Hcb & Hf).
    exists cb. split; [done|]. split; [done|].
    rewrite (Socket_emit_ack r s n) by done.
    erewrite Socket_packet_run by (apply ack_stored_socket; exact Hs).
    rewrite (Client_packet_run _ c) by exact Hc. cbn [outcome trace after].
    split; [reflexivity|]. split; [|split; [|reflexivity]].
    + rewrite (ack_stored_socket r s n) by done. rewrite Hcb. reflexivity.
    + unfold ack_stored. cbn. rewrite lookup_alter_eq, Hn. reflexivity.
Qed.

Lemma emit_callback_when_broadcasting_witness :
  outcome (Socket_emit 0 [VStr "x"; VFun 7] (after (Socket_broadcast 0 demo_server))) =
    Throw "Callbacks are not supported when broadcasting" /\
  writes (trace (Socket_emit 0 [VStr "ping"; VStr "hi"; VFun 7] demo_server)) =
    [("c1", FText "2/,[ping,hi]", Some true)] /\
  outcome (Namespace_emit "/" [VStr "x"; VFun 7] demo_server) =
    Throw "Callbacks are not supported when broadcasting" /\
  after (Socket_emit 0 [VStr "error"; VFun 7] (after (Socket_to 0 "r1" demo_server))) =
    after (Socket_to 0 "r1" demo_server).
Proof.
  destruct emit_callback_when_broadcasting as (HS & HN & HR & _).
  split; [|split; [|split]].
  4:{ eassert (Hs : sockets (after (Socket_to 0 "r1" demo_server)) !! 0 = Some _)
        by (vm_compute; reflexivity).
      exact (proj1 (proj2 (HR 0 _ [VStr "error"; VFun 7] _ Hs eq_refl))). }
  - eassert (Hs : sockets (after (Socket_broadcast 0 demo_server)) !! 0 = Some _)
      by (vm_compute; reflexivity).
    destruct (HS 0 _ [VStr "x"; VFun 7] _ Hs eq_refl eq_refl) as [-> _];
      [vm_compute|]; reflexivity.
  - eassert (Hs : sockets demo_server !! 0 = Some _) by (vm_compute; reflexivity).
    destruct (HS 0 _ [VStr "ping"; VStr "hi"; VFun 7] _ Hs eq_refl eq_refl) as [_ H].
    edestruct H as (cb & _ & _ & _ & _ & _ & ->); [vm_compute; reflexivity ..|].
    vm_compute. reflexivity.
  - eassert (Hn : nsps demo_server !! "/" = Some _) by (vm_compute; reflexivity).
    rewrite (HN "/" _ [VStr "x"; VFun 7] demo_server Hn eq_refl eq_refl).
    reflexivity.
Defined.

(** C3 as stated fails for a reserved event name: with the room [r1] staged
    and a function as last argument, [emit("connect", cb)] does not fail; it
    raises the event locally. *)
Lemma Socket_emit_reserved_callback_returns :
  let st := after (Socket_to 0 "r1" demo_server) in
  let args := [VStr "connect"; VFun 7] in
  last_is_function args = true /\
  (s__rooms <$> sockets st !! 0) = Some {["r1"]} /\
  outcome (Socket_emit 0 args st) = Ret tt /\
  locals (trace (Socket_emit 0 args st)) = [(OnSocket 0, "connect", [VFun 7])].
Proof. vm_compute. repeat split. Qed.

(** ** The reset of the staged rooms and flags *)

(** C10 (amended).  Every [Socket.emit] with a non-reserved event name that
    does not fail leaves [_rooms] empty and [flags] equal to [{}], whether
    the packet went to the client or to the adapter; the socket's id,
    handshake, namespace, client, connection flags, listeners and the [acks]
    entries under other ids than the one allocated are unchanged, and so is
    every other socket.  When the call fails (a function as last argument
    while broadcasting) the store is untouched: the staged rooms and flags
    are still there. *)
Theorem Socket_emit_resets r s n args st :
  sockets st !! r = Some s ->
  nsps st !! s_nsp s = Some n ->
  blacklisted Socket_events args = false ->
  let run := Socket_emit r args st in
  if last_is_function args && broadcasting (s__rooms s) (s_flags s) then
    outcome run = Throw "Callbacks are not supported when broadcasting" /\
    after run = st
  else
    (exists s',
       sockets (after run) !! r = Some s' /\
       s__rooms s' = ∅ /\ s_flags s' = no_flags /\
       s_id s' = s_id s /\ s_handshake s' = s_handshake s /\
       s_nsp s' = s_nsp s /\ s_client s' = s_client s /\
       s_connected s' = s_connected s /\ s_disconnected s' = s_disconnected s /\
       s_listeners s' = s_listeners s /\
       (forall i, i ≠ n_ids n -> s_acks s' !! i = s_acks s !! i) /\
       (last_is_function args = false -> s_acks s' = s_acks s)) /\
    (forall r', r ≠ r' -> sockets (after run) !! r' = sockets st !! r').
Proof.
  intros Hs Hn Hb run. subst run.
  destruct (last_is_function args) eqn:Hl;
    destruct (broadcasting (s__rooms s) (s_flags s)) eqn:Hbr; cbn [andb].
  - rewrite (Socket_emit_throws r s) by done. done.
  - rewrite (Socket_emit_ack r s n) by done.
    destruct (Socket_packet_frame r
      (PPacket (mkPacket (event_type (s_flags s) args) None (Some (n_ids n))
                  (DArgs (removelast args))))
      (Some (mkOpts (s_flags s) false)) (ack_stored r s n args st)) as [-> _].
    split; [|intros r' Hr'; by apply ack_stored_other].
    eexists. split; [by apply ack_stored_socket|]. cbn.
    repeat (split; [reflexivity|]). split; [|done].
    intros i Hi. by rewrite lookup_insert_ne.
  - rewrite (Socket_emit_plain r s) by done. rewrite Hbr.
    match goal with |- context [Adapter_broadcast ?a ?b ?c ?d] =>
      destruct (Adapter_broadcast_frame a b c d) as [-> _] end.
    split; [|intros r' Hr'; cbn; by rewrite list_lookup_alter_ne].
    eexists. split; [cbn; rewrite list_lookup_alter_eq, Hs; reflexivity|].
    cbn. repeat (split; [reflexivity|]). done.
  - rewrite (Socket_emit_plain r s) by done. rewrite Hbr.
    match goal with |- context [Socket_packet ?a ?b ?c ?d] =>
      destruct (Socket_packet_frame a b c d) as [-> _] end.
    split; [|intros r' Hr'; cbn; by rewrite list_lookup_alter_ne].
    eexists. split; [cbn; rewrite list_lookup_alter_eq, Hs; reflexivity|].
    cbn. repeat (split; [reflexivity|]). done.
Qed.

Lemma Socket_emit_resets_witness :
  let st := after ((Socket_to 0 "r1";; Socket_volatile 0) demo_server) in
  (s__rooms <$> sockets st !! 0) = Some {["r1"]} /\
  exists s',
    sockets (after (Socket_emit 0 [VStr "x"; VNum 1] st)) !! 0 = Some s' /\
    s__rooms s' = ∅ /\ s_flags s' = no_flags.
Proof.
  intros st. split; [vm_compute; reflexivity|].
  eassert (Hs : sockets st !! 0 = Some _) by (vm_compute; reflexivity).
  eassert (Hn : nsps st !! "/" = Some _) by (vm_compute; reflexivity).
  destruct (Socket_emit_resets 0 _ _ [VStr "x"; VNum 1] st Hs Hn eq_refl)
    as [(s' & H1 & H2 & H3 & _) _].
  exists s'. exact (conj H1 (conj H2 H3)).
Defined.

(** C10 as stated fails when the call terminates with an error: after
    [to("r1").volatile.emit("x", cb)] has thrown, [_rooms] still holds [r1]
    and the [volatile] flag is still set. *)
Lemma Socket_emit_error_keeps_staged :
  let st := after ((Socket_to 0 "r1";; Socket_volatile 0) demo_server) in
  let run := Socket_emit 0 [VStr "x"; VFun 7] st in
  blacklisted Socket_events [VStr "x"; VFun 7] = false /\
  outcome run = Throw "Callbacks are not supported when broadcasting" /\
  (s__rooms <$> sockets (after run) !! 0) = Some {["r1"]} /\
  (s_flags <$> sockets (after run) !! 0) = Some (set_f_volatile true no_flags).
Proof. vm_compute. repeat split. Qed.

(** ** Reserved event names *)

Lemma EventEmitter_emit_cases on ls ev rest st :
  EventEmitter_emit on ls (VStr ev :: rest) st =
    mkRun (Ret tt) st [EvLocal on ev rest st] \/
  (ev = "error" /\ listeners "error" ls = [] /\
   EventEmitter_emit on ls (VStr ev :: rest) st =
     mkRun (Throw "Unhandled error.") st []).
Proof.
  unfold EventEmitter_emit.
  destruct (listeners ev ls) eqn:Hl; [|left; reflexivity].
  case_bool_decide as Hev; [|left; reflexivity].
  right. subst ev. done.
Qed.

Lemma EventEmitter_emit_not_error on ls ev rest st :
  ev ≠ "error" ->
  EventEmitter_emit on ls (VStr ev :: rest) st =
  mkRun (Ret tt) st [EvLocal on ev rest st].
Proof.
  intros Hev. destruct (EventEmitter_emit_cases on ls ev rest st) as [H|[H _]];
    done.
Qed.

Lemma Namespace_emit_reserved name n args st :
  nsps st !! name = Some n ->
  blacklisted Namespace_events args = true ->
  Namespace_emit name args st =
  EventEmitter_emit (OnNamespace name) (n_listeners n) args st.
Proof.
  intros Hn Hb. unfold Namespace_emit, get_nsp. msteps. rewrite Hb. reflexivity.
Qed.

(** A namespace-level emit that is sent: the set of staged rooms is emptied
    in place, the flags are reset, and the adapter is called. *)
Lemma Namespace_emit_sends name n rooms args st :
  nsps st !! name = Some n ->
  roomsets st !! n_rooms n = Some rooms ->
  blacklisted Namespace_events args = false ->
  last_is_function args = false ->
  Namespace_emit name args st =
  Adapter_broadcast name
    (mkPacket (event_type (n_flags n) args) None None (DArgs args))
    (mkBroadcastOptions rooms None (n_flags n))
    (set_nsps (alter (set_n_flags no_flags) name (nsps st))
       (set_roomsets (<[n_rooms n := ∅]> (roomsets st)) st)).
Proof.
  intros Hn Hr Hb Hl. unfold Namespace_emit, get_nsp. msteps.
  rewrite Hb, Hl. msteps. unfold update_nsp. msteps. reflexivity.
Qed.

(** C7 (amended).  For every name in [error, connect, disconnect,
    disconnecting, newListener, removeListener], [Socket.emit] raises the
    event on the local listeners only: the store is unchanged, nothing is
    written and the adapter is not called.  For a namespace the reserved
    names are [connect, connection, newListener]: [Namespace.emit] raises
    those locally only, and it broadcasts [error], [disconnect],
    [disconnecting] and [removeListener] through the adapter like any other
    event. *)
Theorem reserved_events_stay_local :
  (forall r s ev args st,
     sockets st !! r = Some s ->
     ev ∈ ["error"; "connect"; "disconnect"; "disconnecting"; "newListener";
           "removeListener"] ->
     let run := Socket_emit r (VStr ev :: args) st in
     after run = st /\ writes (trace run) = [] /\ broadcasts (trace run) = [] /\
     (run = mkRun (Ret tt) st [EvLocal (OnSocket r) ev args st] \/
      (ev = "error" /\ listeners "error" (s_listeners s) = [] /\
       run = mkRun (Throw "Unhandled error.") st []))) /\
  (forall name n ev args st,
     nsps st !! name = Some n ->
     ev ∈ ["connect"; "connection"; "newListener"] ->
     Namespace_emit name (VStr ev :: args) st =
     mkRun (Ret tt) st [EvLocal (OnNamespace name) ev args st]) /\
  (forall name n rooms ev args st,
     nsps st !! name = Some n ->
     roomsets st !! n_rooms n = Some rooms ->
     ev ∈ ["error"; "disconnect"; "disconnecting"; "removeListener"] ->
     last_is_function (VStr ev :: args) = false ->
     broadcasts (trace (Namespace_emit name (VStr ev :: args) st)) =
     [(name,
       mkPacket (event_type (n_flags n) (VStr ev :: args)) None None
         (DArgs (VStr ev :: args)),
       mkBroadcastOptions rooms None (n_flags n))]).
Proof.
  split; [|split].
  - intros r s ev args st Hs Hev run. subst run.
    rewrite (Socket_emit_reserved r s) by (done || by apply bool_decide_eq_true_2).
    destruct (EventEmitter_emit_cases (OnSocket r) (s_listeners s) ev args st)
      as [->|(He & Hl & ->)]; cbn.
    + repeat split. left. reflexivity.
    + repeat split. right. done.
  - intros name n ev args st Hn Hev.
    rewrite (Namespace_emit_reserved name n)
      by (done || by apply bool_decide_eq_true_2).
    apply EventEmitter_emit_not_error.
    intros ->. repeat (apply elem_of_cons in Hev as [Hev|Hev]; [done|]).
    by apply elem_of_nil in Hev.
  - intros name n rooms ev args st Hn Hr Hev Hl.
    rewrite (Namespace_emit_sends name n rooms) by
      (try done;
       repeat (apply elem_of_cons in Hev as [->|Hev]; [reflexivity|]);
       by apply elem_of_nil in Hev).
    apply Adapter_broadcast_broadcasts.
Qed.

Lemma reserved_events_stay_local_witness :
  trace (Socket_emit 0 [VStr "disconnect"; VStr "bye"] demo_server) =
    [EvLocal (OnSocket 0) "disconnect" [VStr "bye"] demo_server] /\
  trace (Namespace_emit "/" [VStr "connection"; VNum 1] demo_server) =
    [EvLocal (OnNamespace "/") "connection" [VNum 1] demo_server] /\
  length (broadcasts (trace (Namespace_emit "/" [VStr "disconnect"] demo_server))) = 1.
Proof.
  destruct reserved_events_stay_local as (HS & HN & HB).
  split; [|split].
  - eassert (Hs : sockets demo_server !! 0 = Some _) by (vm_compute; reflexivity).
    destruct (HS 0 _ "disconnect" [VStr "bye"] demo_server Hs) as (_ & _ & _ & [->|[H _]]).
    + rewrite !elem_of_cons; auto 10.
    + reflexivity.
    + discriminate H.
  - eassert (Hn : nsps demo_server !! "/" = Some _) by (vm_compute; reflexivity).
    rewrite (HN "/" _ "connection" [VNum 1] demo_server Hn); [reflexivity|rewrite !elem_of_cons; auto 10].
  - eassert (Hn : nsps demo_server !! "/" = Some _) by (vm_compute; reflexivity).
    erewrite (HB "/" _ _ "disconnect" [] demo_server Hn);
      [reflexivity|vm_compute; reflexivity|rewrite !elem_of_cons; auto 10|reflexivity].
Defined.

(** C7 as stated fails for a namespace: [error] is not blacklisted in
    [namespace.ts], so [Namespace.emit("error")] calls the adapter, which
    writes an EVENT packet to the connected socket. *)
Lemma Namespace_emit_error_is_broadcast :
  let run := Namespace_emit "/" [VStr "error"] demo_server in
  broadcasts (trace run) =
    [("/", mkPacket EVENT None None (DArgs [VStr "error"]),
      mkBroadcastOptions ∅ None no_flags)] /\
  writes (trace run) = [("c1", FText "2/,[error]", Some true)] /\
  locals (trace run) = [].
Proof. vm_compute. repeat split. Qed.

(** ** Socket.onconnect and the CONNECT packet *)

Lemma Adapter_addAll_member id rooms a room :
  room ∈ rooms ->
  exists members,
    a_rooms (Adapter_addAll id rooms a) !! room = Some members /\ id ∈ members.
Proof.
  intros Hin. unfold Adapter_addAll. cbn.
  rewrite lookup_union_with, lookup_gset_to_gmap.
  rewrite option_guard_True by done. cbn.
  destruct (a_rooms a !! room) as [old|]; cbn; eexists; split; try reflexivity.
  - apply elem_of_union_l. by apply elem_of_singleton.
  - by apply elem_of_singleton.
Qed.

Lemma Adapter_addAll_socketRooms id rooms a :
  exists joined,
    Adapter_socketRooms id (Adapter_addAll id rooms a) = Some joined /\
    rooms ⊆ joined.
Proof.
  unfold Adapter_socketRooms, Adapter_addAll. cbn.
  rewrite lookup_insert_eq. eexists. split; [reflexivity|].
  apply union_subseteq_l.
Qed.

(** The store after [Socket.onconnect]: the socket is in [connected] and in
    the room named by its id. *)
Definition onconnect_store (r : SockRef) (s : Socket) (st : State) : State :=
  let st1 :=
    set_nsps (alter (fun n => set_n_connected (<[s_id s := r]> (n_connected n)) n)
                (s_nsp s) (nsps st)) st in
  set_nsps (alter (fun n => set_n_adapter
                     (Adapter_addAll (s_id s) (list_to_set [s_id s]) (n_adapter n)) n)
              (s_nsp s) (nsps st1)) st1.

Lemma Socket_onconnect_run r s n c st :
  sockets st !! r = Some s ->
  nsps st !! s_nsp s = Some n ->
  clients st !! s_client s = Some c ->
  Socket_onconnect r st =
  mkRun (Ret tt) (onconnect_store r s st)
    (if bool_decide (n_name n = "/") && bool_decide (length (n_fns n) = 0) then []
     else transport_writes (s_client s) c (compress_of no_flags)
            (encoder st (mkPacket CONNECT (Some (s_nsp s)) None DNone))).
Proof.
  intros Hs Hn Hc. unfold Socket_onconnect, get_socket. msteps.
  unfold update_nsp at 1. msteps.
  unfold Socket_join, get_socket. msteps. unfold update_nsp. msteps.
  fold (onconnect_store r s st).
  assert (Hn' : nsps (onconnect_store r s st) !! s_nsp s =
                Some (set_n_adapter
                        (Adapter_addAll (s_id s) (list_to_set [s_id s]) (n_adapter n))
                        (set_n_connected (<[s_id s := r]> (n_connected n)) n))).
  { unfold onconnect_store. cbn. rewrite !lookup_alter_eq, Hn. reflexivity. }
  unfold get_nsp. erewrite bind_deref by exact Hn'. cbn [n_name n_fns set_n_adapter set_n_connected].
  destruct (bool_decide (n_name n = "/") && bool_decide (length (n_fns n) = 0));
    [reflexivity|].
  erewrite Socket_packet_default by exact Hs.
  rewrite (Client_packet_run _ c) by exact Hc. reflexivity.
Qed.

(** The CONNECT packet rides on the transport handshake: whenever the
    engine is attached and the default namespace has no middleware, the
    engine holds the encoded CONNECT packet as [initialPacket]. *)
Definition piggybacked (st : State) : Prop :=
  forall e n0,
    eio st = Some e ->
    nsps st !! "/" = Some n0 ->
    n_fns n0 = [] ->
    initialPacket e = Some (encoder st (mkPacket CONNECT (Some "/") None DNone)).

Lemma Server_attach_piggybacked ip n0 st :
  nsps st !! "/" = Some n0 ->
  outcome (Server_attach ip st) = Ret tt /\
  is_Some (eio (after (Server_attach ip st))) /\
  piggybacked (after (Server_attach ip st)).
Proof.
  intros Hn. unfold Server_attach, get_nsp. msteps.
  case_bool_decide as Hlen; msteps; cbn; (split; [reflexivity|]); (split; [eauto|]).
  - intros e n0' He Hn' Hf. cbn in *. rewrite Hn in Hn'. injection Hn' as <-.
    rewrite Hf in Hlen. cbn in Hlen. lia.
  - intros e n0' He Hn' Hf. cbn in *. injection He as <-. reflexivity.
Qed.

Lemma Namespace_use_piggybacked name n fn st :
  nsps st !! name = Some n ->
  n_name n = name ->
  piggybacked st ->
  piggybacked (after (Namespace_use name fn st)).
Proof.
  intros Hn Hname Hp. unfold Namespace_use, get_nsp. msteps.
  assert (Hfns : forall st',
    nsps st' = nsps st ->
    encoder st' = encoder st ->
    (name = "/" \/ eio st' = eio st) ->
    piggybacked (after (update_nsp name (fun n => set_n_fns (n_fns n ++ [fn]) n) st'))).
  { intros st' Hst' Henc Hcase e n0 He Hn0 Hf. cbn in He, Hn0. cbn [after update_nsp modify encoder set_nsps]. rewrite Henc. rewrite Hst' in Hn0.
    destruct (decide (name = "/")) as [->|Hne].
    - rewrite lookup_alter_eq, Hn in Hn0. injection Hn0 as <-.
      cbn in Hf. by destruct (n_fns n).
    - destruct Hcase as [?|Heio]; [done|].
      rewrite lookup_alter_ne in Hn0 by done. rewrite Heio in He.
      by apply (Hp e n0). }
  destruct (eio st) as [e0|] eqn:He0.
  - case_bool_decide as Hd; msteps.
    + apply Hfns; [reflexivity|reflexivity|left; congruence].
    + apply Hfns; [reflexivity|reflexivity|right; exact He0].
  - msteps. apply Hfns; [reflexivity|reflexivity|right; exact He0].
Qed.

(** C4.  For every socket approved by its namespace (the transport is open),
    [onconnect] registers the socket in [nsp.connected], joins it to the
    room named by its own id and then writes one CONNECT packet to its
    client, except that nothing is written when the namespace is ["/"] and
    has no middleware.  In that case the CONNECT packet is the
    [initialPacket] of the engine: [attach] prepares it exactly when the
    default namespace has no middleware, and [use] keeps it so. *)
Theorem Socket_onconnect_connects :
  (forall r s n c st,
     sockets st !! r = Some s ->
     nsps st !! s_nsp s = Some n ->
     clients st !! s_client s = Some c ->
     is_open (readyState (c_conn c)) = true ->
     let run := Socket_onconnect r st in
     outcome run = Ret tt /\
     (exists n',
        nsps (after run) !! s_nsp s = Some n' /\
        n_connected n' !! s_id s = Some r /\
        (exists members,
           a_rooms (n_adapter n') !! s_id s = Some members /\ s_id s ∈ members) /\
        (exists joined,
           Adapter_socketRooms (s_id s) (n_adapter n') = Some joined /\
           s_id s ∈ joined)) /\
     trace run =
       (if bool_decide (n_name n = "/") && bool_decide (length (n_fns n) = 0)
        then []
        else map (fun f => EvWrite (s_client s) f (Some true))
               (encoder st (mkPacket CONNECT (Some (s_nsp s)) None DNone)))) /\
  (forall ip n0 st,
     nsps st !! "/" = Some n0 ->
     let st' := after (Server_attach ip st) in
     eio st' =
       Some (engine_attach
               (if bool_decide (0 < length (n_fns n0)) then ip
                else Some (encoder st (mkPacket CONNECT (Some "/") None DNone)))) /\
     piggybacked st') /\
  (forall name n fn st,
     nsps st !! name = Some n ->
     n_name n = name ->
     piggybacked st ->
     piggybacked (after (Namespace_use name fn st))).
Proof.
  split; [|split].
  - intros r s n c st Hs Hn Hc Hopen run. subst run.
    rewrite (Socket_onconnect_run r s n c) by done. cbn [outcome after trace].
    split; [reflexivity|]. split.
    + eexists. split.
      { unfold onconnect_store. cbn. rewrite !lookup_alter_eq, Hn. reflexivity. }
      cbn. split; [apply lookup_insert_eq|].
      assert (Hin : s_id s ∈ (list_to_set [s_id s] : gset string)).
      { cbn. apply elem_of_union_l. by apply elem_of_singleton. }
      split; [by apply Adapter_addAll_member|].
      destruct (Adapter_addAll_socketRooms (s_id s) (list_to_set [s_id s]) (n_adapter n))
        as (joined & Hj & Hsub).
      exists joined. split; [exact Hj|]. by apply Hsub.
    + unfold transport_writes, writeToEngine. rewrite Hopen. reflexivity.
  - intros ip n0 st Hn st'. subst st'.
    split; [|by apply (Server_attach_piggybacked ip n0)].
    unfold Server_attach, get_nsp. msteps.
    case_bool_decide; msteps; reflexivity.
  - apply Namespace_use_piggybacked.
Qed.

(** ** Socket.onclose *)

Lemma bind_ret {A B} (m : M A) (k : A -> M B) st a st' tr :
  m st = mkRun (Ret a) st' tr ->
  (m ≫= k) st = mkRun (outcome (k a st')) (after (k a st')) (tr ++ trace (k a st')).
Proof. intros H. rewrite bind_run, H. reflexivity. Qed.

Lemma alter_as_insert {K A} `{Countable K} (m : gmap K A) k x f :
  m !! k = Some x -> alter f k m = <[k := f x]> m.
Proof.
  intros Hk. apply map_eq. intros i.
  rewrite lookup_alter, lookup_insert. case_decide; subst; rewrite ?Hk; done.
Qed.

Lemma alter_insert_same {K A} `{Countable K} (m : gmap K A) k x f :
  alter f k (<[k := x]> m) = <[k := f x]> m.
Proof.
  rewrite (alter_as_insert _ k x) by apply lookup_insert_eq.
  apply insert_insert_eq.
Qed.

Definition closed_namespace (id : string) (n : Namespace) : Namespace :=
  set_n_connected (delete id (n_connected n))
    (set_n_sockets (delete id (n_sockets n))
       (set_n_adapter (Adapter_delAll id (n_adapter n)) n)).

Definition registered_nsp (s : Socket) (c : Client) (st : State) : option string :=
  r' ← omap_get (s_id s) (c_sockets c); s_nsp <$> sockets st !! r'.

Definition closed_client (id : string) (registered : option string) (c : Client)
  : Client :=
  match registered with
  | Some nsp => set_c_nsps (delete nsp (c_nsps c))
                  (set_c_sockets (omap_delete id (c_sockets c)) c)
  | None => c
  end.

Definition onclose_store (r : SockRef) (s : Socket) (n : Namespace) (c : Client)
    (st : State) : State :=
  mkState (encoder st)
    (<[s_nsp s := closed_namespace (s_id s) n]> (nsps st))
    (parentNsps st) (parentCount st) (eio st)
    (<[s_client s := closed_client (s_id s) (registered_nsp s c st) c]> (clients st))
    (alter (set_s_connected false true) r (sockets st))
    (roomsets st) (ticks st) (clock st).

Lemma set_nsps_same st : set_nsps (nsps st) st = st.
Proof. by destruct st. Qed.
Lemma set_clients_same st : set_clients (clients st) st = st.
Proof. by destruct st. Qed.

Lemma Socket_leaveAll_run r s n st :
  sockets st !! r = Some s ->
  nsps st !! s_nsp s = Some n ->
  Socket_leaveAll r st =
  mkRun (Ret tt)
    (set_nsps (<[s_nsp s := set_n_adapter (Adapter_delAll (s_id s) (n_adapter n)) n]> (nsps st)) st) [].
Proof.
  intros Hs Hn. unfold Socket_leaveAll, get_socket. msteps.
  unfold update_nsp, modify. rewrite (alter_as_insert _ _ n) by done. reflexivity.
Qed.

Lemma Namespace_remove_run r s n st :
  sockets st !! r = Some s ->
  nsps st !! s_nsp s = Some n ->
  Namespace_remove r st =
  mkRun (Ret tt)
    (set_nsps (<[s_nsp s := set_n_sockets (delete (s_id s) (n_sockets n)) n]> (nsps st)) st) [].
Proof.
  intros Hs Hn. unfold Namespace_remove, get_socket, get_nsp. msteps.
  case_bool_decide as Hin.
  - unfold update_nsp, modify. rewrite (alter_as_insert _ _ n) by done. reflexivity.
  - assert (n_sockets n !! s_id s = None) as Hnone.
    { destruct (n_sockets n !! s_id s) eqn:E; [|done]. exfalso. apply Hin. eauto. }
    rewrite delete_id by done.
    replace (set_n_sockets (n_sockets n) n) with n by (by destruct n).
    rewrite insert_id by done. rewrite set_nsps_same. reflexivity.
Qed.

Lemma Client_remove_run r s c st :
  sockets st !! r = Some s ->
  clients st !! s_client s = Some c ->
  (forall r', omap_get (s_id s) (c_sockets c) = Some r' -> is_Some (sockets st !! r')) ->
  Client_remove r st =
  mkRun (Ret tt)
    (set_clients (<[s_client s := closed_client (s_id s) (registered_nsp s c st) c]> (clients st)) st) [].
Proof.
  intros Hs Hc Hwf. unfold Client_remove, get_socket, get_client, registered_nsp. msteps.
  destruct (omap_get (s_id s) (c_sockets c)) as [r'|] eqn:Hr'; cbn.
  - destruct (Hwf r' eq_refl) as [s' Hs']. msteps. rewrite Hs'. cbn.
    unfold update_client, modify. rewrite (alter_as_insert _ _ c) by done. reflexivity.
  - rewrite insert_id by done. rewrite set_clients_same. reflexivity.
Qed.

(** The part of [Socket.onclose] between the two events. *)
Definition Socket_teardown (r : SockRef) (s : Socket) : M unit :=
  Socket_leaveAll r;;
  Namespace_remove r;;
  Client_remove r;;
  update_socket r (set_s_connected false true);;
  update_nsp (s_nsp s) (fun n => set_n_connected (delete (s_id s) (n_connected n)) n).

Lemma Socket_teardown_run r s n c st :
  sockets st !! r = Some s ->
  nsps st !! s_nsp s = Some n ->
  clients st !! s_client s = Some c ->
  (forall r', omap_get (s_id s) (c_sockets c) = Some r' -> is_Some (sockets st !! r')) ->
  Socket_teardown r s st = mkRun (Ret tt) (onclose_store r s n c st) [].
Proof.
  intros Hs Hn Hc Hwf. unfold Socket_teardown.
  rewrite (bind_ret _ _ _ _ _ _ (Socket_leaveAll_run r s n st Hs Hn)).
  set (n1 := set_n_adapter (Adapter_delAll (s_id s) (n_adapter n)) n).
  set (st1 := set_nsps _ st).
  assert (Hn1 : nsps st1 !! s_nsp s = Some n1) by apply lookup_insert_eq.
  rewrite (bind_ret _ _ _ _ _ _ (Namespace_remove_run r s n1 st1 Hs Hn1)).
  set (st2 := set_nsps _ st1).
  rewrite (bind_ret _ _ _ _ _ _ (Client_remove_run r s c st2 Hs Hc Hwf)).
  set (st3 := set_clients _ st2).
  unfold update_socket, update_nsp. msteps.
  cbn [outcome after trace app]. unfold modify.
  match goal with |- mkRun _ ?a _ = _ => assert (a = onclose_store r s n c st) as -> end;
    [|reflexivity].
  unfold onclose_store, st3, st2, st1, registered_nsp. cbn.
  rewrite insert_insert_eq. rewrite alter_insert_same. reflexivity.
Qed.

Lemma Socket_onclose_unfold r s reason st :
  sockets st !! r = Some s ->
  s_connected s = true ->
  Socket_onclose r reason st =
  (EventEmitter_emit (OnSocket r) (s_listeners s) [VStr "disconnecting"; VStr reason];;
   Socket_teardown r s;;
   EventEmitter_emit (OnSocket r) (s_listeners s) [VStr "disconnect"; VStr reason]) st.
Proof.
  intros Hs Hcon. unfold Socket_onclose, get_socket. msteps.
  rewrite Hcon. cbn [negb]. apply bind_ext. intros [] st1.
  symmetry. unfold Socket_teardown.
  repeat (rewrite bind_assoc; apply bind_ext; intros [] ?).
  reflexivity.
Qed.

Lemma Socket_onclose_run r s n c reason st :
  sockets st !! r = Some s ->
  s_connected s = true ->
  nsps st !! s_nsp s = Some n ->
  clients st !! s_client s = Some c ->
  (forall r', omap_get (s_id s) (c_sockets c) = Some r' -> is_Some (sockets st !! r')) ->
  Socket_onclose r reason st =
  mkRun (Ret tt) (onclose_store r s n c st)
    [EvLocal (OnSocket r) "disconnecting" [VStr reason] st;
     EvLocal (OnSocket r) "disconnect" [VStr reason] (onclose_store r s n c st)].
Proof.
  intros Hs Hcon Hn Hc Hwf. rewrite (Socket_onclose_unfold r s) by done.
  assert (Hd1 : "disconnecting" ≠ "error") by discriminate.
  assert (Hd2 : "disconnect" ≠ "error") by discriminate.
  rewrite (bind_ret _ _ _ _ _ _
    (EventEmitter_emit_not_error (OnSocket r) (s_listeners s) _ [VStr reason] st Hd1)).
  rewrite (bind_ret _ _ _ _ _ _ (Socket_teardown_run r s n c st Hs Hn Hc Hwf)).
  rewrite (EventEmitter_emit_not_error (OnSocket r) (s_listeners s) _ [VStr reason] _ Hd2).
  reflexivity.
Qed.

Lemma Socket_onclose_closed r s reason st :
  sockets st !! r = Some s ->
  s_connected s = false ->
  Socket_onclose r reason st = mkRun (Ret tt) st [].
Proof.
  intros Hs Hcon. unfold Socket_onclose, get_socket. msteps.
  rewrite Hcon. reflexivity.
Qed.

Lemma Adapter_delAll_gone id a :
  Adapter_socketRooms id (Adapter_delAll id a) = None /\
  forall room members,
    a_rooms (Adapter_delAll id a) !! room = Some members -> id ∉ members.
Proof.
  unfold Adapter_socketRooms, Adapter_delAll. cbn. split; [apply lookup_delete_eq|].
  intros room members. rewrite lookup_omap.
  destruct (a_rooms a !! room) as [old|]; cbn; [|done].
  unfold room_without. repeat case_decide; intros [= <-]; [|done].
  intros [_ Hnot]%elem_of_difference. apply Hnot. by apply elem_of_singleton.
Qed.

Lemma omap_get_delete {V} k (m : list (string * V)) :
  omap_get k (omap_delete k m) = None.
Proof.
  induction m as [|[k' v] m IH]; [reflexivity|].
  unfold omap_delete in *. rewrite filter_cons. cbn [fst].
  case_decide as Hk; [|exact IH].
  cbn. rewrite bool_decide_eq_false_2 by done. exact IH.
Qed.

Lemma closed_client_unregistered s c st :
  (forall r', omap_get (s_id s) (c_sockets c) = Some r' -> is_Some (sockets st !! r')) ->
  omap_get (s_id s) (c_sockets (closed_client (s_id s) (registered_nsp s c st) c)) = None /\
  c_conn (closed_client (s_id s) (registered_nsp s c st) c) = c_conn c /\
  c_connectBuffer (closed_client (s_id s) (registered_nsp s c st) c) = c_connectBuffer c.
Proof.
  intros Hwf. unfold registered_nsp.
  destruct (omap_get (s_id s) (c_sockets c)) as [r'|] eqn:Hr'; cbn.
  - destruct (Hwf r' eq_refl) as [s' ->]. cbn. split; [apply omap_get_delete|done].
  - done.
Qed.

(** C5.  [onclose(reason)] is a no-op once [connected] is false.  On a
    connected socket it raises [disconnecting] on the store as it was before
    the call (room membership included), then leaves all rooms, removes the
    socket from its namespace and from its client, sets [connected = false]
    and [disconnected = true], and raises [disconnect] on the resulting
    store, in which the socket is in no room, in neither map of the
    namespace and not among the client's sockets.  A further [onclose] on
    that store does nothing, so the pair [(connected, disconnected)] goes
    from [(true, false)] to [(false, true)] once. *)
Theorem Socket_onclose_once :
  (forall r s reason st,
     sockets st !! r = Some s ->
     s_connected s = false ->
     Socket_onclose r reason st = mkRun (Ret tt) st []) /\
  (forall r s n c reason st,
     sockets st !! r = Some s ->
     s_connected s = true ->
     nsps st !! s_nsp s = Some n ->
     clients st !! s_client s = Some c ->
     (forall r', omap_get (s_id s) (c_sockets c) = Some r' ->
                 is_Some (sockets st !! r')) ->
     let run := Socket_onclose r reason st in
     let st' := after run in
     outcome run = Ret tt /\
     trace run =
       [EvLocal (OnSocket r) "disconnecting" [VStr reason] st;
        EvLocal (OnSocket r) "disconnect" [VStr reason] st'] /\
     st' =
       after ((Socket_leaveAll r;;
               Namespace_remove r;;
               Client_remove r;;
               update_socket r (set_s_connected false true);;
               update_nsp (s_nsp s) (fun n =>
                 set_n_connected (delete (s_id s) (n_connected n)) n)) st) /\
     Socket_rooms s st' = ∅ /\
     (exists n',
        nsps st' !! s_nsp s = Some n' /\
        (forall room members,
           a_rooms (n_adapter n') !! room = Some members -> s_id s ∉ members) /\
        n_sockets n' !! s_id s = None /\
        n_connected n' !! s_id s = None) /\
     (exists c',
        clients st' !! s_client s = Some c' /\
        omap_get (s_id s) (c_sockets c') = None /\
        c_conn c' = c_conn c) /\
     sockets st' !! r = Some (set_s_connected false true s) /\
     (forall reason', Socket_onclose r reason' st' = mkRun (Ret tt) st' [])).
Proof.
  split; [apply Socket_onclose_closed|].
  intros r s n c reason st Hs Hcon Hn Hc Hwf run st'. subst st' run.
  rewrite (Socket_onclose_run r s n c) by done. cbn [outcome after trace].
  assert (Hs' : sockets (onclose_store r s n c st) !! r =
                Some (set_s_connected false true s)).
  { unfold onclose_store. cbn. rewrite list_lookup_alter_eq, Hs. reflexivity. }
  assert (Hn' : nsps (onclose_store r s n c st) !! s_nsp s =
                Some (closed_namespace (s_id s) n)) by apply lookup_insert_eq.
  destruct (Adapter_delAll_gone (s_id s) (n_adapter n)) as [Hsids Hrooms].
  destruct (closed_client_unregistered s c st Hwf) as (Hget & Hconn & _).
  split; [reflexivity|]. split; [reflexivity|].
  split.
  { fold (Socket_teardown r s). rewrite (Socket_teardown_run r s n c) by done.
    reflexivity. }
  split.
  { unfold Socket_rooms. rewrite Hn'. cbn. rewrite Hsids. reflexivity. }
  split.
  { eexists. split; [exact Hn'|]. cbn. split; [exact Hrooms|].
    split; apply lookup_delete_eq. }
  split.
  { eexists. split; [apply lookup_insert_eq|]. done. }
  split; [exact Hs'|].
  intros reason'. by apply (Socket_onclose_closed r (set_s_connected false true s)).
Qed.

Lemma Socket_onclose_once_witness :
  locals (trace (Socket_onclose 0 "transport close" demo_server)) =
    [(OnSocket 0, "disconnecting", [VStr "transport close"]);
     (OnSocket 0, "disconnect", [VStr "transport close"])] /\
  (s_connected <$> sockets (after (Socket_onclose 0 "transport close" demo_server)) !! 0)
    = Some false.
Proof.
  destruct Socket_onclose_once as [_ H].
  eassert (Hs : sockets demo_server !! 0 = Some _) by (vm_compute; reflexivity).
  eassert (Hn : nsps demo_server !! "/" = Some _) by (vm_compute; reflexivity).
  eassert (Hc : clients demo_server !! "c1" = Some _) by (vm_compute; reflexivity).
  edestruct (H 0 _ _ _ "transport close" demo_server Hs eq_refl Hn Hc)
    as (_ & Htr & _ & _ & _ & _ & Hs' & _).
  { intros r'. cbn. case_bool_decide; [|done]. intros [= <-]. eauto. }
  split; [rewrite Htr; reflexivity|rewrite Hs'; reflexivity].
Defined.

(** A server on which client [c1] has asked for the namespace [/chat]: its
    socket there (reference 1) is constructed and awaits approval. *)
Definition demo_chat_pending : State :=
  after ((Server_of "/chat" None;; Client_connect "c1" "/chat" None) demo_server).

Lemma Socket_onconnect_connects_witness :
  trace (Socket_onconnect 1 demo_chat_pending) =
    [EvWrite "c1" (FText "0/chat,") (Some true)] /\
  trace (Socket_onconnect 0 demo_pending) = [] /\
  (initialPacket <$> eio (after (Server_attach None (new_Server demo_encode 0)))) =
    Some (Some [FText "0/,"]).
Proof.
  destruct Socket_onconnect_connects as (H1 & H2 & _).
  split; [|split].
  - eassert (Hs : sockets demo_chat_pending !! 1 = Some _) by (vm_compute; reflexivity).
    eassert (Hn : nsps demo_chat_pending !! "/chat" = Some _) by (vm_compute; reflexivity).
    eassert (Hc : clients demo_chat_pending !! "c1" = Some _) by (vm_compute; reflexivity).
    destruct (H1 1 _ _ _ demo_chat_pending Hs Hn Hc eq_refl) as (_ & _ & ->).
    vm_compute. reflexivity.
  - eassert (Hs : sockets demo_pending !! 0 = Some _) by (vm_compute; reflexivity).
    eassert (Hn : nsps demo_pending !! "/" = Some _) by (vm_compute; reflexivity).
    eassert (Hc : clients demo_pending !! "c1" = Some _) by (vm_compute; reflexivity).
    destruct (H1 0 _ _ _ demo_pending Hs Hn Hc eq_refl) as (_ & _ & ->).
    reflexivity.
  - eassert (Hn : nsps (new_Server demo_encode 0) !! "/" = Some _)
      by (vm_compute; reflexivity).
    destruct (H2 None _ (new_Server demo_encode 0) Hn) as [-> _]. reflexivity.
Defined.

(** ** Emitting after a disconnect *)

Lemma transport_writes_conn cid c c' fl fs :
  c_conn c' = c_conn c ->
  transport_writes cid c' fl fs = transport_writes cid c fl fs.
Proof. intros H. unfold transport_writes, writeToEngine. rewrite H. reflexivity. Qed.

Lemma transport_writes_open cid c fl fs :
  is_open (readyState (c_conn c)) = true ->
  truthy (f_volatile fl) = false ->
  transport_writes cid c fl fs = map (fun f => EvWrite cid f (f_compress fl)) fs.
Proof.
  intros Ho Hv. unfold transport_writes, writeToEngine. rewrite Ho, Hv. reflexivity.
Qed.


(** A direct emit (no room staged, no broadcast flag): what it writes. *)
Lemma Socket_emit_direct r s n c args st :
  sockets st !! r = Some s ->
  nsps st !! s_nsp s = Some n ->
  clients st !! s_client s = Some c ->
  blacklisted Socket_events args = false ->
  broadcasting (s__rooms s) (s_flags s) = false ->
  trace (Socket_emit r args st) =
  transport_writes (s_client s) c (compress_of (s_flags s))
    (encoder st
       (mkPacket (event_type (s_flags s) args) (Some (s_nsp s))
          (if last_is_function args then Some (n_ids n) else None)
          (DArgs (if last_is_function args then removelast args else args)))).
Proof.
  intros Hs Hn Hc Hb Hbr. destruct (last_is_function args) eqn:Hl.
  - rewrite (Socket_emit_ack r s n) by done.
    erewrite Socket_packet_run by (apply ack_stored_socket; exact Hs).
    rewrite (Client_packet_run _ c) by exact Hc. reflexivity.
  - rewrite (Socket_emit_plain r s) by done. rewrite Hbr.
    erewrite Socket_packet_run
      by (cbn; rewrite list_lookup_alter_eq, Hs; reflexivity).
    rewrite (Client_packet_run _ c) by exact Hc. reflexivity.
Qed.


(** [disconnect()] with [close = false] on a connected socket. *)
Lemma Socket_disconnect_local_run client_disconnect r s n c st :
  sockets st !! r = Some s ->
  s_connected s = true ->
  nsps st !! s_nsp s = Some n ->
  clients st !! s_client s = Some c ->
  (forall r', omap_get (s_id s) (c_sockets c) = Some r' -> is_Some (sockets st !! r')) ->
  Socket_disconnect_with client_disconnect r false st =
  mkRun (Ret tt) (onclose_store r s n c st)
    (transport_writes (s_client s) c (compress_of no_flags)
       (encoder st (mkPacket DISCONNECT (Some (s_nsp s)) None DNone)) ++
     [EvLocal (OnSocket r) "disconnecting" [VStr "server namespace disconnect"] st;
      EvLocal (OnSocket r) "disconnect" [VStr "server namespace disconnect"]
        (onclose_store r s n c st)]).
Proof.
  intros Hs Hcon Hn Hc Hwf. unfold Socket_disconnect_with, get_socket. msteps.
  rewrite Hcon. cbn [negb].
  erewrite bind_ret.
  2:{ erewrite Socket_packet_default by exact Hs.
      apply (Client_packet_run _ c). exact Hc. }
  rewrite (Socket_onclose_run r s n c) by done. reflexivity.
Qed.


























(** ** Dynamic namespaces *)

(** A matcher accepts when it calls back without error and with [allow]. *)
Definition accepts (name : string) (query : Query)
    (mp : Matcher * ParentNamespace) : bool :=
  let '(err, allow) := fst mp name query in negb (err || negb allow).

(** The position of the first matcher that accepts. *)
Fixpoint first_accepting (name : string) (query : Query)
    (ms : list (Matcher * ParentNamespace)) : option nat :=
  match ms with
  | [] => None
  | mp :: ms' =>
      if accepts name query mp then Some 0
      else S <$> first_accepting name query ms'
  end.

Lemma first_accepting_Some name query ms i :
  first_accepting name query ms = Some i ->
  exists mp,
    ms !! i = Some mp /\ accepts name query mp = true /\
    forall j mp', j < i -> ms !! j = Some mp' -> accepts name query mp' = false.
Proof.
  revert i. induction ms as [|mp ms IH]; intros i; cbn; [done|].
  destruct (accepts name query mp) eqn:Ha.
  - intros [= <-]. exists mp. split; [done|]. split; [done|]. intros j mp' Hj. lia.
  - destruct (first_accepting name query ms) as [k|]; cbn; [|done].
    intros [= <-]. destruct (IH k eq_refl) as (mp0 & Hk & Hacc & Hbefore).
    exists mp0. split; [done|]. split; [done|].
    intros [|j] mp' Hj; cbn; [by intros [= <-]|].
    apply Hbefore. lia.
Qed.

Lemma first_accepting_None name query ms :
  first_accepting name query ms = None ->
  forall mp, mp ∈ ms -> accepts name query mp = false.
Proof.
  induction ms as [|mp0 ms IH]; cbn; [intros _ mp Hin; by apply elem_of_nil in Hin|].
  destruct (accepts name query mp0) eqn:Ha; [done|].
  destruct (first_accepting name query ms); cbn; [done|]. intros _ mp Hin.
  apply elem_of_cons in Hin as [->|Hin]; [done|]. by apply IH.
Qed.

(** The loop of [checkNamespace] consults the matchers in order, up to and
    including the first one that accepts. *)
Lemma checkNamespace_run_spec ms i name query st :
  checkNamespace_run ms i name query st =
  mkRun (Ret ((fun k => i + k) <$> first_accepting name query ms)) st
    (map (fun j => EvMatcher j name query)
       (seq i (match first_accepting name query ms with
               | Some k => S k
               | None => length ms
               end))).
Proof.
  revert i. induction ms as [|[m p] ms IH]; intros i; [reflexivity|].
  cbn [checkNamespace_run first_accepting]. rewrite bind_tell.
  unfold accepts. cbn [fst]. destruct (m name query) as [err allow].
  destruct (err || negb allow); cbn [negb].
  - rewrite IH. cbn [outcome after trace].
    destruct (first_accepting name query ms) as [k|]; cbn;
      rewrite ?Nat.add_succ_r; reflexivity.
  - cbn. rewrite Nat.add_0_r. reflexivity.
Qed.

(** The store after [createChild(name)] on the parent at position [i]. *)
Definition child_store (i : nat) (name : string) (p : ParentNamespace)
    (st : State) : State :=
  let child :=
    set_n_listeners
      (map (fun l => ("connect", l)) (listeners "connect" (pn_listeners p)) ++
       map (fun l => ("connection", l)) (listeners "connection" (pn_listeners p)))
      (set_n_fns (pn_fns p) (new_Namespace name (length (roomsets st)))) in
  mkState (encoder st) (<[name := child]> (nsps st))
    (alter (fun mp => (fst mp, set_pn_children (pn_children (snd mp) ++ [name]) (snd mp)))
       i (parentNsps st))
    (parentCount st) (eio st) (clients st) (sockets st)
    (roomsets st ++ [∅]) (ticks st) (clock st).

Lemma ParentNamespace_createChild_run i name m p st :
  parentNsps st !! i = Some (m, p) ->
  ParentNamespace_createChild i name st =
  mkRun (Ret name) (child_store i name p st) [].
Proof.
  intros Hp. unfold ParentNamespace_createChild, get_parent, new_roomset.
  erewrite bind_deref by (rewrite Hp; reflexivity). cbn [snd].
  msteps. unfold update_parent. msteps. reflexivity.
Qed.

Lemma Server_checkNamespace_run name query st :
  Server_checkNamespace name query st =
  match first_accepting name query (parentNsps st) with
  | Some i =>
      let r := ParentNamespace_createChild i name st in
      mkRun (match outcome r with Ret c => Ret (Some c) | Throw e => Throw e | Stuck => Stuck end)
        (after r)
        (map (fun j => EvMatcher j name query) (seq 0 (S i)) ++ trace r)
  | None =>
      mkRun (Ret None) st
        (map (fun j => EvMatcher j name query) (seq 0 (length (parentNsps st))))
  end.
Proof.
  unfold Server_checkNamespace. msteps. case_bool_decide as Hlen.
  - destruct (parentNsps st); [reflexivity|done].
  - rewrite bind_run, checkNamespace_run_spec. cbn [outcome after trace].
    destruct (first_accepting name query (parentNsps st)) as [i|]; cbn;
      [|rewrite app_nil_r; reflexivity].
    rewrite bind_run.
    destruct (ParentNamespace_createChild i name st) as [[c|e|] st1 t1];
      cbn; rewrite ?app_nil_r; reflexivity.
Qed.

(** Computations without any effect outside the store. *)
Definition silent {A} (m : M A) : Prop := forall st, trace (m st) = [].

Lemma silent_bind {A B} (m : M A) (k : A -> M B) :
  silent m -> (forall a, silent (k a)) -> silent (m ≫= k).
Proof.
  intros Hm Hk st. rewrite bind_run. specialize (Hm st).
  destruct (m st) as [[a|e|] st1 t1]; cbn in *; subst t1; [|done..].
  apply Hk.
Qed.

Lemma silent_deref {A} (f : State -> option A) : silent (deref f).
Proof. intros st. unfold deref. by destruct (f st). Qed.

Lemma silent_modify f : silent (modify f).
Proof. done. Qed.

Lemma silent_gets {A} (f : State -> A) : silent (gets f).
Proof. done. Qed.

Lemma silent_mret {A} (a : A) : silent (mret a : M A).
Proof. done. Qed.

Ltac silent_tac :=
  repeat first
    [ apply silent_deref | apply silent_modify | apply silent_gets
    | apply silent_mret
    | apply silent_bind; [|intros ?]
    | match goal with
      | |- silent (match ?x with _ => _ end) => destruct x
      | |- silent (if ?x then _ else _) => destruct x
      end ].

Lemma Server_of_silent name fn : silent (Server_of name fn).
Proof. unfold Server_of, new_roomset, update_nsp. silent_tac. Qed.

Lemma Namespace_add_silent name cid query : silent (Namespace_add name cid query).
Proof. unfold Namespace_add, get_nsp, get_client. silent_tac. Qed.

(** [Client.doConnect] has no effect outside the store. *)
Lemma Client_doConnect_silent cid name query st :
  trace (Client_doConnect cid name query st) = [].
Proof.
  revert st. change (silent (Client_doConnect cid name query)).
  unfold Client_doConnect, get_client, update_client.
  apply silent_bind; [apply Server_of_silent|intros nsp].
  apply silent_bind; [apply silent_deref|intros c].
  destruct (negb _ && negb _); [apply silent_modify|].
  apply silent_bind; [apply Namespace_add_silent|intros; apply silent_mret].
Qed.

Lemma slashed_id name : String.get 0 name = Some "/"%char -> slashed name = name.
Proof. intros H. unfold slashed. by rewrite bool_decide_eq_false_2 by (by rewrite H; intros []). Qed.

(** [Server.of(name)] returns the slashed name, whose namespace then exists,
    and touches neither clients, sockets nor pending continuations. *)
Lemma Server_of_run name st :
  exists st1,
    Server_of name None st = mkRun (Ret (slashed name)) st1 [] /\
    clients st1 = clients st /\ sockets st1 = sockets st /\
    ticks st1 = ticks st /\ encoder st1 = encoder st /\
    is_Some (nsps st1 !! slashed name) /\
    (is_Some (nsps st !! slashed name) -> st1 = st).
Proof.
  unfold Server_of, new_roomset. cbv zeta. rewrite bind_gets.
  destruct (nsps st !! slashed name) as [n|] eqn:Hn.
  - exists st. msteps. rewrite Hn. done.
  - eexists. msteps. split; [reflexivity|]. cbn.
    repeat (split; [reflexivity|]). split.
    + rewrite lookup_insert_eq. eauto.
    + by intros [? ?].
Qed.

(** What [Client.doConnect] does: with the namespace that [Server.of]
    returns for the name, it buffers the name (a namespace other than the
    default one, the default socket not yet established) or constructs the
    socket and schedules its approval. *)
Lemma Client_doConnect_run cid c name query st :
  clients st !! cid = Some c ->
  let st2 := after (Server_of name None st) in
  exists n,
    nsps st2 !! slashed name = Some n /\
    clients st2 = clients st /\ sockets st2 = sockets st /\
    ticks st2 = ticks st /\ clock st2 = clock st /\
    (forall n0, nsps st !! slashed name = Some n0 -> st2 = st /\ n = n0) /\
    Client_doConnect cid name query st =
    mkRun (Ret tt)
      (if negb (bool_decide (name = "/")) && negb (bool_decide (is_Some (c_nsps c !! "/")))
       then
         set_clients
           (<[cid := set_c_connectBuffer (c_connectBuffer c ++ [name]) c]> (clients st2)) st2
       else
         let socket := new_Socket n c query (clock st2) in
         set_ticks
           (ticks st2 ++
            [TAdd (slashed name) (length (sockets st2)) (Namespace_run (n_fns n) socket)])
           (set_sockets (sockets st2 ++ [socket]) st2)) [].
Proof.
  intros Hc st2.
  destruct (Server_of_run name st) as (st1 & Hof & Hcl & Hso & Hti & _ & [n Hn] & Hsame).
  assert (Hst2 : st2 = st1) by (subst st2; by rewrite Hof). clearbody st2. subst st2.
  assert (Hclock : clock st1 = clock st).
  { change st1 with (after (mkRun (Ret (slashed name)) st1 [])). rewrite <- Hof.
    unfold Server_of, new_roomset. cbv zeta. rewrite bind_gets.
    destruct (nsps st !! slashed name); msteps; reflexivity. }
  exists n. split; [exact Hn|]. repeat (split; [assumption|]). split.
  { intros n0 Hn0. assert (st1 = st) as -> by (apply Hsame; rewrite Hn0; eauto).
    split; [reflexivity|]. congruence. }
  assert (Hc1 : clients st1 !! cid = Some c) by (by rewrite Hcl).
  unfold Client_doConnect. rewrite (bind_ret_silent _ _ _ _ _ Hof).
  unfold get_client. erewrite bind_deref by exact Hc1.
  destruct (negb (bool_decide (name = "/")) && negb (bool_decide (is_Some (c_nsps c !! "/")))).
  - unfold update_client, modify.
    rewrite (alter_as_insert _ _ c) by exact Hc1. reflexivity.
  - unfold Namespace_add, get_nsp, get_client. msteps. reflexivity.
Qed.

(** C2.  A CONNECT (on an open transport) for a name without static entry:
    the parent matchers are called in insertion order up to the first that
    accepts; the parent of that matcher creates the child namespace (under
    the name, with the parent's middleware, tracked by the parent) and the
    connect proceeds with [doConnect]: it returns, and either the name is
    put on the connect buffer of the client (the default socket is not yet
    established) or a socket of the client is constructed in the namespace
    that [Server.of] gives for the name, which is the new child for a name
    with a leading slash, and its approval is scheduled for the next tick;
    when no matcher accepts, or none is registered, every matcher has been
    called, the frames of exactly one ERROR packet
    [{nsp: name, data: "Invalid namespace"}] are written and the store is
    unchanged: no socket and no namespace is created. *)
Theorem Client_connect_unknown_namespace cid c name query st :
  clients st !! cid = Some c ->
  is_open (readyState (c_conn c)) = true ->
  nsps st !! name = None ->
  let q := default (QObject []) query in
  let run := Client_connect cid name query st in
  match first_accepting name q (parentNsps st) with
  | None =>
      run =
      mkRun (Ret tt) st
        (map (fun j => EvMatcher j name q) (seq 0 (length (parentNsps st))) ++
         map (fun f => EvWrite cid f None)
           (encoder st (mkPacket ERROR (Some name) None (DStr "Invalid namespace"))))
  | Some i =>
      exists m p,
        parentNsps st !! i = Some (m, p) /\
        accepts name q (m, p) = true /\
        (forall j mp, j < i -> parentNsps st !! j = Some mp ->
                      accepts name q mp = false) /\
        let st1 := after (ParentNamespace_createChild i name st) in
        (exists child,
           nsps st1 !! name = Some child /\
           n_name child = name /\ n_fns child = pn_fns p /\
           n_sockets child = ∅ /\ n_connected child = ∅) /\
        (exists p1,
           parentNsps st1 !! i = Some (m, p1) /\
           pn_children p1 = (pn_children p ++ [name])%list) /\
        sockets st1 = sockets st /\
        trace run = map (fun j => EvMatcher j name q) (seq 0 (S i)) /\
        outcome run = outcome (Client_doConnect cid name q st1) /\
        after run = after (Client_doConnect cid name q st1) /\
        outcome run = Ret tt /\
        let st2 := after (Server_of name None st1) in
        exists n,
          nsps st2 !! slashed name = Some n /\
          (String.get 0 name = Some "/"%char -> st2 = st1 /\ nsps st1 !! name = Some n) /\
          after run =
            if negb (bool_decide (name = "/")) &&
               negb (bool_decide (is_Some (c_nsps c !! "/")))
            then
              set_clients
                (<[cid := set_c_connectBuffer (c_connectBuffer c ++ [name]) c]> (clients st))
                st2
            else
              let socket := new_Socket n c q (clock st) in
              set_ticks
                (ticks st ++
                 [TAdd (slashed name) (length (sockets st))
                    (Namespace_run (n_fns n) socket)])
                (set_sockets (sockets st ++ [socket]) st2)
  end.
Proof.
  intros Hc Hopen Hn q run. subst run.
  assert (Hrun : Client_connect cid name query st =
    (dynamicNsp ← Server_checkNamespace name q;
     match dynamicNsp with
     | Some _ => Client_doConnect cid name q
     | None =>
         Client_packet cid
           (PPacket (mkPacket ERROR (Some name) None (DStr "Invalid namespace")))
           None
     end) st).
  { unfold Client_connect. msteps. fold q. rewrite Hn.
    rewrite bool_decide_eq_false_2; [reflexivity|]. by intros [? ?]. }
  rewrite Hrun, bind_run, Server_checkNamespace_run.
  destruct (first_accepting name q (parentNsps st)) as [i|] eqn:Hfirst.
  - destruct (first_accepting_Some _ _ _ _ Hfirst) as ([m p] & Hi & Hacc & Hbefore).
    exists m, p. split; [exact Hi|]. split; [exact Hacc|]. split; [exact Hbefore|].
    rewrite (ParentNamespace_createChild_run i name m p) by exact Hi.
    cbn [outcome after trace]. rewrite Client_doConnect_silent, !app_nil_r.
    split.
    { eexists. split; [apply lookup_insert_eq|]. done. }
    split.
    { eexists. split; [cbn; rewrite list_lookup_alter_eq, Hi; reflexivity|done]. }
    split; [reflexivity|]. split; [reflexivity|]. split; [reflexivity|].
    split; [reflexivity|].
    assert (Hc1 : clients (child_store i name p st) !! cid = Some c) by exact Hc.
    destruct (Client_doConnect_run cid c name q _ Hc1)
      as (n & Hn2 & Hcl & Hso & Hti & Hck & Hsame & ->).
    cbn [outcome after]. split; [reflexivity|].
    exists n. split; [exact Hn2|]. split.
    { intros Hslash. rewrite slashed_id in Hsame by exact Hslash.
      destruct (Hsame _ (lookup_insert_eq _ _ _)) as [-> ->].
      split; [reflexivity|]. apply lookup_insert_eq. }
    cbv zeta. rewrite Hcl, Hso, Hti, Hck. reflexivity.
  - cbn [outcome after trace].
    rewrite (Client_packet_default cid c) by exact Hc. cbn [outcome after trace].
    rewrite (transport_writes_open cid c no_flags) by done. reflexivity.
Qed.

(** A matcher that accepts nothing, and one for the names [/room-...]. *)
Definition demo_matcher_none : string -> Query -> bool * bool :=
  fun _ _ => (false, false).
Definition demo_matcher_room : string -> Query -> bool * bool :=
  fun name _ => (false, String.prefix "/room-" name).

(** The demo server with both matchers registered, in that order. *)
Definition demo_dynamic : State :=
  after ((Server_of_matcher demo_matcher_none None;;
          Server_of_matcher demo_matcher_room (Some 5)) demo_server).

Lemma Client_connect_unknown_namespace_witness :
  Client_connect "c1" "/nope" None demo_dynamic =
    mkRun (Ret tt) demo_dynamic
      [EvMatcher 0 "/nope" (QObject []); EvMatcher 1 "/nope" (QObject []);
       EvWrite "c1" (FText "4/nope,Invalid namespace") None] /\
  trace (Client_connect "c1" "/room-42" None demo_dynamic) =
    [EvMatcher 0 "/room-42" (QObject []); EvMatcher 1 "/room-42" (QObject [])] /\
  length (sockets (after (Client_connect "c1" "/room-42" None demo_dynamic))) = 2 /\
  length (ticks (after (Client_connect "c1" "/room-42" None demo_dynamic))) = 1.
Proof.
  eassert (Hc : clients demo_dynamic !! "c1" = Some _) by (vm_compute; reflexivity).
  split.
  - pose proof (Client_connect_unknown_namespace "c1" _ "/nope" None demo_dynamic
                  Hc eq_refl eq_refl) as H.
    cbv zeta in H. unfold default in H.
    assert (Hf : first_accepting "/nope" (QObject []) (parentNsps demo_dynamic) = None)
      by (vm_compute; reflexivity).
    rewrite Hf in H. rewrite H. vm_compute. reflexivity.
  - pose proof (Client_connect_unknown_namespace "c1" _ "/room-42" None demo_dynamic
                  Hc eq_refl eq_refl) as H.
    cbv zeta in H. unfold default in H.
    assert (Hf : first_accepting "/room-42" (QObject []) (parentNsps demo_dynamic) = Some 1)
      by (vm_compute; reflexivity).
    rewrite Hf in H.
    destruct H as (m & p & _ & _ & _ & _ & _ & _ & -> & _ & _ & _ & n & _ & _ & ->).
    split; [reflexivity|]. vm_compute. split; reflexivity.
Defined.

(** ** ParentNamespace.emit *)

(** The demo server after client [c1] has connected to [/room-1] and
    [/room-2], both children of the second parent namespace, on which the
    room [r1] is then staged with [to("r1")] and the [volatile] flag set. *)
Definition demo_children : State :=
  after ((Client_connect "c1" "/room-1" None;;
          Client_connect "c1" "/room-2" None;;
          ParentNamespace_to 1 "r1";;
          update_parent 1 (fun p => set_pn_flags (set_f_volatile true (pn_flags p)) p))
         demo_dynamic).

(** C8 fails on the code.  The parent has the children [/room-1] and
    [/room-2] and the staged room [r1].  [emit("x")] broadcasts to [r1] in
    the first child only: that child's emit clears the very set the parent
    hands to every child, so the second child broadcasts with no room, to
    all of its sockets.  The flags do reach both children. *)
Lemma ParentNamespace_emit_rooms_lost :
  let run := ParentNamespace_emit 1 [VStr "x"] demo_children in
  (pn_children ∘ snd <$> parentNsps demo_children !! 1) =
    Some ["/room-1"; "/room-2"] /\
  ((snd <$> parentNsps demo_children !! 1) ≫= fun p => roomsets demo_children !! pn_rooms p) =
    Some {["r1"]} /\
  outcome run = Ret tt /\
  map (fun b => (fst (fst b), b_rooms (snd b), b_flags (snd b))) (broadcasts (trace run)) =
    [("/room-1", {["r1"]}, set_f_volatile true no_flags);
     ("/room-2", ∅, set_f_volatile true no_flags)].
Proof. vm_compute. repeat split. Qed.

(** ** The connect buffer *)

(** A connect that falls under the ordering rule is buffered. *)
Lemma Client_doConnect_buffers cid c name query st :
  clients st !! cid = Some c ->
  name ≠ "/" ->
  c_nsps c !! "/" = None ->
  exists st1,
    clients st1 = clients st /\ sockets st1 = sockets st /\ ticks st1 = ticks st /\
    Client_doConnect cid name query st =
    mkRun (Ret tt)
      (set_clients
         (<[cid := set_c_connectBuffer (c_connectBuffer c ++ [name]) c]> (clients st1))
         st1) [].
Proof.
  intros Hc Hname Hdefault.
  destruct (Server_of_run name st) as (st1 & Hof & Hcl & Hso & Hti & _).
  exists st1. repeat (split; [assumption|]).
  unfold Client_doConnect. rewrite (bind_ret_silent _ _ _ _ _ Hof).
  unfold get_client. erewrite bind_deref by (rewrite Hcl; exact Hc).
  rewrite (bool_decide_eq_false_2 (name = "/")) by done.
  rewrite Hdefault. rewrite bool_decide_eq_false_2 by (by intros [? ?]).
  cbn [negb andb]. unfold update_client, modify.
  rewrite (alter_as_insert _ _ c) by (rewrite Hcl; exact Hc). reflexivity.
Qed.

(** A connect to an existing namespace, the default socket being
    established: a socket is constructed and its approval scheduled. *)
Lemma Client_connect_adds cid c name query n st :
  clients st !! cid = Some c ->
  is_Some (c_nsps c !! "/") ->
  String.get 0 name = Some "/"%char ->
  nsps st !! name = Some n ->
  Client_connect cid name (Some query) st =
  mkRun (Ret tt)
    (set_ticks
       (ticks st ++
        [TAdd name (length (sockets st))
           (Namespace_run (n_fns n) (new_Socket n c query (clock st)))])
       (set_sockets (sockets st ++ [new_Socket n c query (clock st)]) st)) [].
Proof.
  intros Hc Hdefault Hslash Hn. unfold Client_connect. msteps. cbn [default].
  rewrite bool_decide_eq_true_2 by (rewrite Hn; eauto).
  destruct (Server_of_run name st) as (st1 & Hof & _ & _ & _ & _ & _ & Hsame).
  rewrite slashed_id in * by done.
  rewrite Hsame in Hof by (rewrite Hn; eauto).
  unfold Client_doConnect. rewrite (bind_ret_silent _ _ _ _ _ Hof).
  unfold get_client. msteps.
  rewrite (bool_decide_eq_true_2 (is_Some (c_nsps c !! "/"))) by done.
  rewrite andb_false_r.
  unfold Namespace_add, get_nsp, get_client. msteps. reflexivity.
Qed.

(** The replay loop of [Client.doConnect]'s callback: every buffered name
    gets, in order, a socket and a scheduled approval. *)
Lemma replay_loop cid c buffer : forall (g : nat -> nat) st,
  clients st !! cid = Some c ->
  is_Some (c_nsps c !! "/") ->
  (forall name, name ∈ buffer ->
     String.get 0 name = Some "/"%char /\ is_Some (nsps st !! name)) ->
  exists news newticks,
    for_each (imap (fun i name => (g i, name)) buffer)
      (fun p => Client_connect cid (snd p) (Some (QIndex (fst p)))) st =
    mkRun (Ret tt)
      (set_ticks (ticks st ++ newticks) (set_sockets (sockets st ++ news) st)) [] /\
    length news = length buffer /\
    length newticks = length buffer /\
    forall i name, buffer !! i = Some name ->
      exists n,
        nsps st !! name = Some n /\
        news !! i = Some (new_Socket n c (QIndex (g i)) (clock st)) /\
        newticks !! i =
          Some (TAdd name (length (sockets st) + i)
                  (Namespace_run (n_fns n) (new_Socket n c (QIndex (g i)) (clock st)))).
Proof.
  induction buffer as [|name buffer IH]; intros g st Hc Hdefault Hnames.
  - exists [], []. cbn. rewrite !app_nil_r. split; [by destruct st|]. done.
  - destruct (Hnames name) as [Hslash [n Hn]]; [apply elem_of_cons; by left|].
    cbn [imap for_each]. cbn [fst snd].
    rewrite (bind_ret_silent _ _ _ _ _
               (Client_connect_adds cid c name (QIndex (g 0)) n st Hc Hdefault Hslash Hn)).
    set (sock := new_Socket n c (QIndex (g 0)) (clock st)).
    set (tick := TAdd name (length (sockets st)) (Namespace_run (n_fns n) sock)).
    set (st1 := set_ticks _ _).
    destruct (IH (g ∘ S) st1) as (news & newticks & Hrun & Hl1 & Hl2 & Hat).
    { exact Hc. }
    { exact Hdefault. }
    { intros name' Hin. apply Hnames. apply elem_of_cons. by right. }
    exists (sock :: news), (tick :: newticks).
    split.
    { change (imap ((fun i name0 => (g i, name0)) ∘ S) buffer)
        with (imap (fun i name0 => ((g ∘ S) i, name0)) buffer).
      rewrite Hrun. subst st1. cbn. rewrite <- !app_assoc. reflexivity. }
    split; [cbn; by rewrite Hl1|]. split; [cbn; by rewrite Hl2|].
    intros [|i] name' Hi; cbn in Hi.
    + injection Hi as <-. exists n. rewrite Nat.add_0_r. done.
    + destruct (Hat i name' Hi) as (n' & Hn' & Hnews & Hticks).
      exists n'. split; [exact Hn'|]. split; [exact Hnews|].
      etrans; [exact Hticks|]. subst st1. cbn. rewrite length_app. cbn.
      replace (length (sockets st) + 1 + i) with (length (sockets st) + S i) by lia.
      reflexivity.
Qed.

(** The client as registered by the callback of [doConnect]. *)
Definition registered_client (r : SockRef) (s : Socket) (c : Client) : Client :=
  set_c_nsps (<[s_nsp s := r]> (c_nsps c))
    (set_c_sockets (omap_set (s_id s) r (c_sockets c)) c).

(** The callback of [doConnect] for the default socket: it registers the
    socket, replays the buffer in order and clears it. *)
Lemma Client_doConnect_fn_replays r s c st :
  sockets st !! r = Some s ->
  s_nsp s = "/" ->
  clients st !! s_client s = Some c ->
  (forall name, name ∈ c_connectBuffer c ->
     String.get 0 name = Some "/"%char /\ is_Some (nsps st !! name)) ->
  exists news newticks st',
    Client_doConnect_fn r st = mkRun (Ret tt) st' [] /\
    sockets st' = (sockets st ++ news)%list /\
    ticks st' = (ticks st ++ newticks)%list /\
    nsps st' = nsps st /\
    clients st' =
      <[s_client s := set_c_connectBuffer [] (registered_client r s c)]> (clients st) /\
    length news = length (c_connectBuffer c) /\
    length newticks = length (c_connectBuffer c) /\
    forall i name, c_connectBuffer c !! i = Some name ->
      exists n,
        nsps st !! name = Some n /\
        news !! i = Some (new_Socket n c (QIndex i) (clock st)) /\
        newticks !! i =
          Some (TAdd name (length (sockets st) + i)
                  (Namespace_run (n_fns n) (new_Socket n c (QIndex i) (clock st)))).
Proof.
  intros Hs Hnsp Hc Hnames.
  unfold Client_doConnect_fn, get_socket. msteps.
  unfold update_client. msteps. cbv beta.
  rewrite (alter_as_insert _ _ c) by exact Hc. fold (registered_client r s c).
  set (c1 := registered_client r s c).
  set (st1 := set_clients _ st).
  assert (Hc1 : clients st1 !! s_client s = Some c1) by apply lookup_insert_eq.
  unfold get_client. erewrite bind_deref by exact Hc1.
  rewrite (bool_decide_eq_true_2 (s_nsp s = "/")) by exact Hnsp. cbn [andb].
  change (c_connectBuffer c1) with (c_connectBuffer c).
  destruct (c_connectBuffer c) as [|name0 buffer] eqn:Hbuf.
  - exists [], [], st1. cbn. rewrite !app_nil_r.
    repeat (split; [reflexivity|]). split; [|done].
    subst st1 c1. cbn. f_equal. unfold registered_client.
    destruct c; cbn in *. by subst.
  - rewrite bool_decide_eq_true_2 by (cbn; lia).
    destruct (replay_loop (s_client s) c1 (name0 :: buffer) (fun i => i) st1)
      as (news & newticks & Hrun & Hl1 & Hl2 & Hat).
    { exact Hc1. }
    { subst c1. unfold registered_client. cbn. rewrite Hnsp, lookup_insert_eq. eauto. }
    { exact Hnames. }
    rewrite (bind_ret_silent _ _ _ _ _ Hrun).
    eexists news, newticks, _. split; [reflexivity|]. cbn.
    repeat (split; [reflexivity|]).
    split; [by rewrite alter_insert_same|].
    split; [exact Hl1|]. split; [exact Hl2|]. exact Hat.
Qed.

(** The store in which the callback of [doConnect] runs: the socket is
    tracked by its namespace and connected. *)
Definition approved_store (r : SockRef) (s : Socket) (st : State) : State :=
  onconnect_store r s
    (set_nsps (alter (fun n => set_n_sockets (<[s_id s := r]> (n_sockets n)) n)
                 (s_nsp s) (nsps st)) st).

Lemma approved_store_frame r s st :
  sockets (approved_store r s st) = sockets st /\
  clients (approved_store r s st) = clients st /\
  ticks (approved_store r s st) = ticks st /\
  clock (approved_store r s st) = clock st /\
  forall name, is_Some (nsps st !! name) ->
               is_Some (nsps (approved_store r s st) !! name).
Proof.
  repeat (split; [reflexivity|]). intros name H.
  unfold approved_store, onconnect_store. cbn.
  by rewrite !lookup_alter_is_Some.
Qed.

(** The approval of a socket, up to the callback of [doConnect]. *)
Lemma Namespace_add_tick_approved r s n c st :
  sockets st !! r = Some s ->
  nsps st !! s_nsp s = Some n ->
  clients st !! s_client s = Some c ->
  is_open (readyState (c_conn c)) = true ->
  exists tr1,
    Forall is_write tr1 /\
    Namespace_add_tick (s_nsp s) r None st =
    (tell tr1;;
     Client_doConnect_fn r;;
     n ← get_nsp (s_nsp s);
     EventEmitter_emit (OnNamespace (s_nsp s)) (n_listeners n) [VStr "connect"; VSock r];;
     EventEmitter_emit (OnNamespace (s_nsp s)) (n_listeners n) [VStr "connection"; VSock r])
      (approved_store r s st).
Proof.
  intros Hs Hn Hc Hopen. unfold Namespace_add_tick, get_socket, get_client. msteps.
  rewrite Hopen. unfold update_nsp at 1. msteps.
  set (st_a := set_nsps _ st).
  assert (Hn_a : nsps st_a !! s_nsp s =
                 Some (set_n_sockets (<[s_id s := r]> (n_sockets n)) n)).
  { subst st_a. cbn. rewrite lookup_alter_eq, Hn. reflexivity. }
  eexists. split; [|
    rewrite (bind_ret _ _ _ _ _ _ (Socket_onconnect_run r s _ c st_a Hs Hn_a Hc));
    rewrite bind_tell; reflexivity].
  cbn [n_name n_fns set_n_sockets]. case_match; [constructor|].
  unfold transport_writes. case_match; [apply writeToEngine_writes|constructor].
Qed.

(** C6 (amended).  A CONNECT for a name other than ["/"] that the server
    has, or that a parent matcher accepts, arriving before the client's
    default-namespace socket is established, creates no socket and schedules
    no approval: the name is appended to [connectBuffer].  When the
    default-namespace socket is approved, each buffered name gets, in
    arrival order, a socket and a scheduled approval, and the buffer is
    then empty.  A default socket refused by the middleware changes
    nothing: the buffer is not replayed. *)
Theorem Client_connect_buffered :
  (forall cid c name query st,
     clients st !! cid = Some c ->
     name ≠ "/" ->
     c_nsps c !! "/" = None ->
     is_Some (nsps st !! name) \/
     is_Some (first_accepting name (default (QObject []) query) (parentNsps st)) ->
     let run := Client_connect cid name query st in
     outcome run = Ret tt /\ writes (trace run) = [] /\
     sockets (after run) = sockets st /\ ticks (after run) = ticks st /\
     exists c',
       clients (after run) !! cid = Some c' /\
       c_connectBuffer c' = (c_connectBuffer c ++ [name])%list /\
       c_nsps c' = c_nsps c) /\
  (forall r s n c st,
     sockets st !! r = Some s ->
     s_nsp s = "/" ->
     nsps st !! "/" = Some n ->
     clients st !! s_client s = Some c ->
     is_open (readyState (c_conn c)) = true ->
     (forall name, name ∈ c_connectBuffer c ->
        String.get 0 name = Some "/"%char /\ is_Some (nsps st !! name)) ->
     let run := Namespace_add_tick "/" r None st in
     let st' := after run in
     outcome run = Ret tt /\
     (exists news newticks,
        sockets st' = (sockets st ++ news)%list /\
        ticks st' = (ticks st ++ newticks)%list /\
        length news = length (c_connectBuffer c) /\
        length newticks = length (c_connectBuffer c) /\
        forall i name, c_connectBuffer c !! i = Some name ->
          exists n_i,
            let s_i := new_Socket n_i c (QIndex i) (clock st) in
            nsps st' !! name = Some n_i /\
            news !! i = Some s_i /\
            s_nsp s_i = n_name n_i /\ s_client s_i = c_id c /\
            newticks !! i =
              Some (TAdd name (length (sockets st) + i)
                      (Namespace_run (n_fns n_i) s_i))) /\
     (exists c',
        clients st' !! s_client s = Some c' /\
        c_connectBuffer c' = [] /\ c_nsps c' !! "/" = Some r)) /\
  (forall name r msg st,
     after (Namespace_add_tick name r (Some msg) st) = st).
Proof.
  split; [|split].
  - intros cid c name query st Hc Hname Hdefault Hknown run. subst run.
    set (q := default (QObject []) query) in *.
    assert (Hbuf : forall st0 tr,
      clients st0 = clients st -> sockets st0 = sockets st -> ticks st0 = ticks st ->
      Forall (fun e => match e with EvMatcher _ _ _ => True | _ => False end) tr ->
      let d := Client_doConnect cid name q st0 in
      outcome d = Ret tt /\ writes (tr ++ trace d) = [] /\
      sockets (after d) = sockets st /\ ticks (after d) = ticks st /\
      exists c', clients (after d) !! cid = Some c' /\
        c_connectBuffer c' = (c_connectBuffer c ++ [name])%list /\
        c_nsps c' = c_nsps c).
    { intros st0 tr Hcl Hso Hti Htr d. subst d.
      destruct (Client_doConnect_buffers cid c name q st0)
        as (st1 & Hcl1 & Hso1 & Hti1 & ->); [by rewrite Hcl|done..|].
      cbn [outcome after trace]. split; [reflexivity|]. split.
      { rewrite app_nil_r. induction Htr as [|e tr He _ IH]; [reflexivity|].
        destruct e; try contradiction. exact IH. }
      cbn. split; [congruence|]. split; [congruence|].
      eexists. split; [apply lookup_insert_eq|]. done. }
    unfold Client_connect. cbv zeta. fold q. rewrite bind_gets.
    case_bool_decide as Hstatic.
    + apply (Hbuf st []); done.
    + destruct Hknown as [Hk|[i Hfirst]]; [done|].
      rewrite bind_run, Server_checkNamespace_run, Hfirst.
      destruct (first_accepting_Some _ _ _ _ Hfirst) as ([m p] & Hi & _).
      rewrite (ParentNamespace_createChild_run i name m p) by exact Hi.
      cbn [outcome after trace]. rewrite app_nil_r.
      apply (Hbuf (child_store i name p st)); try reflexivity.
      apply Forall_forall. intros e He.
      apply list_elem_of_fmap in He as (j & -> & _). exact I.
  - intros r s n c st Hs Hnsp Hn Hc Hopen Hnames run st'. subst st' run.
    rewrite <- Hnsp in Hn.
    destruct (Namespace_add_tick_approved r s n c st Hs Hn Hc Hopen) as (tr1 & _ & Hrun).
    rewrite Hnsp in Hrun. rewrite Hrun. clear Hrun.
    destruct (approved_store_frame r s st) as (Hso & Hcl & Hti & Hclk & Hdom).
    destruct (Client_doConnect_fn_replays r s c (approved_store r s st))
      as (news & newticks & st2 & Hfn & Hso2 & Hti2 & Hns2 & Hcl2 & Hl1 & Hl2 & Hat).
    { by rewrite Hso. }
    { exact Hnsp. }
    { by rewrite Hcl. }
    { intros name Hin. destruct (Hnames name Hin) as [H1 H2]. split; [done|].
      by apply Hdom. }
    rewrite bind_tell. rewrite (bind_ret_silent _ _ _ _ _ Hfn).
    destruct (Hdom "/") as [n2 Hn2]; [rewrite <- Hnsp; eauto|].
    rewrite <- Hns2 in Hn2. unfold get_nsp. erewrite bind_deref by exact Hn2.
    assert (Hd1 : "connect" ≠ "error") by discriminate.
    assert (Hd2 : "connection" ≠ "error") by discriminate.
    rewrite (bind_ret _ _ _ _ _ _
      (EventEmitter_emit_not_error (OnNamespace "/") (n_listeners n2) _ [VSock r] st2 Hd1)).
    rewrite (EventEmitter_emit_not_error (OnNamespace "/") (n_listeners n2) _ [VSock r] st2 Hd2).
    cbn [outcome after trace].
    split; [reflexivity|]. split.
    + exists news, newticks. rewrite Hso2, Hti2, Hso, Hti.
      repeat (split; [done|]).
      intros i name Hi. destruct (Hat i name Hi) as (n_i & Hn_i & Hnews & Hticks).
      rewrite Hclk in *. rewrite Hso in Hticks.
      exists n_i. cbv zeta.
      rewrite Hns2. split; [exact Hn_i|]. split; [exact Hnews|].
      split; [reflexivity|]. split; [reflexivity|exact Hticks].
    + rewrite Hcl2. eexists. split; [apply lookup_insert_eq|].
      split; [reflexivity|]. cbn. rewrite Hnsp. apply lookup_insert_eq.
  - intros name r msg st. unfold Namespace_add_tick, get_socket, get_client.
    destruct (sockets st !! r) as [s|] eqn:Hs;
      [|by rewrite bind_deref_None]. msteps.
    destruct (clients st !! s_client s) as [c|] eqn:Hc;
      [|by rewrite bind_deref_None]. msteps.
    destruct (is_open _); [|reflexivity].
    apply Socket_packet_frame.
Qed.

(** The pending demo server with a namespace [/chat]; then with a CONNECT
    for [/chat] that arrived before the default socket was approved. *)
Definition demo_chat_early : State := after (Server_of "/chat" None demo_pending).
Definition demo_chat_buffered : State :=
  after (Client_connect "c1" "/chat" None demo_chat_early).

Lemma Client_connect_buffered_witness :
  (c_connectBuffer <$> clients demo_chat_buffered !! "c1") = Some ["/chat"] /\
  sockets demo_chat_buffered = sockets demo_chat_early /\
  length (sockets (after (Namespace_add_tick "/" 0 None demo_chat_buffered))) = 2.
Proof.
  destruct Client_connect_buffered as (Ha & Hb & _).
  eassert (Hc : clients demo_chat_early !! "c1" = Some _) by (vm_compute; reflexivity).
  destruct (Ha "c1" _ "/chat" None demo_chat_early Hc) as (_ & _ & Hso & _ & c' & Hc' & Hbuf & _).
  { discriminate. }
  { reflexivity. }
  { left. vm_compute. eauto. }
  split; [|split].
  - unfold demo_chat_buffered. rewrite Hc'. cbn. rewrite Hbuf. reflexivity.
  - exact Hso.
  - eassert (Hs : sockets demo_chat_buffered !! 0 = Some _) by (vm_compute; reflexivity).
    eassert (Hn : nsps demo_chat_buffered !! "/" = Some _) by (vm_compute; reflexivity).
    eassert (Hc2 : clients demo_chat_buffered !! "c1" = Some _) by (vm_compute; reflexivity).
    edestruct (Hb 0 _ _ _ demo_chat_buffered Hs eq_refl Hn Hc2 eq_refl)
      as (_ & (news & newticks & -> & _ & Hlen & _) & _).
    { intros name Hin. cbn in Hin. apply list_elem_of_singleton in Hin as ->.
      split; [reflexivity|]. vm_compute. eauto. }
    rewrite length_app, Hlen. reflexivity.
Defined.

(** C6 as stated fails for a name the server does not know: before the
    default socket is approved, a CONNECT for [/nope] is not buffered; it is
    answered with the ERROR packet. *)
Lemma Client_connect_unknown_not_buffered :
  let run := Client_connect "c1" "/nope" None demo_pending in
  ((c_nsps <$> clients demo_pending !! "c1") ≫= fun m => m !! "/") = None /\
  writes (trace run) = [("c1", FText "4/nope,Invalid namespace", None)] /\
  (c_connectBuffer <$> clients (after run) !! "c1") = Some [].
Proof. vm_compute. repeat split. Qed.

(** * The inbound path *)

Lemma packet_args_run packet args st :
  p_data packet = DArgs args ->
  packet_args packet st = mkRun (Ret args) st [].
Proof. intros H. unfold packet_args. rewrite H. reflexivity. Qed.

(** X1.  An acknowledgement makes one round trip.  After
    [emit(...args, cb)] on a socket that is not broadcasting, an ACK (or
    BINARY_ACK) packet with the id of the emitted packet applies [cb] to the
    data of the packet and forgets the callback; the same packet once more
    applies nothing and changes nothing. *)
Theorem Socket_onack_round_trip fns r s n args cb data ty st :
  sockets st !! r = Some s ->
  nsps st !! s_nsp s = Some n ->
  blacklisted Socket_events (args ++ [VFun cb]) = false ->
  broadcasting (s__rooms s) (s_flags s) = false ->
  ty = ACK \/ ty = BINARY_ACK ->
  let st1 := after (Socket_emit r (args ++ [VFun cb]) st) in
  let ack := mkPacket ty (Some (s_nsp s)) (Some (n_ids n)) (DArgs data) in
  exists st2,
    Socket_onpacket fns r ack st1 = mkRun (Ret (Called (VFun cb) data)) st2 [] /\
    (s_acks <$> sockets st2 !! r) = Some (delete (n_ids n) (s_acks s)) /\
    Socket_onpacket fns r ack st2 = mkRun (Ret Nothing) st2 [].
Proof.
  intros Hs Hn Hev Hb Hty st1 ack.
  assert (Hlast : last_is_function (args ++ [VFun cb]) = true).
  { unfold last_is_function. rewrite last_snoc. reflexivity. }
  assert (Hst1 : st1 = ack_stored r s n (args ++ [VFun cb]) st).
  { subst st1. rewrite (Socket_emit_ack r s n) by done.
    apply Socket_packet_frame. }
  pose proof (ack_stored_socket r s n (args ++ [VFun cb]) st Hs) as Hs1.
  rewrite <- Hst1, last_snoc in Hs1. change (default _ (Some ?v)) with v in Hs1.
  assert (Hon : forall st0 s0,
    sockets st0 !! r = Some s0 ->
    Socket_onpacket fns r ack st0 =
    (called ← Socket_onack r ack;
     mret (match called with Some (f, a) => Called f a | None => Nothing end)) st0).
  { intros st0 s0 _. unfold Socket_onpacket, ack. cbn [p_type].
    destruct Hty as [-> | ->]; reflexivity. }
  eexists. split; [|split].
  - rewrite (Hon _ _ Hs1). unfold Socket_onack, get_socket. msteps.
    cbn [p_id ack s_acks reset_staged set_s_flags set_s__rooms set_s_acks].
    rewrite lookup_insert_eq. cbn [is_function].
    rewrite bind_assoc, (bind_ret_silent _ _ _ data st1) by (by apply packet_args_run).
    unfold update_socket. msteps. reflexivity.
  - cbn [sockets set_sockets]. rewrite list_lookup_alter_eq, Hs1. cbn.
    rewrite delete_insert_eq. reflexivity.
  - set (st2 := set_sockets _ st1).
    assert (Hs2 : sockets st2 !! r =
      Some (set_s_acks (delete (n_ids n) (<[n_ids n := VFun cb]> (s_acks s)))
              (reset_staged (set_s_acks (<[n_ids n := VFun cb]> (s_acks s)) s)))).
    { subst st2. cbn [sockets set_sockets]. rewrite list_lookup_alter_eq, Hs1. reflexivity. }
    rewrite (Hon _ _ Hs2). unfold Socket_onack, get_socket. msteps.
    cbn [p_id ack s_acks set_s_acks]. rewrite lookup_delete_eq. msteps. reflexivity.
Qed.

Lemma Socket_onack_round_trip_witness :
  let st1 := after (Socket_emit 0 [VStr "ping"; VFun 7] demo_server) in
  let ack := mkPacket ACK (Some "/") (Some 0) (DArgs [VStr "pong"]) in
  outcome (Socket_onpacket [] 0 ack st1) = Ret (Called (VFun 7) [VStr "pong"]) /\
  outcome (Socket_onpacket [] 0 ack (after (Socket_onpacket [] 0 ack st1))) = Ret Nothing.
Proof.
  intros st1 ack.
  eassert (Hs : sockets demo_server !! 0 = Some _) by (vm_compute; reflexivity).
  eassert (Hn : nsps demo_server !! "/" = Some _) by (vm_compute; reflexivity).
  destruct (Socket_onack_round_trip [] 0 _ _ [VStr "ping"] 7 [VStr "pong"] ACK
              demo_server Hs Hn) as (st2 & H1 & _ & H3);
    [reflexivity | reflexivity | by left |].
  change (Socket_onpacket [] 0 ack st1 = mkRun (Ret (Called (VFun 7) [VStr "pong"])) st2 [])
    in H1.
  change (Socket_onpacket [] 0 ack st2 = mkRun (Ret Nothing) st2 []) in H3.
  rewrite H1. cbn [outcome after]. rewrite H3. split; reflexivity.
Defined.

(** X2.  The callback that [onevent] attaches to an event with an id sends
    its acknowledgement once.  The first call writes one ACK packet with
    that id and the arguments of the call (BINARY_ACK when they hold binary
    data); every later call writes nothing. *)
Theorem Socket_ack_sends_once r s c id args args' st :
  sockets st !! r = Some s ->
  clients st !! s_client s = Some c ->
  let packet :=
    mkPacket (if hasBin args then BINARY_ACK else ACK) (Some (s_nsp s)) (Some id)
      (DArgs args) in
  let first := transport_writes (s_client s) c (compress_of no_flags) (encoder st packet) in
  Socket_ack r id false args st = mkRun (Ret true) st first /\
  (sent ← Socket_ack r id false args; Socket_ack r id sent args') st =
    mkRun (Ret true) st first.
Proof.
  intros Hs Hc packet first.
  assert (H1 : Socket_ack r id false args st = mkRun (Ret true) st first).
  { unfold Socket_ack. rewrite bind_run.
    rewrite (Socket_packet_default r s) by done.
    rewrite (Client_packet_run _ c) by done. cbn. rewrite app_nil_r. reflexivity. }
  split; [exact H1|].
  rewrite bind_run, H1. cbn. rewrite app_nil_r. reflexivity.
Qed.

Lemma Socket_ack_sends_once_witness :
  trace ((sent ← Socket_ack 0 3 false [VStr "ok"]; Socket_ack 0 3 sent [VStr "again"])
           demo_server) =
  [EvWrite "c1" (FText "3/,iii[ok]") (Some true)].
Proof.
  eassert (Hs : sockets demo_server !! 0 = Some _) by (vm_compute; reflexivity).
  eassert (Hc : clients demo_server !! "c1" = Some _) by (vm_compute; reflexivity).
  destruct (Socket_ack_sends_once 0 _ _ 3 [VStr "ok"] [VStr "again"] demo_server Hs Hc)
    as [_ H2].
  rewrite H2. vm_compute. reflexivity.
Defined.

Lemma Socket_error_run r s c msg st :
  sockets st !! r = Some s ->
  clients st !! s_client s = Some c ->
  Socket_error r msg st =
  mkRun (Ret tt) st
    (transport_writes (s_client s) c (compress_of no_flags)
       (encoder st (mkPacket ERROR (Some (s_nsp s)) None (DStr msg)))).
Proof.
  intros Hs Hc. unfold Socket_error.
  rewrite (Socket_packet_default r s) by done.
  rewrite (Client_packet_run _ c) by done. reflexivity.
Qed.

(** X3.  An EVENT (or BINARY_EVENT) packet is not handled at once: [onpacket]
    runs the middleware of the socket on the arguments, with the
    acknowledgement callback appended when the packet has an id, and leaves
    the rest to the next tick.  In that tick, when a middleware failed, the
    listeners are not called and one ERROR packet with the message is
    written to the client; otherwise the event is raised on the socket,
    whatever its name (also [disconnect] or [connect], which [emit] keeps
    local), and the store is unchanged.  The one exception is an event
    named [error] on a socket without [error] listener: there the tick
    throws and raises nothing. *)
Theorem Socket_onevent_delivers fns fns_of r s c packet args st :
  sockets st !! r = Some s ->
  clients st !! s_client s = Some c ->
  p_type packet = EVENT \/ p_type packet = BINARY_EVENT ->
  p_data packet = DArgs args ->
  let event :=
    match p_id packet with
    | Some id => (args ++ [VFun id])%list
    | None => args
    end in
  let k := KDispatch r event (Socket_run fns event) in
  Socket_onpacket fns r packet st = mkRun (Ret (Scheduled k)) st [] /\
  match Socket_run fns event with
  | Some msg =>
      run_continuation fns_of k st =
      mkRun (Ret Nothing) st
        (transport_writes (s_client s) c (compress_of no_flags)
           (encoder st (mkPacket ERROR (Some (s_nsp s)) None (DStr msg))))
  | None =>
      forall ev rest,
        event = VStr ev :: rest ->
        run_continuation fns_of k st =
        if bool_decide (ev = "error") &&
           bool_decide (listeners "error" (s_listeners s) = [])
        then mkRun (Throw "Unhandled error.") st []
        else mkRun (Ret Nothing) st [EvLocal (OnSocket r) ev rest st]
  end.
Proof.
  intros Hs Hc Hty Hdata event k. split.
  - assert (Hon : Socket_onpacket fns r packet st =
                  (k ← Socket_onevent fns r packet; mret (Scheduled k)) st).
    { unfold Socket_onpacket. destruct Hty as [-> | ->]; reflexivity. }
    rewrite Hon. unfold Socket_onevent.
    rewrite bind_assoc, (bind_ret_silent _ _ _ args st) by (by apply packet_args_run).
    reflexivity.
  - subst k. destruct (Socket_run fns event) as [msg|].
    + unfold run_continuation, Socket_dispatch_tick.
      rewrite bind_run, (Socket_error_run r s c) by done. cbn. rewrite app_nil_r. reflexivity.
    + intros ev rest Hev.
      unfold run_continuation, Socket_dispatch_tick, get_socket. rewrite Hev. msteps.
      rewrite bind_run. unfold EventEmitter_emit.
      case_bool_decide as He; cbn [andb].
      * subst ev. destruct (listeners "error" (s_listeners s)) as [|l ls]; reflexivity.
      * destruct (listeners ev (s_listeners s)); reflexivity.
Qed.

Lemma Socket_onevent_delivers_witness :
  let packet := mkPacket EVENT (Some "/") (Some 3) (DArgs [VStr "disconnect"; VStr "bye"]) in
  let k := KDispatch 0 [VStr "disconnect"; VStr "bye"; VFun 3] None in
  outcome (Socket_onpacket [] 0 packet demo_server) = Ret (Scheduled k) /\
  run_continuation (fun _ => []) k demo_server =
    mkRun (Ret Nothing) demo_server
      [EvLocal (OnSocket 0) "disconnect" [VStr "bye"; VFun 3] demo_server] /\
  (s_connected <$> sockets demo_server !! 0) = Some true /\
  run_continuation (fun _ => []) (KDispatch 0 [VStr "error"; VStr "boom"] None) demo_server =
    mkRun (Throw "Unhandled error.") demo_server [].
Proof.
  cbv zeta.
  eassert (Hs : sockets demo_server !! 0 = Some _) by (vm_compute; reflexivity).
  eassert (Hc : clients demo_server !! "c1" = Some _) by (vm_compute; reflexivity).
  pose proof (Socket_onevent_delivers [] (fun _ => []) 0 _ _
                (mkPacket EVENT (Some "/") None (DArgs [VStr "error"; VStr "boom"]))
                [VStr "error"; VStr "boom"] demo_server Hs Hc (or_introl eq_refl) eq_refl)
    as He.
  cbv zeta in He. cbn [p_id app Socket_run] in He. destruct He as [_ He].
  pose proof (Socket_onevent_delivers [] (fun _ => []) 0 _ _
                (mkPacket EVENT (Some "/") (Some 3) (DArgs [VStr "disconnect"; VStr "bye"]))
                [VStr "disconnect"; VStr "bye"] demo_server Hs Hc (or_introl eq_refl) eq_refl)
    as H.
  cbv zeta in H. cbn [p_id app Socket_run] in H. destruct H as [H1 H2].
  split; [|split; [|split]].
  - rewrite H1. reflexivity.
  - rewrite (H2 "disconnect" [VStr "bye"; VFun 3] eq_refl). reflexivity.
  - vm_compute. reflexivity.
  - rewrite (He "error" [VStr "boom"] eq_refl). reflexivity.
Defined.

(** X4.  A client leaves a namespace.  While its socket is registered,
    [ondecoded] schedules [onpacket] for every packet of that namespace
    that is not a CONNECT.  A DISCONNECT packet then closes the socket with
    the reason [client namespace disconnect], without writing anything to
    the client.  From then on [ondecoded] drops the packets of that
    namespace: nothing is scheduled, written or changed. *)
Theorem Client_ondecoded_after_disconnect url_parse fns r s n c packet st :
  sockets st !! r = Some s ->
  s_connected s = true ->
  nsps st !! s_nsp s = Some n ->
  clients st !! s_client s = Some c ->
  c_nsps c !! s_nsp s = Some r ->
  omap_get (s_id s) (c_sockets c) = Some r ->
  p_nsp packet = Some (s_nsp s) ->
  p_type packet <> CONNECT ->
  let bye := mkPacket DISCONNECT (Some (s_nsp s)) None DNone in
  let reason := "client namespace disconnect" in
  Client_ondecoded url_parse (s_client s) packet st =
    mkRun (Ret (Some (KPacket r packet))) st [] /\
  exists st',
    run_continuation fns (KPacket r bye) st =
      mkRun (Ret Nothing) st'
        [EvLocal (OnSocket r) "disconnecting" [VStr reason] st;
         EvLocal (OnSocket r) "disconnect" [VStr reason] st'] /\
    sockets st' !! r = Some (set_s_connected false true s) /\
    Client_ondecoded url_parse (s_client s) packet st' = mkRun (Ret None) st' [].
Proof.
  intros Hs Hconn Hn Hc Hreg Hsock Hnsp Hty bye reason.
  assert (Hroute : forall st0 c0,
    clients st0 !! s_client s = Some c0 ->
    Client_ondecoded url_parse (s_client s) packet st0 =
    mkRun (Ret ((fun r => KPacket r packet) <$> c_nsps c0 !! s_nsp s)) st0 []).
  { intros st0 c0 Hc0.
    assert (Hdec : Client_ondecoded url_parse (s_client s) packet st0 =
      (c ← get_client (s_client s);
       match p_nsp packet ≫= (fun nsp => c_nsps c !! nsp) with
       | Some socket => mret (Some (KPacket socket packet))
       | None => mret None
       end) st0).
    { unfold Client_ondecoded. destruct (p_type packet); congruence. }
    rewrite Hdec. unfold get_client. msteps. rewrite Hnsp. cbn.
    destruct (c_nsps c0 !! s_nsp s); reflexivity. }
  split.
  - rewrite (Hroute st c Hc), Hreg. reflexivity.
  - assert (Hvalid : forall r', omap_get (s_id s) (c_sockets c) = Some r' ->
                                is_Some (sockets st !! r')).
    { intros r' Hr'. rewrite Hsock in Hr'. injection Hr' as <-. eauto. }
    exists (onclose_store r s n c st). split; [|split].
    + unfold run_continuation, Socket_onpacket, bye. cbn [p_type].
      unfold Socket_ondisconnect. rewrite bind_run.
      rewrite (Socket_onclose_run r s n c) by done. cbn. reflexivity.
    + cbn. rewrite list_lookup_alter_eq, Hs. reflexivity.
    + erewrite Hroute; [|cbn; apply lookup_insert_eq].
      unfold registered_nsp. rewrite Hsock. cbn. rewrite Hs. cbn.
      rewrite lookup_delete_eq. reflexivity.
Qed.

Lemma Client_ondecoded_after_disconnect_witness :
  let packet := mkPacket EVENT (Some "/") None (DArgs [VStr "hello"]) in
  let bye := mkPacket DISCONNECT (Some "/") None DNone in
  Client_ondecoded (fun nsp => (nsp, [])) "c1" packet demo_server =
    mkRun (Ret (Some (KPacket 0 packet))) demo_server [] /\
  outcome (Client_ondecoded (fun nsp => (nsp, [])) "c1" packet
             (after (run_continuation (fun _ => []) (KPacket 0 bye) demo_server))) =
    Ret None.
Proof.
  cbv zeta.
  eassert (Hs : sockets demo_server !! 0 = Some _) by (vm_compute; reflexivity).
  eassert (Hn : nsps demo_server !! "/" = Some _) by (vm_compute; reflexivity).
  eassert (Hc : clients demo_server !! "c1" = Some _) by (vm_compute; reflexivity).
  pose proof (Client_ondecoded_after_disconnect (fun nsp => (nsp, [])) (fun _ => []) 0 _ _ _
                (mkPacket EVENT (Some "/") None (DArgs [VStr "hello"]))
                demo_server Hs eq_refl Hn Hc eq_refl eq_refl eq_refl) as H.
  cbv zeta in H. destruct H as (H1 & st' & H2 & _ & H3); [discriminate|].
  split; [exact H1|].
  change (run_continuation (fun _ => []) (KPacket 0 (mkPacket DISCONNECT (Some "/") None DNone))
            demo_server = mkRun (Ret Nothing) st'
              [EvLocal (OnSocket 0) "disconnecting" [VStr "client namespace disconnect"] demo_server;
               EvLocal (OnSocket 0) "disconnect" [VStr "client namespace disconnect"] st']) in H2.
  rewrite H2. cbn [after]. 
  change (Client_ondecoded (fun nsp => (nsp, [])) "c1"
            (mkPacket EVENT (Some "/") None (DArgs [VStr "hello"])) st' =
          mkRun (Ret None) st' []) in H3.
  rewrite H3. reflexivity.
Defined.

(** ** Errors of the transport *)

(** What [Socket.onerror(err)] shows for the socket [r]: the [error] event
    when it has a listener, two lines on the standard error otherwise. *)
Definition onerror_events (r : SockRef) (err : string) (st : State) : list Event :=
  match sockets st !! r with
  | Some s =>
      match listeners "error" (s_listeners s) with
      | [] => [EvStderr "Missing error handler on `socket`."; EvStderr err]
      | _ => [EvLocal (OnSocket r) "error" [VStr err] st]
      end
  | None => []
  end.

Lemma Socket_onerror_run r s err st :
  sockets st !! r = Some s ->
  Socket_onerror r err st = mkRun (Ret tt) st (onerror_events r err st).
Proof.
  intros Hs. unfold Socket_onerror, onerror_events, get_socket. msteps. rewrite Hs.
  destruct (listeners "error" (s_listeners s)) as [|l ls] eqn:Hl; [reflexivity|].
  unfold EventEmitter_emit. rewrite Hl. reflexivity.
Qed.

Lemma onerror_loop err rs st :
  (forall r, r ∈ rs -> is_Some (sockets st !! r)) ->
  for_each rs (fun r => Socket_onerror r err) st =
  mkRun (Ret tt) st (flat_map (fun r => onerror_events r err st) rs).
Proof.
  induction rs as [|r rs IH]; intros Hrs; [reflexivity|].
  destruct (Hrs r) as [s Hs]; [by left|].
  cbn [for_each flat_map]. rewrite bind_run, (Socket_onerror_run r s) by done.
  cbn [outcome after trace]. rewrite IH by (intros; apply Hrs; by right). reflexivity.
Qed.

(** X5.  A protocol violation (the decoder throws on the data) is caught.
    Every socket of the client is told, in the order of their registration:
    its [error] listeners are called, or two lines go to the standard error
    when it has none.  Telling them writes nothing to the client and
    changes nothing in the store.  Then [close()] of the transport is
    called, once, on that unchanged store, and [ondata] does nothing after
    it: what becomes of the sockets is what the close of the transport
    brings about. *)
Theorem Client_ondata_violation url_parse cid c err st :
  clients st !! cid = Some c ->
  (forall r, r ∈ map snd (c_sockets c) -> is_Some (sockets st !! r)) ->
  let told := flat_map (fun r => onerror_events r err st) (map snd (c_sockets c)) in
  Client_ondata url_parse cid (inl err) st =
    (tell told;; Conn_close cid;; mret None) st /\
  writes told = [] /\
  broadcasts told = [] /\
  Forall (fun e => forall id, e <> EvClose id) told.
Proof.
  intros Hc Hrs told. split.
  - assert (Herr : Client_onerror cid err st = (tell told;; Conn_close cid) st).
    { unfold Client_onerror, get_client. erewrite bind_deref by exact Hc.
      rewrite !bind_run, onerror_loop by done. reflexivity. }
    unfold Client_ondata, try_catch. cbn [throw outcome after trace app].
    rewrite (bind_run (Client_onerror cid err)), Herr, !bind_run.
    cbn. rewrite ?app_nil_r, <- ?app_assoc. reflexivity.
  - assert (Hone : forall r,
      writes (onerror_events r err st) = [] /\
      broadcasts (onerror_events r err st) = [] /\
      Forall (fun e => forall id, e <> EvClose id) (onerror_events r err st)).
    { intros r. unfold onerror_events.
      destruct (sockets st !! r) as [s|];
        [|split; [reflexivity|]; split; [reflexivity|]; constructor].
      destruct (listeners "error" (s_listeners s));
        (split; [reflexivity|]); (split; [reflexivity|]);
        repeat (constructor; [intros id; discriminate|]); constructor. }
    subst told. clear Hrs.
    induction (map snd (c_sockets c)) as [|r rs IH].
    { split; [reflexivity|]. split; [reflexivity|]. constructor. }
    cbn [flat_map]. destruct (Hone r) as (Hw & Hb & Hf).
    destruct IH as (IHw & IHb & IHf).
    rewrite writes_app, broadcasts_app, Hw, Hb, IHw, IHb.
    split; [reflexivity|]. split; [reflexivity|]. apply Forall_app. by split.
Qed.

Lemma Client_ondata_violation_witness :
  let run := Client_ondata (fun nsp => (nsp, [])) "c1" (inl "invalid payload") demo_server in
  outcome run = Ret None /\
  trace run =
    [EvStderr "Missing error handler on `socket`."; EvStderr "invalid payload";
     EvClose "c1"].
Proof.
  eassert (Hc : clients demo_server !! "c1" = Some _) by (vm_compute; reflexivity).
  pose proof (Client_ondata_violation (fun nsp => (nsp, [])) "c1" _ "invalid payload"
                demo_server Hc) as H.
  cbv zeta in H. destruct H as (Hrun & _).
  { intros r Hr. vm_compute in Hr. apply list_elem_of_singleton in Hr as ->.
    vm_compute. eauto. }
  cbv zeta. rewrite Hrun. vm_compute. split; reflexivity.
Defined.

(** * Connecting to a namespace *)

Lemma Namespace_add_tick_refused name r s c msg st :
  sockets st !! r = Some s ->
  clients st !! s_client s = Some c ->
  Namespace_add_tick name r (Some msg) st =
  mkRun (Ret tt) st
    (transport_writes (s_client s) c (compress_of no_flags)
       (encoder st (mkPacket ERROR (Some (s_nsp s)) None (DStr msg)))).
Proof.
  intros Hs Hc. unfold Namespace_add_tick, get_socket, get_client. msteps.
  unfold transport_writes. destruct (is_open (readyState (c_conn c))) eqn:Hopen.
  - rewrite (Socket_error_run r s c) by done. unfold transport_writes.
    rewrite Hopen. reflexivity.
  - reflexivity.
Qed.

Lemma Namespace_add_tick_closed name r s c err st :
  sockets st !! r = Some s ->
  clients st !! s_client s = Some c ->
  is_open (readyState (c_conn c)) = false ->
  Namespace_add_tick name r err st = mkRun (Ret tt) st [].
Proof.
  intros Hs Hc Hopen. unfold Namespace_add_tick, get_socket, get_client. msteps.
  rewrite Hopen. reflexivity.
Qed.

(** X6.  A connection that a middleware of the namespace refuses.  The
    client has its default socket and asks for a namespace of the server
    whose middleware answers the error [msg] for the new socket.  The
    connect and the next tick then write exactly one ERROR packet with
    [msg] for that namespace, and register the socket nowhere: the
    namespaces and the clients are as before, no [connect] event is raised.
    When the transport is no longer open in that tick, nothing is written
    either. *)
Theorem Client_connect_refused cid c name n query msg st :
  clients st !! cid = Some c ->
  c_id c = cid ->
  is_Some (c_nsps c !! "/") ->
  String.get 0 name = Some "/"%char ->
  nsps st !! name = Some n ->
  ticks st = [] ->
  let socket := new_Socket n c query (clock st) in
  Namespace_run (n_fns n) socket = Some msg ->
  (Client_connect cid name (Some query);; run_tick) st =
  mkRun (Ret tt) (set_sockets (sockets st ++ [socket]) st)
    (if is_open (readyState (c_conn c))
     then map (fun f => EvWrite cid f (Some true))
            (encoder st (mkPacket ERROR (Some (n_name n)) None (DStr msg)))
     else []).
Proof.
  intros Hc Hid Hdefault Hslash Hn Hticks socket Hrun.
  rewrite (bind_ret_silent _ _ _ tt _ (Client_connect_adds cid c name query n st
                                         Hc Hdefault Hslash Hn)).
  fold socket. rewrite Hrun, Hticks. cbn [app].
  set (st1 := set_sockets (sockets st ++ [socket]) st).
  unfold run_tick. rewrite bind_gets. cbn [ticks set_ticks]. rewrite bind_modify.
  cbn [run_task]. 
  assert (Hst : set_ticks [] (set_ticks [TAdd name (length (sockets st)) (Some msg)] st1) = st1).
  { subst st1. destruct st. cbn in *. by subst. }
  rewrite Hst.
  assert (Hs : sockets st1 !! length (sockets st) = Some socket).
  { subst st1. cbn. rewrite lookup_app_r by lia. by rewrite Nat.sub_diag. }
  assert (Hc1 : clients st1 !! s_client socket = Some c).
  { subst st1. cbn. by rewrite Hid. }
  rewrite (Namespace_add_tick_refused name _ socket c) by done.
  f_equal. unfold transport_writes, writeToEngine. cbn. rewrite Hid.
  destruct (is_open (readyState (c_conn c))); reflexivity.
Qed.

Lemma Client_connect_refused_witness :
  let shut : Socket -> option string := fun _ => Some "no entry" in
  let st := after ((Server_of "/admin" None;; Namespace_use "/admin" shut) demo_server) in
  let run := (Client_connect "c1" "/admin" (Some (QObject []));; run_tick) st in
  trace run = [EvWrite "c1" (FText "4/admin,no entry") (Some true)] /\
  nsps (after run) = nsps st /\ clients (after run) = clients st.
Proof.
  cbv zeta.
  set (shut := fun _ : Socket => Some "no entry").
  set (st := after ((Server_of "/admin" None;; Namespace_use "/admin" shut) demo_server)).
  eassert (Hc : clients st !! "c1" = Some _) by (vm_compute; reflexivity).
  eassert (Hn : nsps st !! "/admin" = Some _) by (vm_compute; reflexivity).
  eassert (Hdef : is_Some (c_nsps _ !! "/")).
  2: pose proof (Client_connect_refused "c1" _ "/admin" _ (QObject []) "no entry" st Hc
                   eq_refl Hdef eq_refl Hn eq_refl eq_refl) as H.
  { vm_compute. eauto. }
  cbv zeta in H. rewrite H.
  cbn [trace after nsps clients set_sockets]. split; [|split]; [|reflexivity..].
  vm_compute. reflexivity.
Defined.

Lemma omap_get_set_eq {V} k (v : V) m : omap_get k (omap_set k v m) = Some v.
Proof.
  induction m as [|[k' v'] m IH]; cbn.
  - by rewrite bool_decide_eq_true_2.
  - case_bool_decide as Hk; cbn.
    + by rewrite bool_decide_eq_true_2.
    + by rewrite bool_decide_eq_false_2.
Qed.

Lemma omap_get_set_ne {V} k k' (v : V) m :
  k <> k' -> omap_get k (omap_set k' v m) = omap_get k m.
Proof.
  intros Hne. induction m as [|[k0 v0] m IH]; cbn.
  - by rewrite bool_decide_eq_false_2.
  - case_bool_decide as Hk; cbn.
    + subst k0. by rewrite !bool_decide_eq_false_2.
    + case_bool_decide; [reflexivity|exact IH].
Qed.

(** The callback of [doConnect] when there is nothing to replay. *)
Lemma Client_doConnect_fn_plain r s c st :
  sockets st !! r = Some s ->
  clients st !! s_client s = Some c ->
  s_nsp s <> "/" \/ c_connectBuffer c = [] ->
  Client_doConnect_fn r st =
  mkRun (Ret tt)
    (set_clients (<[s_client s := registered_client r s c]> (clients st)) st) [].
Proof.
  intros Hs Hc Hplain. unfold Client_doConnect_fn, get_socket, get_client, update_client.
  msteps. rewrite (alter_as_insert _ _ c) by done.
  erewrite bind_deref by (cbn; apply lookup_insert_eq).
  assert (Hno : bool_decide (s_nsp s = "/") &&
                bool_decide (0 < length (c_connectBuffer (registered_client r s c))) = false).
  { destruct Hplain as [Hne | Hbuf].
    - by rewrite bool_decide_eq_false_2.
    - cbn. rewrite Hbuf. cbn. rewrite (bool_decide_eq_false_2 (0 < 0)) by lia.
      apply andb_false_r. }
  unfold registered_client in Hno |- *. rewrite Hno. reflexivity.
Qed.

(** The approval of a socket whose callback has nothing to replay: what is
    written, the store [st'] that results, and the two events, whose
    listeners see [st']. *)
Lemma Namespace_add_tick_registers r s n c st :
  sockets st !! r = Some s ->
  nsps st !! s_nsp s = Some n ->
  clients st !! s_client s = Some c ->
  is_open (readyState (c_conn c)) = true ->
  s_nsp s <> "/" \/ c_connectBuffer c = [] ->
  let n' :=
    set_n_adapter (Adapter_addAll (s_id s) (list_to_set [s_id s]) (n_adapter n))
      (set_n_connected (<[s_id s := r]> (n_connected n))
         (set_n_sockets (<[s_id s := r]> (n_sockets n)) n)) in
  let st' :=
    set_clients (<[s_client s := registered_client r s c]> (clients st))
      (approved_store r s st) in
  Namespace_add_tick (s_nsp s) r None st =
    mkRun (Ret tt) st'
      ((if bool_decide (n_name n = "/") && bool_decide (length (n_fns n) = 0)
        then []
        else map (fun f => EvWrite (s_client s) f (Some true))
               (encoder st (mkPacket CONNECT (Some (s_nsp s)) None DNone))) ++
       [EvLocal (OnNamespace (s_nsp s)) "connect" [VSock r] st';
        EvLocal (OnNamespace (s_nsp s)) "connection" [VSock r] st']) /\
  nsps st' !! s_nsp s = Some n'.
Proof.
  intros Hs Hn Hc Hopen Hplain n' st'.
  set (st_a := approved_store r s st) in *.
  assert (Hn_a : nsps st_a !! s_nsp s = Some n').
  { subst st_a. unfold approved_store, onconnect_store. cbn.
    rewrite !lookup_alter_eq, Hn. reflexivity. }
  assert (Hn' : nsps st' !! s_nsp s = Some n') by exact Hn_a.
  split; [|exact Hn'].
  unfold Namespace_add_tick, get_socket, get_client. msteps.
  rewrite Hopen. unfold update_nsp at 1. msteps.
  set (st_b := set_nsps _ st).
  assert (Hn_b : nsps st_b !! s_nsp s =
                 Some (set_n_sockets (<[s_id s := r]> (n_sockets n)) n)).
  { subst st_b. cbn. rewrite lookup_alter_eq, Hn. reflexivity. }
  rewrite (bind_ret _ _ _ _ _ _ (Socket_onconnect_run r s _ c st_b Hs Hn_b Hc)).
  change (onconnect_store r s st_b) with st_a.
  rewrite (bind_ret_silent _ _ _ tt st' (Client_doConnect_fn_plain r s c st_a Hs Hc Hplain)).
  unfold get_nsp. erewrite bind_deref by exact Hn'.
  rewrite bind_run, EventEmitter_emit_not_error by discriminate.
  cbn [outcome after trace]. rewrite EventEmitter_emit_not_error by discriminate.
  cbn [outcome after trace n_name n_fns set_n_sockets encoder]. f_equal. f_equal.
  - case_match; [reflexivity|]. unfold transport_writes, writeToEngine.
    rewrite Hopen. reflexivity.
Qed.

(** X7.  The approval of a socket is complete before the application hears
    of it.  When the middleware of the namespace let the socket pass and
    the transport is open, the tick registers the socket in the [sockets]
    and [connected] maps of its namespace, joins it to the room of its own
    id, registers it with its client, and only then raises [connect] and
    [connection] on the namespace, in that order: the listeners of both
    events see the socket fully registered.  Before the two events only
    writes to the transport occur. *)
Theorem Namespace_add_approved_order r s n c st :
  sockets st !! r = Some s ->
  nsps st !! s_nsp s = Some n ->
  clients st !! s_client s = Some c ->
  is_open (readyState (c_conn c)) = true ->
  s_nsp s <> "/" \/ c_connectBuffer c = [] ->
  exists st',
    Namespace_add_tick (s_nsp s) r None st =
      mkRun (Ret tt) st'
        ((if bool_decide (n_name n = "/") && bool_decide (length (n_fns n) = 0)
          then []
          else map (fun f => EvWrite (s_client s) f (Some true))
                 (encoder st (mkPacket CONNECT (Some (s_nsp s)) None DNone))) ++
         [EvLocal (OnNamespace (s_nsp s)) "connect" [VSock r] st';
          EvLocal (OnNamespace (s_nsp s)) "connection" [VSock r] st']) /\
    (exists n',
       nsps st' !! s_nsp s = Some n' /\
       n_sockets n' !! s_id s = Some r /\
       n_connected n' !! s_id s = Some r /\
       n_listeners n' = n_listeners n) /\
    s_id s ∈ Socket_rooms s st' /\
    (exists c',
       clients st' !! s_client s = Some c' /\
       c_nsps c' !! s_nsp s = Some r /\
       omap_get (s_id s) (c_sockets c') = Some r) /\
    sockets st' = sockets st.
Proof.
  intros Hs Hn Hc Hopen Hplain.
  destruct (Namespace_add_tick_registers r s n c st Hs Hn Hc Hopen Hplain) as [Hrun Hn'].
  cbv zeta in Hrun, Hn'. eexists. split; [exact Hrun|].
  split; [|split; [|split]].
  - eexists. split; [exact Hn'|]. cbn. rewrite !lookup_insert_eq. done.
  - unfold Socket_rooms. rewrite Hn'. cbn [n_adapter set_n_adapter].
    destruct (Adapter_addAll_socketRooms (s_id s) (list_to_set [s_id s]) (n_adapter n))
      as (joined & -> & Hsub).
    cbn. apply Hsub. cbn. apply elem_of_union_l. by apply elem_of_singleton.
  - exists (registered_client r s c). split; [cbn; apply lookup_insert_eq|].
    cbn. split; [apply lookup_insert_eq|apply omap_get_set_eq].
  - reflexivity.
Qed.

Lemma Namespace_add_approved_order_witness :
  locals (trace (Namespace_add_tick "/chat" 1 None demo_chat_pending)) =
    [(OnNamespace "/chat", "connect", [VSock 1]);
     (OnNamespace "/chat", "connection", [VSock 1])] /\
  writes (trace (Namespace_add_tick "/chat" 1 None demo_chat_pending)) =
    [("c1", FText "0/chat,", Some true)].
Proof.
  eassert (Hs : sockets demo_chat_pending !! 1 = Some _) by (vm_compute; reflexivity).
  eassert (Hn : nsps demo_chat_pending !! "/chat" = Some _) by (vm_compute; reflexivity).
  eassert (Hc : clients demo_chat_pending !! "c1" = Some _) by (vm_compute; reflexivity).
  destruct (Namespace_add_approved_order 1 _ _ _ demo_chat_pending Hs Hn Hc eq_refl)
    as (st' & Hrun & _).
  { left. discriminate. }
  change (Namespace_add_tick "/chat" 1 None demo_chat_pending =
          mkRun (Ret tt) st'
            ([EvWrite "c1" (FText "0/chat,") (Some true)] ++
             [EvLocal (OnNamespace "/chat") "connect" [VSock 1] st';
              EvLocal (OnNamespace "/chat") "connection" [VSock 1] st'])) in Hrun.
  rewrite Hrun. split; reflexivity.
Defined.

(** ** The socket that [Namespace.add] constructs *)

Lemma string_length_app (a b : string) :
  String.length (a ++ b) = String.length a + String.length b.
Proof.
  induction a as [|x a IH]; [reflexivity|].
  change (S (String.length (a ++ b)) = S (String.length a) + String.length b).
  by rewrite IH.
Qed.

Lemma string_app_inj_r (a b s : string) : a ++ s = b ++ s -> a = b.
Proof.
  revert b. induction a as [|x a IH]; intros [|y b] H.
  - reflexivity.
  - apply (f_equal String.length) in H.
    change (String.length s = S (String.length (b ++ s))) in H.
    rewrite string_length_app in H. lia.
  - apply (f_equal String.length) in H.
    change (S (String.length (a ++ s)) = String.length s) in H.
    rewrite string_length_app in H. lia.
  - injection H as -> H. f_equal. by apply IH.
Qed.

(** X8.  The id of a socket tells its namespace.  In the default namespace
    the id of a socket is the id of its client; in every other namespace it
    is the name of the namespace, [#] and the id of the client, and never
    the bare id of the client.  So the sockets of one client in two
    namespaces with different names have different ids. *)
Theorem new_Socket_id_injective n1 n2 c q1 q2 t1 t2 :
  (s_id (new_Socket n1 c q1 t1) = c_id c <-> n_name n1 = "/") /\
  (n_name n1 <> "/" -> s_id (new_Socket n1 c q1 t1) = n_name n1 ++ "#" ++ c_id c) /\
  (s_id (new_Socket n1 c q1 t1) = s_id (new_Socket n2 c q2 t2) ->
   n_name n1 = n_name n2).
Proof.
  assert (Hdiff : forall name, name ++ "#" ++ c_id c <> c_id c).
  { intros name H. apply (f_equal String.length) in H.
    rewrite !string_length_app in H. cbn in H. lia. }
  unfold new_Socket. cbn [s_id]. split; [|split].
  - case_bool_decide as H1; split; intros H.
    + by destruct (Hdiff (n_name n1)).
    + done.
    + exact H1.
    + reflexivity.
  - intros H. by rewrite bool_decide_eq_true_2.
  - case_bool_decide as H1; case_bool_decide as H2; intros H.
    + by apply (string_app_inj_r _ _ ("#" ++ c_id c)).
    + by destruct (Hdiff (n_name n1)).
    + symmetry in H. by destruct (Hdiff (n_name n2)).
    + congruence.
Qed.

Lemma omap_get_app {V} k (a b : list (string * V)) :
  omap_get k (a ++ b) =
  match omap_get k a with Some v => Some v | None => omap_get k b end.
Proof.
  induction a as [|[k' v'] a IH]; cbn; [reflexivity|].
  case_bool_decide; [reflexivity|exact IH].
Qed.

Lemma omap_get_fold {V} k (l m : list (string * V)) :
  omap_get k (fold_left (fun m kv => omap_set (fst kv) (snd kv) m) l m) =
  match omap_get k (reverse l) with Some v => Some v | None => omap_get k m end.
Proof.
  revert m. induction l as [|[k0 v0] l IH]; intros m; cbn [fold_left]; [reflexivity|].
  rewrite IH, reverse_cons, omap_get_app. cbn [fst snd omap_get].
  destruct (omap_get k (reverse l)); [reflexivity|].
  case_bool_decide as Hk.
  - subst k0. apply omap_get_set_eq.
  - apply omap_get_set_ne. congruence.
Qed.

(** X9.  The query of the handshake of a new socket is the query of the
    CONNECT packet overlaid with the query of the request url: for every
    key, the value of the url wins, and the value of the packet shows only
    where the url has none (in a list with a key twice, the later binding
    counts).  A connect replayed with an index in place of the query
    contributes nothing. *)
Theorem handshake_query_merge n c query now k :
  let requestQuery := req_query (request (c_conn c)) in
  omap_get k (h_query (s_handshake (new_Socket n c query now))) =
  match omap_get k (reverse requestQuery) with
  | Some v => Some v
  | None =>
      match query with
      | QObject kvs => omap_get k (reverse kvs)
      | QIndex _ => None
      end
  end.
Proof.
  cbn. unfold assign_query. rewrite omap_get_fold, reverse_app, omap_get_app.
  destruct (omap_get k (reverse (req_query (request (c_conn c))))); [reflexivity|].
  destruct query; cbn; [|reflexivity].
  destruct (omap_get k (reverse kvs)); reflexivity.
Qed.

Lemma new_Socket_id_injective_witness :
  s_id (new_Socket (new_Namespace "/" 0) (new_Client "c1" demo_conn) (QObject []) 0) = "c1" /\
  s_id (new_Socket (new_Namespace "/chat" 1) (new_Client "c1" demo_conn) (QObject []) 0) =
    "/chat#c1".
Proof.
  destruct (new_Socket_id_injective (new_Namespace "/" 0) (new_Namespace "/chat" 1)
              (new_Client "c1" demo_conn) (QObject []) (QObject []) 0 0) as [H1 _].
  destruct (new_Socket_id_injective (new_Namespace "/chat" 1) (new_Namespace "/" 0)
              (new_Client "c1" demo_conn) (QObject []) (QObject []) 0 0) as (_ & H2 & _).
  split; [apply H1; reflexivity|apply H2; discriminate].
Defined.

(** ** A new transport connection *)

(** X10.  A new transport connection is connected to the default namespace.
    [onconnection] makes the client and the socket of the client in the
    default namespace (its id is the id of the connection) and registers
    the socket nowhere yet.  When the middleware of the default namespace
    lets the socket pass, the next tick registers the socket with the
    namespace and the client, writes the CONNECT packet only if the
    namespace has middleware, and then raises [connect] and [connection]
    on the namespace. *)
Theorem Server_onconnection_connects id conn n0 st :
  nsps st !! "/" = Some n0 ->
  n_name n0 = "/" ->
  ticks st = [] ->
  is_open (readyState conn) = true ->
  let socket := new_Socket n0 (new_Client id conn) (QObject []) (clock st) in
  let r := length (sockets st) in
  Namespace_run (n_fns n0) socket = None ->
  let accepted := after (Server_onconnection id conn st) in
  sockets accepted = (sockets st ++ [socket])%list /\
  nsps accepted = nsps st /\
  clients accepted = <[id := new_Client id conn]> (clients st) /\
  s_id socket = id /\
  exists st',
    (Server_onconnection id conn;; run_tick) st =
      mkRun (Ret tt) st'
        ((if bool_decide (length (n_fns n0) = 0) then []
          else map (fun f => EvWrite id f (Some true))
                 (encoder st (mkPacket CONNECT (Some "/") None DNone))) ++
         [EvLocal (OnNamespace "/") "connect" [VSock r] st';
          EvLocal (OnNamespace "/") "connection" [VSock r] st']) /\
    sockets st' = (sockets st ++ [socket])%list /\
    ticks st' = [] /\
    (exists n',
       nsps st' !! "/" = Some n' /\
       n_connected n' !! id = Some r /\ n_sockets n' !! id = Some r) /\
    (exists c',
       clients st' !! id = Some c' /\
       c_nsps c' !! "/" = Some r /\ c_sockets c' = [(id, r)]).
Proof.
  intros Hn Hname Hticks Hopen socket r Hpass accepted.
  set (client := new_Client id conn) in *.
  set (st0 := set_clients (<[id := client]> (clients st)) st).
  set (st1 := set_ticks [TAdd "/" r None] (set_sockets (sockets st ++ [socket]) st0)).
  assert (Hacc : Server_onconnection id conn st = mkRun (Ret tt) st1 []).
  { unfold Server_onconnection. rewrite bind_modify. fold client. fold st0.
    unfold Client_connect. rewrite bind_gets.
    rewrite bool_decide_eq_true_2 by (cbn; eauto).
    unfold Client_doConnect.
    destruct (Server_of_run "/" st0) as (st0' & Hof & _ & _ & _ & _ & _ & Hsame).
    rewrite Hsame in Hof by (cbn; eauto).
    rewrite (bind_ret_silent _ _ _ _ _ Hof).
    unfold get_client. erewrite bind_deref by (cbn; apply lookup_insert_eq).
    cbn [bool_decide negb andb]. rewrite bool_decide_eq_true_2 by reflexivity.
    cbn [negb andb].
    unfold Namespace_add, get_nsp, get_client. change (slashed "/") with "/".
    assert (Hn0 : nsps st0 !! "/" = Some n0) by exact Hn.
    assert (Hc0 : clients st0 !! id = Some client) by (cbn; apply lookup_insert_eq).
    msteps. change (clock st0) with (clock st). change (sockets st0) with (sockets st).
    change (new_Socket n0 client (default (QObject []) None) (clock st)) with socket.
    rewrite Hpass. cbn [ticks set_sockets].
    change (ticks st0) with (ticks st). rewrite Hticks. reflexivity. }
  assert (Hid : s_id socket = id).
  { subst socket. cbn. rewrite Hname. by rewrite bool_decide_eq_false_2 by (by intros []). }
  subst accepted. rewrite Hacc. cbn [after].
  split; [reflexivity|]. split; [reflexivity|]. split; [reflexivity|]. split; [exact Hid|].
  set (st2 := set_ticks [] st1).
  assert (Hs : sockets st2 !! r = Some socket).
  { cbn. rewrite lookup_app_r by (subst r; lia). subst r. by rewrite Nat.sub_diag. }
  assert (Hnsp : s_nsp socket = "/") by exact Hname.
  assert (Hn2 : nsps st2 !! s_nsp socket = Some n0) by (rewrite Hnsp; exact Hn).
  assert (Hc2 : clients st2 !! s_client socket = Some client) by (cbn; apply lookup_insert_eq).
  destruct (Namespace_add_tick_registers r socket n0 client st2 Hs Hn2 Hc2 Hopen
              (or_intror eq_refl)) as [Hrun Hn'].
  cbv zeta in Hrun, Hn'. rewrite Hnsp in Hrun, Hn'.
  eexists. split; [|split; [|split; [|split]]].
  - rewrite (bind_ret_silent _ _ _ _ _ Hacc).
    unfold run_tick. rewrite bind_gets. cbn [ticks st1 set_ticks]. rewrite bind_modify.
    cbn [run_task]. fold st2. rewrite Hrun. rewrite Hname.
    rewrite bool_decide_eq_true_2 by reflexivity. cbn [andb]. reflexivity.
  - reflexivity.
  - reflexivity.
  - eexists. split; [exact Hn'|].
    cbn [n_connected n_sockets set_n_adapter set_n_connected set_n_sockets].
    rewrite Hid, !lookup_insert_eq. done.
  - exists (registered_client r socket client).
    split; [cbn [clients set_clients]; apply lookup_insert_eq|].
    unfold registered_client.
    cbn [c_nsps c_sockets set_c_nsps set_c_sockets client new_Client omap_set].
    rewrite Hnsp, Hid. split; [apply lookup_insert_eq|reflexivity].
Qed.

Lemma Server_onconnection_connects_witness :
  let run := (Server_onconnection "c1" demo_conn;; run_tick) (new_Server demo_encode 0) in
  outcome run = Ret tt /\
  writes (trace run) = [] /\
  locals (trace run) =
    [(OnNamespace "/", "connect", [VSock 0]); (OnNamespace "/", "connection", [VSock 0])].
Proof.
  cbv zeta.
  eassert (Hn : nsps (new_Server demo_encode 0) !! "/" = Some _) by (vm_compute; reflexivity).
  destruct (Server_onconnection_connects "c1" demo_conn _ (new_Server demo_encode 0) Hn
              eq_refl eq_refl eq_refl eq_refl) as (_ & _ & _ & _ & st' & Hrun & _).
  change ((Server_onconnection "c1" demo_conn;; run_tick) (new_Server demo_encode 0) =
          mkRun (Ret tt) st'
            [EvLocal (OnNamespace "/") "connect" [VSock 0] st';
             EvLocal (OnNamespace "/") "connection" [VSock 0] st']) in Hrun.
  rewrite Hrun. repeat split.
Defined.

(** * Staged flags *)

Lemma staged_run r s f st :
  sockets st !! r = Some s ->
  update_socket r f st = mkRun (Ret tt) (set_sockets (alter f r (sockets st)) st) [] /\
  sockets (set_sockets (alter f r (sockets st)) st) !! r = Some (f s).
Proof. intros Hs. split; [reflexivity|]. cbn. by rewrite list_lookup_alter_eq, Hs. Qed.

(** X11.  The [volatile] flag makes an emit droppable.  On an open
    transport, an emit to the client itself that follows [volatile] is
    written only when the transport is writable, and is dropped without a
    trace when it is not; an emit with no [volatile] flag is written
    whether the transport is writable or not. *)
Theorem Socket_emit_volatile r s n c args st :
  sockets st !! r = Some s ->
  nsps st !! s_nsp s = Some n ->
  clients st !! s_client s = Some c ->
  is_open (readyState (c_conn c)) = true ->
  blacklisted Socket_events args = false ->
  broadcasting (s__rooms s) (s_flags s) = false ->
  let packet :=
    mkPacket (event_type (s_flags s) args) (Some (s_nsp s))
      (if last_is_function args then Some (n_ids n) else None)
      (DArgs (if last_is_function args then removelast args else args)) in
  let frames :=
    map (fun f => EvWrite (s_client s) f (f_compress (compress_of (s_flags s))))
      (encoder st packet) in
  trace ((Socket_volatile r;; Socket_emit r args) st) =
    (if writable (c_conn c) then frames else []) /\
  (truthy (f_volatile (s_flags s)) = false -> trace (Socket_emit r args st) = frames).
Proof.
  intros Hs Hn Hc Hopen Hb Hbr packet frames. split.
  - destruct (staged_run r s (fun s => set_s_flags (set_f_volatile true (s_flags s)) s) st Hs)
      as [Hrun Hs1].
    unfold Socket_volatile. rewrite (bind_ret_silent _ _ _ _ _ Hrun).
    rewrite (Socket_emit_direct r _ n c _ _ Hs1) by done.
    unfold transport_writes, writeToEngine. rewrite Hopen. cbn.
    destruct (writable (c_conn c)); reflexivity.
  - intros Hv. rewrite (Socket_emit_direct r s n c) by done.
    rewrite transport_writes_open by (destruct (s_flags s); done). reflexivity.
Qed.

Lemma Socket_emit_volatile_witness :
  let congested :=
    after (update_client "c1" (set_c_conn (mkConn Open false (request demo_conn) "10.0.0.1"))
             demo_server) in
  trace ((Socket_volatile 0;; Socket_emit 0 [VStr "tick"]) congested) = [] /\
  trace (Socket_emit 0 [VStr "tick"] congested) =
    [EvWrite "c1" (FText "2/,[tick]") (Some true)].
Proof.
  cbv zeta.
  set (congested := after (update_client "c1" _ demo_server)).
  eassert (Hs : sockets congested !! 0 = Some _) by (vm_compute; reflexivity).
  eassert (Hn : nsps congested !! "/" = Some _) by (vm_compute; reflexivity).
  eassert (Hc : clients congested !! "c1" = Some _) by (vm_compute; reflexivity).
  destruct (Socket_emit_volatile 0 _ _ _ [VStr "tick"] congested Hs Hn Hc eq_refl eq_refl
              eq_refl) as [H1 H2].
  split; [exact H1|]. rewrite H2 by reflexivity. vm_compute. reflexivity.
Defined.

(** X12.  The staged [compress] and [binary] flags shape what is written.
    After [compress(z)] and [binary(b)], an emit to the client itself
    writes every frame with the compress option [z], and its packet has the
    type BINARY_EVENT exactly when [b] is true, whatever the arguments
    hold.  With no flag staged the compress option is true and the type
    follows the arguments. *)
Theorem Socket_emit_staged_flags r s n c z b args st :
  sockets st !! r = Some s ->
  nsps st !! s_nsp s = Some n ->
  clients st !! s_client s = Some c ->
  is_open (readyState (c_conn c)) = true ->
  truthy (f_volatile (s_flags s)) = false ->
  blacklisted Socket_events args = false ->
  broadcasting (s__rooms s) (s_flags s) = false ->
  let packet type :=
    mkPacket type (Some (s_nsp s))
      (if last_is_function args then Some (n_ids n) else None)
      (DArgs (if last_is_function args then removelast args else args)) in
  trace ((Socket_compress r z;; Socket_binary r b;; Socket_emit r args) st) =
    map (fun f => EvWrite (s_client s) f (Some z))
      (encoder st (packet (if b then BINARY_EVENT else EVENT))) /\
  (s_flags s = no_flags ->
   trace (Socket_emit r args st) =
     map (fun f => EvWrite (s_client s) f (Some true))
       (encoder st (packet (if hasBin args then BINARY_EVENT else EVENT)))).
Proof.
  intros Hs Hn Hc Hopen Hv Hb Hbr packet. split.
  - destruct (staged_run r s (fun s => set_s_flags (set_f_compress z (s_flags s)) s) st Hs)
      as [Hrun1 Hs1].
    unfold Socket_compress. rewrite (bind_ret_silent _ _ _ _ _ Hrun1).
    destruct (staged_run r _ (fun s => set_s_flags (set_f_binary b (s_flags s)) s) _ Hs1)
      as [Hrun2 Hs2].
    unfold Socket_binary. rewrite (bind_ret_silent _ _ _ _ _ Hrun2).
    rewrite (Socket_emit_direct r _ n c _ _ Hs2) by done.
    rewrite transport_writes_open by (destruct (s_flags s); done).
    cbn. unfold event_type. cbn. f_equal.
    + by destruct z.
  - intros Hno. rewrite (Socket_emit_direct r s n c) by done.
    rewrite transport_writes_open by done. rewrite Hno. reflexivity.
Qed.

Lemma Socket_emit_staged_flags_witness :
  trace ((Socket_compress 0 false;; Socket_binary 0 true;; Socket_emit 0 [VStr "x"])
           demo_server) =
  [EvWrite "c1" (FText "5/,[x]") (Some false)].
Proof.
  eassert (Hs : sockets demo_server !! 0 = Some _) by (vm_compute; reflexivity).
  eassert (Hn : nsps demo_server !! "/" = Some _) by (vm_compute; reflexivity).
  eassert (Hc : clients demo_server !! "c1" = Some _) by (vm_compute; reflexivity).
  destruct (Socket_emit_staged_flags 0 _ _ _ false true [VStr "x"] demo_server Hs Hn Hc
              eq_refl eq_refl eq_refl eq_refl) as [H1 _].
  rewrite H1. vm_compute. reflexivity.
Defined.

(** * Broadcasting from a namespace *)

(** X13.  [Namespace.emit] uses up what was staged.  An emit of an event
    that is not reserved for the namespace and has no callback hands one
    packet to the adapter, with the staged rooms, the staged flags and no
    socket excepted; afterwards the staged rooms are empty and the flags
    are [{}], and nothing else of the server has changed.  With a callback
    as last argument the emit throws and the staged rooms and flags are
    kept. *)
Theorem Namespace_emit_resets name n rooms args st :
  nsps st !! name = Some n ->
  roomsets st !! n_rooms n = Some rooms ->
  blacklisted Namespace_events args = false ->
  let run := Namespace_emit name args st in
  if last_is_function args then
    run = mkRun (Throw "Callbacks are not supported when broadcasting") st []
  else
    broadcasts (trace run) =
      [(name,
        mkPacket (event_type (n_flags n) args) None None (DArgs args),
        mkBroadcastOptions rooms None (n_flags n))] /\
    after run =
      set_nsps (<[name := set_n_flags no_flags n]> (nsps st))
        (set_roomsets (<[n_rooms n := ∅]> (roomsets st)) st) /\
    roomsets (after run) !! n_rooms n = Some ∅.
Proof.
  intros Hn Hrooms Hb run. subst run. destruct (last_is_function args) eqn:Hl.
  - by apply (Namespace_emit_throws name n).
  - rewrite (Namespace_emit_sends name n rooms) by done.
    split; [apply Adapter_broadcast_broadcasts|].
    destruct (Adapter_broadcast_frame name
                (mkPacket (event_type (n_flags n) args) None None (DArgs args))
                (mkBroadcastOptions rooms None (n_flags n))
                (set_nsps (alter (set_n_flags no_flags) name (nsps st))
                   (set_roomsets (<[n_rooms n := ∅]> (roomsets st)) st))) as [-> _].
    split.
    + by rewrite (alter_as_insert _ _ n).
    + cbn. apply list_lookup_insert_eq. by eapply lookup_lt_Some.
Qed.

Lemma Namespace_emit_resets_witness :
  let st := after ((Namespace_to "/" "r1";; Namespace_volatile "/") demo_server) in
  let run := Namespace_emit "/" [VStr "news"] st in
  map (fun b => (b_rooms (snd b), b_except (snd b), b_flags (snd b))) (broadcasts (trace run)) =
    [({["r1"]}, None, set_f_volatile true no_flags)] /\
  (n_flags <$> nsps (after run) !! "/") = Some no_flags /\
  roomsets (after run) !! 0 = Some ∅.
Proof.
  cbv zeta.
  set (st := after ((Namespace_to "/" "r1";; Namespace_volatile "/") demo_server)).
  eassert (Hn : nsps st !! "/" = Some _) by (vm_compute; reflexivity).
  eassert (Hr : roomsets st !! 0 = Some _) by (vm_compute; reflexivity).
  pose proof (Namespace_emit_resets "/" _ _ [VStr "news"] st Hn Hr eq_refl) as H.
  cbv zeta in H. cbn [last_is_function last is_function] in H.
  destruct H as (H1 & H2 & H3).
  split; [rewrite H1; vm_compute; reflexivity|].
  split; [rewrite H2; cbn; rewrite lookup_insert_eq; reflexivity|exact H3].
Defined.

(** ** Broadcasting from a parent namespace *)

(** Every socket that the namespace holds as connected is in the store,
    and so is its client: a broadcast can be delivered. *)
Definition deliverable (n : Namespace) (st : State) : Prop :=
  forall id r, n_connected n !! id = Some r ->
    exists s c, sockets st !! r = Some s /\ clients st !! s_client s = Some c.

Lemma for_each_returns {A} (xs : list A) (body : A -> M unit) st :
  (forall x, outcome (body x st) = Ret tt /\ after (body x st) = st) ->
  outcome (for_each xs body st) = Ret tt /\ after (for_each xs body st) = st.
Proof.
  intros Hbody. induction xs as [|x xs IH]; [done|].
  cbn [for_each]. rewrite bind_run. destruct (Hbody x) as [Ho Ha].
  rewrite Ho, Ha. cbn. exact IH.
Qed.

Lemma Adapter_broadcast_returns name n p opts st :
  nsps st !! name = Some n ->
  deliverable n st ->
  outcome (Adapter_broadcast name p opts st) = Ret tt.
Proof.
  intros Hn Hd. unfold Adapter_broadcast, get_nsp. rewrite bind_tell. cbn [outcome].
  msteps. apply for_each_returns. intros id.
  destruct (n_connected n !! id) as [r|] eqn:Hr; [|done].
  destruct (Hd id r Hr) as (s & c & Hs & Hc).
  split; [|apply Socket_packet_frame].
  unfold Socket_packet, get_socket. msteps. cbn.
  unfold Client_packet, get_client. msteps. cbn.
  destruct (is_open (readyState (c_conn c))); reflexivity.
Qed.

(** What the children of a parent broadcast: the first one with the staged
    rooms, the others with none. *)
Definition children_broadcasts (children : list string) (packet : Packet)
    (rooms : gset Room) (flags : BroadcastFlags)
  : list (string * Packet * BroadcastOptions) :=
  match children with
  | [] => []
  | first :: others =>
      (first, packet, mkBroadcastOptions rooms None flags) ::
      map (fun child => (child, packet, mkBroadcastOptions ∅ None flags)) others
  end.

Lemma children_broadcasts_empty children packet flags :
  children_broadcasts children packet ∅ flags =
  map (fun child => (child, packet, mkBroadcastOptions ∅ None flags)) children.
Proof. by destruct children. Qed.

Lemma parent_emit_loop i m p args children : forall rooms st,
  parentNsps st !! i = Some (m, p) ->
  roomsets st !! pn_rooms p = Some rooms ->
  (forall child, child ∈ children ->
     exists n, nsps st !! child = Some n /\ deliverable n st) ->
  blacklisted Namespace_events args = false ->
  last_is_function args = false ->
  let run :=
    for_each children (fun child =>
      p ← get_parent i;
      update_nsp child (fun n => set_n_flags (pn_flags p) (set_n_rooms (pn_rooms p) n));;
      Namespace_emit child args) st in
  outcome run = Ret tt /\
  broadcasts (trace run) =
    children_broadcasts children
      (mkPacket (event_type (pn_flags p) args) None None (DArgs args)) rooms (pn_flags p) /\
  parentNsps (after run) = parentNsps st /\
  sockets (after run) = sockets st /\
  clients (after run) = clients st /\
  length (roomsets (after run)) = length (roomsets st) /\
  (forall child, child ∈ children ->
     roomsets (after run) !! pn_rooms p = Some ∅ /\
     exists n', nsps (after run) !! child = Some n' /\
                n_rooms n' = pn_rooms p /\ n_flags n' = no_flags) /\
  (forall name n, nsps st !! name = Some n ->
     exists n', nsps (after run) !! name = Some n' /\
                n_connected n' = n_connected n /\
                (name ∉ children -> n' = n)).
Proof.
  induction children as [|child children IH]; intros rooms st Hp Hrooms Hwf Hb Hl run.
  { subst run. cbn [for_each]. do 6 (split; [reflexivity|]). split.
    - intros c0 Hin. by apply elem_of_nil in Hin.
    - intros name n Hn. exists n. done. }
  destruct (Hwf child) as (n & Hn & Hd); [by left|].
  set (n_a := set_n_flags (pn_flags p) (set_n_rooms (pn_rooms p) n)).
  set (st_a := set_nsps (alter (fun n => set_n_flags (pn_flags p) (set_n_rooms (pn_rooms p) n))
                           child (nsps st)) st).
  set (st_b := set_nsps (alter (set_n_flags no_flags) child (nsps st_a))
                 (set_roomsets (<[n_rooms n_a := ∅]> (roomsets st_a)) st_a)).
  set (packet := mkPacket (event_type (pn_flags p) args) None None (DArgs args)).
  assert (Hn_a : nsps st_a !! child = Some n_a).
  { subst st_a. cbn. by rewrite lookup_alter_eq, Hn. }
  assert (Hn_b : nsps st_b !! child = Some (set_n_flags no_flags n_a)).
  { subst st_b. cbn [nsps set_nsps]. by rewrite lookup_alter_eq, Hn_a. }
  assert (Hlt : pn_rooms p < length (roomsets st)) by (by eapply lookup_lt_Some).
  assert (Hbody :
    (p ← get_parent i;
     update_nsp child (fun n => set_n_flags (pn_flags p) (set_n_rooms (pn_rooms p) n));;
     Namespace_emit child args) st =
    Adapter_broadcast child packet (mkBroadcastOptions rooms None (pn_flags p)) st_b).
  { unfold get_parent. erewrite bind_deref by (by rewrite Hp).
    unfold update_nsp. rewrite bind_modify. fold st_a.
    by rewrite (Namespace_emit_sends child n_a rooms). }
  assert (Hret : outcome (Adapter_broadcast child packet
                            (mkBroadcastOptions rooms None (pn_flags p)) st_b) = Ret tt).
  { apply (Adapter_broadcast_returns child _ _ _ _ Hn_b). exact Hd. }
  destruct (Adapter_broadcast_frame child packet
              (mkBroadcastOptions rooms None (pn_flags p)) st_b) as [Hafter _].
  assert (Hrooms_b : roomsets st_b !! pn_rooms p = Some ∅).
  { unfold st_b. cbn [roomsets set_roomsets set_nsps]. by apply list_lookup_insert_eq. }
  assert (Hkeep : forall name n0, nsps st !! name = Some n0 ->
            exists n', nsps st_b !! name = Some n' /\ n_connected n' = n_connected n0 /\
                       (name <> child -> n' = n0)).
  { intros name n0 Hn0. unfold st_b, st_a. cbn [nsps set_nsps set_roomsets].
    destruct (decide (name = child)) as [->|Hne].
    - rewrite !lookup_alter_eq, Hn0. eexists. split; [reflexivity|]. split; [reflexivity|done].
    - rewrite !lookup_alter_ne by done. eauto. }
  destruct (IH ∅ st_b) as (Ho & Hbc & Hpar & Hso & Hcl & Hlen & Hch & Hkeep'); try done.
  { intros child' Hin. destruct (Hwf child') as (n0 & Hn0 & Hd0); [by right|].
    destruct (Hkeep child' n0 Hn0) as (n' & Hn' & Hconn & _).
    exists n'. split; [exact Hn'|]. intros id r Hr. rewrite Hconn in Hr.
    exact (Hd0 id r Hr). }
  subst run. cbn [for_each]. rewrite bind_run, Hbody, Hret, Hafter. cbn [outcome after trace].
  split; [exact Ho|]. split.
  { rewrite broadcasts_app, Adapter_broadcast_broadcasts, Hbc, children_broadcasts_empty.
    reflexivity. }
  split; [by rewrite Hpar|]. split; [by rewrite Hso|]. split; [by rewrite Hcl|].
  split. { rewrite Hlen. subst st_b. cbn. by rewrite length_insert. }
  split.
  - intros child' Hin.
    assert (Hr : roomsets (after (for_each children (fun child =>
                    p ← get_parent i;
                    update_nsp child (fun n => set_n_flags (pn_flags p)
                                                 (set_n_rooms (pn_rooms p) n));;
                    Namespace_emit child args) st_b)) !! pn_rooms p = Some ∅).
    { destruct children as [|c0 cs]; [exact Hrooms_b|].
      apply (Hch c0). by left. }
    split; [exact Hr|].
    destruct (decide (child' ∈ children)) as [Hin'|Hnot].
    + apply (Hch child' Hin').
    + apply elem_of_cons in Hin as [->|]; [|done].
      destruct (Hkeep' child _ Hn_b) as (n' & Hn' & _ & Hsame).
      exists n'. split; [exact Hn'|]. by rewrite (Hsame Hnot).
  - intros name n0 Hn0. destruct (Hkeep name n0 Hn0) as (n1 & Hn1 & Hc1 & Hs1).
    destruct (Hkeep' name n1 Hn1) as (n2 & Hn2 & Hc2 & Hs2).
    exists n2. split; [exact Hn2|]. split; [congruence|].
    intros Hnot. apply not_elem_of_cons in Hnot as [Hne Hnot].
    rewrite (Hs2 Hnot). by apply Hs1.
Qed.

(** X14.  What [ParentNamespace.emit] broadcasts, for any number of
    children.  The parent lends its own set of staged rooms to every
    child, and the emit of a child empties that set.  So an emit of an
    event with no callback broadcasts in every child, in the order of their
    creation and with the staged flags of the parent, but only the first
    child broadcasts to the staged rooms: every later child broadcasts with
    no room at all.  Afterwards the staged rooms and flags of the parent
    are cleared, and every child still refers to the set of the parent as
    its own staged rooms. *)
Theorem ParentNamespace_emit_first_child_only i m p rooms args st :
  parentNsps st !! i = Some (m, p) ->
  roomsets st !! pn_rooms p = Some rooms ->
  (forall child, child ∈ pn_children p ->
     exists n, nsps st !! child = Some n /\ deliverable n st) ->
  blacklisted Namespace_events args = false ->
  last_is_function args = false ->
  let run := ParentNamespace_emit i args st in
  let packet := mkPacket (event_type (pn_flags p) args) None None (DArgs args) in
  outcome run = Ret tt /\
  broadcasts (trace run) =
    match pn_children p with
    | [] => []
    | first :: others =>
        (first, packet, mkBroadcastOptions rooms None (pn_flags p)) ::
        map (fun child => (child, packet, mkBroadcastOptions ∅ None (pn_flags p))) others
    end /\
  roomsets (after run) !! pn_rooms p = Some ∅ /\
  parentNsps (after run) !! i = Some (m, set_pn_flags no_flags p) /\
  (forall child, child ∈ pn_children p ->
     exists n', nsps (after run) !! child = Some n' /\
                n_rooms n' = pn_rooms p /\ n_flags n' = no_flags).
Proof.
  intros Hp Hrooms Hwf Hb Hl run packet.
  destruct (parent_emit_loop i m p args (pn_children p) rooms st Hp Hrooms Hwf Hb Hl)
    as (Ho & Hbc & Hpar & _ & _ & Hlen & Hch & _).
  set (loop := for_each (pn_children p) _ st) in *.
  assert (Hrun : run =
    mkRun (Ret tt)
      (set_parentNsps
         (alter (fun mp => (fst mp, set_pn_flags no_flags (snd mp))) i (parentNsps (after loop)))
         (set_roomsets (<[pn_rooms p := ∅]> (roomsets (after loop))) (after loop)))
      (trace loop)).
  { assert (Hget : forall B (k : ParentNamespace -> M B) st0,
      parentNsps st0 = parentNsps st -> (get_parent i ≫= k) st0 = k p st0).
    { intros B k st0 Hst0. unfold get_parent. apply bind_deref. by rewrite Hst0, Hp. }
    subst run. unfold ParentNamespace_emit. rewrite Hget by reflexivity.
    rewrite bind_run. fold loop. rewrite Ho, (Hget _ _ _ Hpar).
    unfold update_parent. rewrite !bind_modify. cbn. rewrite app_nil_r. reflexivity. }
  rewrite Hrun. cbn [outcome after trace]. split; [reflexivity|].
  split; [exact Hbc|]. split; [|split].
  - cbn. apply list_lookup_insert_eq. rewrite Hlen. by eapply lookup_lt_Some.
  - cbn. rewrite Hpar, list_lookup_alter_eq, Hp. reflexivity.
  - intros child Hin. destruct (Hch child Hin) as (_ & n' & Hn' & Hr & Hf). eauto.
Qed.

Lemma ParentNamespace_emit_first_child_only_witness :
  map (fun b => (fst (fst b), b_rooms (snd b)))
    (broadcasts (trace (ParentNamespace_emit 1 [VStr "x"] demo_children))) =
  [("/room-1", {["r1"]}); ("/room-2", ∅)].
Proof.
  set (p := mkParent "/_1" [] 2 (set_f_volatile true no_flags) [("connect", 5)]
              ["/room-1"; "/room-2"]).
  assert (Hp : parentNsps demo_children !! 1 = Some (demo_matcher_room, p))
    by (vm_compute; reflexivity).
  assert (Hr : roomsets demo_children !! pn_rooms p = Some {["r1"]})
    by (vm_compute; reflexivity).
  assert (Hwf : forall child, child ∈ pn_children p ->
     exists n, nsps demo_children !! child = Some n /\ deliverable n demo_children).
  { intros child Hin. cbn in Hin. rewrite !elem_of_cons in Hin.
    destruct Hin as [Hin | [Hin | Hin]].
    - subst child. eexists. split; [vm_compute; reflexivity|].
      intros id r H0. vm_compute in H0. discriminate.
    - subst child. eexists. split; [vm_compute; reflexivity|].
      intros id r H0. vm_compute in H0. discriminate.
    - apply elem_of_nil in Hin. destruct Hin. }
  destruct (ParentNamespace_emit_first_child_only 1 _ p _ [VStr "x"] demo_children Hp Hr
              Hwf eq_refl eq_refl) as (_ & Hb & _).
  rewrite Hb. vm_compute. reflexivity.
Defined.

(** * Closing the sockets of a client *)

Lemma omap_get_delete_ne {V} k k' (m : list (string * V)) :
  k <> k' -> omap_get k (omap_delete k' m) = omap_get k m.
Proof.
  intros Hne. unfold omap_delete. induction m as [|[k0 v0] m IH]; [reflexivity|].
  rewrite filter_cons. cbn [fst]. case_decide as Hk; cbn [omap_get].
  - case_bool_decide; [reflexivity|exact IH].
  - subst k0. by rewrite bool_decide_eq_false_2.
Qed.

Lemma omap_get_NoDup {V} k (v : V) (m : list (string * V)) :
  NoDup (map fst m) -> (k, v) ∈ m -> omap_get k m = Some v.
Proof.
  induction m as [|[k0 v0] m IH]; intros Hnd Hin; [by apply elem_of_nil in Hin|].
  cbn in Hnd. apply NoDup_cons in Hnd as [Hk0 Hnd].
  apply elem_of_cons in Hin as [Heq|Hin]; cbn [omap_get].
  - injection Heq as <- <-. by rewrite bool_decide_eq_true_2.
  - rewrite bool_decide_eq_false_2; [by apply IH|].
    intros ->. apply Hk0. change (map fst m) with (fst <$> m).
    apply list_elem_of_fmap. by exists (k, v).
Qed.

Lemma omap_delete_NoDup {V} k (m : list (string * V)) :
  NoDup (map fst m) -> NoDup (map fst (omap_delete k m)).
Proof.
  intros Hnd. eapply sublist_NoDup; [exact Hnd|].
  change (fst <$> omap_delete k m `sublist_of` fst <$> m).
  apply fmap_sublist. unfold omap_delete. apply sublist_filter.
Qed.

Lemma elem_of_omap_delete {V} k (e : string * V) m :
  e ∈ omap_delete k m <-> e ∈ m /\ fst e <> k.
Proof. unfold omap_delete. rewrite list_elem_of_filter. tauto. Qed.

(** The [sockets] map of the client [c] of the connection [cid] is sound:
    its keys are distinct, and every entry holds, under the id of the
    socket, a connected socket of that client in a namespace of the
    server. *)
Definition registered (cid : ClientId) (c : Client) (st : State) : Prop :=
  NoDup (map fst (c_sockets c)) /\
  forall id r, (id, r) ∈ c_sockets c ->
    exists s, sockets st !! r = Some s /\ s_id s = id /\ s_client s = cid /\
              s_connected s = true /\ is_Some (nsps st !! s_nsp s).

(** The namespaces of [st'] hold no socket that those of [st] do not. *)
Definition shrunk (st st' : State) : Prop :=
  encoder st' = encoder st /\
  forall name n, nsps st !! name = Some n ->
    exists n', nsps st' !! name = Some n' /\
               n_connected n' ⊆ n_connected n /\ n_sockets n' ⊆ n_sockets n.

Lemma shrunk_refl st : shrunk st st.
Proof. split; [reflexivity|]. intros name n Hn. exists n. done. Qed.

Lemma shrunk_trans st1 st2 st3 : shrunk st1 st2 -> shrunk st2 st3 -> shrunk st1 st3.
Proof.
  intros [He1 H1] [He2 H2]. split; [congruence|]. intros name n Hn.
  destruct (H1 name n Hn) as (n' & Hn' & Hc' & Hs').
  destruct (H2 name n' Hn') as (n'' & Hn'' & Hc'' & Hs'').
  exists n''. split; [exact Hn''|]. split; etrans; eauto.
Qed.

(** The store after the teardown of one registered socket. *)
Lemma onclose_store_registered cid c id r s n st :
  clients st !! cid = Some c ->
  registered cid c st ->
  (id, r) ∈ c_sockets c ->
  sockets st !! r = Some s ->
  s_id s = id ->
  s_client s = cid ->
  nsps st !! s_nsp s = Some n ->
  let st1 := onclose_store r s n c st in
  let c1 := set_c_nsps (delete (s_nsp s) (c_nsps c))
              (set_c_sockets (omap_delete id (c_sockets c)) c) in
  clients st1 !! cid = Some c1 /\
  registered cid c1 st1 /\
  shrunk st st1 /\
  sockets st1 = alter (set_s_connected false true) r (sockets st) /\
  nsps st1 !! s_nsp s = Some (closed_namespace id n).
Proof.
  intros Hc [Hnd Hreg] Hin Hs Hid Hcid Hn st1 c1. subst id cid.
  assert (Hget : omap_get (s_id s) (c_sockets c) = Some r) by (by apply omap_get_NoDup).
  assert (Hc1 : clients st1 !! s_client s = Some c1).
  { subst st1 c1. cbn [clients onclose_store]. rewrite lookup_insert_eq.
    unfold registered_nsp. rewrite Hget. cbn. rewrite Hs. reflexivity. }
  split; [exact Hc1|]. split; [|split; [|split]].
  - split; [by apply omap_delete_NoDup|].
    intros id' r' Hin'. cbn [c_sockets c1 set_c_nsps set_c_sockets] in Hin'.
    apply elem_of_omap_delete in Hin' as [Hin' Hne]. cbn [fst] in Hne.
    destruct (Hreg id' r' Hin') as (s' & Hs' & Hid' & Hcid' & Hconn' & Hn').
    assert (Hr : r' <> r) by (intros ->; congruence).
    exists s'. split.
    { subst st1. cbn [sockets onclose_store]. by rewrite list_lookup_alter_ne. }
    do 3 (split; [done|]).
    subst st1. cbn [nsps onclose_store]. rewrite lookup_insert_is_Some'. by right.
  - split; [reflexivity|]. intros name n0 Hn0. subst st1. cbn [nsps onclose_store].
    destruct (decide (name = s_nsp s)) as [->|Hne].
    + rewrite lookup_insert_eq. eexists. split; [reflexivity|].
      rewrite Hn in Hn0. injection Hn0 as <-. cbn. split; apply delete_subseteq.
    + rewrite lookup_insert_ne by done. exists n0. done.
  - reflexivity.
  - subst st1. cbn [nsps onclose_store]. apply lookup_insert_eq.
Qed.

Lemma flat_map_ext_in {A B} (f g : A -> list B) (l : list A) :
  (forall x, x ∈ l -> f x = g x) -> flat_map f l = flat_map g l.
Proof.
  induction l as [|x l IH]; intros H; [reflexivity|]. cbn.
  rewrite (H x) by (by left). rewrite IH; [reflexivity|].
  intros y Hy. apply H. by right.
Qed.

Lemma locals_app t1 t2 : locals (t1 ++ t2) = (locals t1 ++ locals t2)%list.
Proof. unfold locals. apply omap_app. Qed.

Lemma writes_writes_only tr : Forall is_write tr -> locals tr = [] /\ broadcasts tr = [].
Proof. intros H. split; [by apply locals_writes|by apply broadcasts_writes]. Qed.

Lemma elem_of_map_snd {A B} (l : list (A * B)) y :
  y ∈ map snd l <-> exists x, (x, y) ∈ l.
Proof.
  change (map snd l) with (snd <$> l). rewrite list_elem_of_fmap. split.
  - intros ([x y'] & -> & Hin). by exists x.
  - intros (x & Hin). by exists (x, y).
Qed.

Lemma elem_of_map_fst {A B} (l : list (A * B)) x :
  x ∈ map fst l <-> exists y, (x, y) ∈ l.
Proof.
  change (map fst l) with (fst <$> l). rewrite list_elem_of_fmap. split.
  - intros ([x' y] & -> & Hin). by exists y.
  - intros (y & Hin). by exists (x, y).
Qed.

(** The events of a teardown: writes to the transport and local events. *)
Definition closing_event (e : Event) : Prop :=
  match e with
  | EvWrite _ _ _ | EvLocal _ _ _ _ => True
  | _ => False
  end.

Lemma closing_event_write tr : Forall is_write tr -> Forall closing_event tr.
Proof. intros H. eapply Forall_impl; [exact H|]. by intros []. Qed.

Section Closing.

(** The client whose sockets are closed, the reason given to the sockets,
    and the step that closes one socket: [Socket.onclose(reason)] after
    whatever the step writes first. *)
Variable cid : ClientId.
Variable reason : string.
Variable body : SockRef -> M unit.
Variable prefix : Socket -> Client -> State -> list Event.

Hypothesis body_run : forall r s n c st,
  sockets st !! r = Some s ->
  s_connected s = true ->
  nsps st !! s_nsp s = Some n ->
  clients st !! s_client s = Some c ->
  (forall r', omap_get (s_id s) (c_sockets c) = Some r' -> is_Some (sockets st !! r')) ->
  body r st =
  mkRun (Ret tt) (onclose_store r s n c st)
    (prefix s c st ++
     [EvLocal (OnSocket r) "disconnecting" [VStr reason] st;
      EvLocal (OnSocket r) "disconnect" [VStr reason] (onclose_store r s n c st)]).

Hypothesis prefix_writes : forall s c st, Forall is_write (prefix s c st).

Hypothesis prefix_stable : forall s c c' st st',
  c_conn c' = c_conn c -> encoder st' = encoder st -> prefix s c' st' = prefix s c st.

(** The two events of a socket that closes. *)
Definition close_events (r : SockRef) : list (Target * string * list Value) :=
  [(OnSocket r, "disconnecting", [VStr reason]);
   (OnSocket r, "disconnect", [VStr reason])].

(** What the step writes for the socket [r]. *)
Definition close_writes (c : Client) (st : State) (r : SockRef)
  : list (ClientId * Frame * option bool) :=
  match sockets st !! r with
  | Some s => writes (prefix s c st)
  | None => []
  end.

Lemma close_loop entries : forall st c,
  clients st !! cid = Some c ->
  registered cid c st ->
  (forall e, e ∈ entries -> e ∈ c_sockets c) ->
  NoDup (map fst entries) ->
  let run := for_each (map snd entries) body st in
  outcome run = Ret tt /\
  locals (trace run) = flat_map close_events (map snd entries) /\
  writes (trace run) = flat_map (close_writes c st) (map snd entries) /\
  broadcasts (trace run) = [] /\
  Forall closing_event (trace run) /\
  shrunk st (after run) /\
  length (sockets (after run)) = length (sockets st) /\
  (forall r, r ∉ map snd entries -> sockets (after run) !! r = sockets st !! r) /\
  (exists c',
     clients (after run) !! cid = Some c' /\ registered cid c' (after run) /\
     c_conn c' = c_conn c /\ c_bound c' = c_bound c /\ c_decoder c' = c_decoder c /\
     c_connectBuffer c' = c_connectBuffer c /\ c_id c' = c_id c /\
     c_nsps c' ⊆ c_nsps c /\
     (forall e, e ∈ c_sockets c' <-> e ∈ c_sockets c /\ fst e ∉ map fst entries) /\
     (forall id r, (id, r) ∈ entries ->
        exists s, sockets st !! r = Some s /\ c_nsps c' !! s_nsp s = None)) /\
  (forall id r, (id, r) ∈ entries ->
     exists s, sockets st !! r = Some s /\
       sockets (after run) !! r = Some (set_s_connected false true s) /\
       exists n', nsps (after run) !! s_nsp s = Some n' /\
                  n_connected n' !! id = None /\ n_sockets n' !! id = None).
Proof.
  induction entries as [|[id r] rest IH]; intros st c Hc Hreg Hsub Hnd run.
  { subst run. cbn [map for_each flat_map]. do 4 (split; [reflexivity|]).
    split; [constructor|]. split; [apply shrunk_refl|]. split; [reflexivity|]. split; [reflexivity|]. split.
    - exists c. do 7 (split; [done|]). split; [reflexivity|]. split.
      + intros e. split; [intros He; split; [exact He|apply not_elem_of_nil]|tauto].
      + intros id r Hin. apply elem_of_nil in Hin. destruct Hin.
    - intros id r Hin. apply elem_of_nil in Hin. destruct Hin. }
  cbn [map fst snd] in Hnd. apply NoDup_cons in Hnd as [Hid_notin Hnd].
  assert (Hin : (id, r) ∈ c_sockets c) by (apply Hsub; by left).
  destruct (proj2 Hreg id r Hin) as (s & Hs & Hid & Hcid & Hconn & [n Hn]).
  destruct (onclose_store_registered cid c id r s n st Hc Hreg Hin Hs Hid Hcid Hn)
    as (Hc1 & Hreg1 & Hshr1 & Hso1 & Hn1).
  set (st1 := onclose_store r s n c st) in *.
  set (c1 := set_c_nsps (delete (s_nsp s) (c_nsps c))
               (set_c_sockets (omap_delete id (c_sockets c)) c)) in *.
  assert (Hget : omap_get id (c_sockets c) = Some r)
    by (apply omap_get_NoDup; [exact (proj1 Hreg)|exact Hin]).
  assert (Hbody : body r st =
    mkRun (Ret tt) st1
      (prefix s c st ++
       [EvLocal (OnSocket r) "disconnecting" [VStr reason] st;
        EvLocal (OnSocket r) "disconnect" [VStr reason] st1])).
  { apply body_run; [exact Hs|exact Hconn|exact Hn|by rewrite Hcid|].
    intros r' Hr'. rewrite Hid, Hget in Hr'. injection Hr' as <-. eauto. }
  assert (Hdiff : forall id' r', (id', r') ∈ rest -> id' <> id /\ r' <> r).
  { intros id' r' Hin'.
    assert (Hne : id' <> id).
    { intros ->. apply Hid_notin. apply elem_of_map_fst. eauto. }
    split; [exact Hne|]. intros ->.
    destruct (proj2 Hreg id' r) as (s' & Hs' & Hid' & _); [apply Hsub; by right|].
    congruence. }
  assert (Hr_notin : r ∉ map snd rest).
  { intros Hr. apply elem_of_map_snd in Hr as (id' & Hin').
    by destruct (Hdiff id' r Hin') as [_ ?]. }
  assert (Hsub1 : forall e, e ∈ rest -> e ∈ c_sockets c1).
  { intros [id' r'] Hin'. cbn [c1 c_sockets set_c_nsps set_c_sockets].
    apply elem_of_omap_delete. split; [apply Hsub; by right|].
    by destruct (Hdiff id' r' Hin'). }
  destruct (IH st1 c1 Hc1 Hreg1 Hsub1 Hnd)
    as (Ho & Hloc & Hwr & Hbr & Hev & Hshr & Hlen & Hother &
        (c' & Hc' & Hreg' & Hconn' & Hbound' & Hdec' & Hbuf' & Hcid' & Hnsps' & Hmem' & Hgone') &
        Hent).
  destruct (writes_writes_only _ (prefix_writes s c st)) as [Hpl Hpb].
  subst run. cbn [map snd for_each]. rewrite bind_run, Hbody.
  cbn [outcome after trace].
  set (loop := for_each (map snd rest) body st1) in *.
  split; [exact Ho|]. split.
  { rewrite !locals_app, Hpl, Hloc. reflexivity. }
  split.
  { rewrite !writes_app, Hwr. cbn [flat_map]. unfold close_writes at 2. rewrite Hs.
    cbn [writes omap]. rewrite app_nil_r. f_equal.
    apply flat_map_ext_in. intros r' Hr'. apply elem_of_map_snd in Hr' as (id' & Hin').
    destruct (Hdiff id' r' Hin') as [_ Hne]. unfold close_writes.
    rewrite Hso1, list_lookup_alter_ne by done.
    destruct (sockets st !! r'); [|reflexivity].
    f_equal. by apply prefix_stable. }
  split.
  { rewrite !broadcasts_app, Hpb, Hbr. reflexivity. }
  split.
  { apply Forall_app. split; [|exact Hev].
    apply Forall_app. split; [apply closing_event_write, prefix_writes|].
    repeat constructor. }
  split; [by apply (shrunk_trans _ st1)|].
  split; [by rewrite Hlen, Hso1, length_alter|].
  split.
  { intros r0 Hr0. apply not_elem_of_cons in Hr0 as [Hne Hr0].
    rewrite (Hother r0 Hr0), Hso1. by apply list_lookup_alter_ne. }
  split.
  - exists c'. split; [exact Hc'|]. split; [exact Hreg'|].
    do 5 (split; [by etrans|]).
    split; [etrans; [exact Hnsps'|apply delete_subseteq]|]. split.
    + intros e. rewrite Hmem'. cbn [c1 c_sockets set_c_nsps set_c_sockets map fst].
      rewrite elem_of_omap_delete, not_elem_of_cons. tauto.
    + intros id' r' Hin'. apply elem_of_cons in Hin' as [Heq|Hin'].
      * injection Heq as -> ->. exists s. split; [exact Hs|].
        apply (lookup_weaken_None (c_nsps c') (c_nsps c1)); [apply lookup_delete_eq|exact Hnsps'].
      * destruct (Hgone' id' r' Hin') as (s' & Hs' & Hnone).
        destruct (Hdiff id' r' Hin') as [_ Hne].
        rewrite Hso1, list_lookup_alter_ne in Hs' by done. eauto.
  - intros id' r' Hin'. apply elem_of_cons in Hin' as [Heq|Hin'].
    + injection Heq as -> ->. exists s. split; [exact Hs|]. split.
      { rewrite (Hother r Hr_notin), Hso1, list_lookup_alter_eq, Hs. reflexivity. }
      destruct (proj2 Hshr _ _ Hn1) as (n' & Hn' & Hsubc & Hsubs).
      exists n'. split; [exact Hn'|]. split.
      * apply (lookup_weaken_None _ _ _ (lookup_delete_eq _ _) Hsubc).
      * apply (lookup_weaken_None _ _ _ (lookup_delete_eq _ _) Hsubs).
    + destruct (Hent id' r' Hin') as (s' & Hs' & Hafter & Hns).
      destruct (Hdiff id' r' Hin') as [_ Hne].
      rewrite Hso1, list_lookup_alter_ne in Hs' by done.
      exists s'. split; [exact Hs'|]. split; [exact Hafter|exact Hns].
Qed.

End Closing.




(** The client [c1] of the example server holds its default socket. *)
Lemma demo_registered :
  exists c, clients demo_server !! "c1" = Some c /\ c_sockets c = [("c1", 0)] /\
            is_open (readyState (c_conn c)) = true /\ registered "c1" c demo_server.
Proof.
  eexists. split; [vm_compute; reflexivity|]. split; [reflexivity|]. split; [reflexivity|].
  split.
  - cbn. apply NoDup_singleton.
  - intros id r Hin. cbn in Hin. apply list_elem_of_singleton in Hin.
    injection Hin as -> ->. eexists. split; [vm_compute; reflexivity|].
    split; [reflexivity|]. split; [reflexivity|]. split; [reflexivity|].
    vm_compute. eauto.
Qed.


Lemma transport_writes_writes cid c fl fs : Forall is_write (transport_writes cid c fl fs).
Proof. unfold transport_writes. case_match; [apply writeToEngine_writes|constructor]. Qed.

Lemma writes_map_EvWrite cid z fs :
  writes (map (fun f => EvWrite cid f z) fs) = map (fun f => (cid, f, z)) fs.
Proof. induction fs as [|f fs IH]; [reflexivity|]. cbn. by rewrite <- IH. Qed.

Lemma Client_onclose_empty cid c reason st :
  clients st !! cid = Some c ->
  c_sockets c = [] ->
  Client_onclose cid reason st =
  mkRun (Ret tt)
    (set_clients
       (<[cid := set_c_decoder false (set_c_sockets [] (set_c_bound false c))]> (clients st))
       st) [].
Proof.
  intros Hc Hempty. unfold Client_onclose, update_client, get_client.
  rewrite bind_modify, (alter_as_insert _ _ c) by done.
  erewrite bind_deref by (cbn; apply lookup_insert_eq).
  cbn [c_sockets set_c_bound]. rewrite Hempty. cbn [map for_each].
  rewrite bind_mret, !bind_modify. unfold modify. cbn.
  rewrite !alter_insert_same. reflexivity.
Qed.

Lemma Conn_close_run cid c st :
  clients st !! cid = Some c ->
  Conn_close cid st =
  mkRun (Ret tt)
    (set_clients (<[cid := set_c_conn (set_readyState Closing (c_conn c)) c]> (clients st)) st)
    [EvClose cid].
Proof.
  intros Hc. unfold Conn_close, update_client. rewrite bind_tell. unfold modify. cbn.
  rewrite (alter_as_insert _ _ c) by done. reflexivity.
Qed.

(** The frames of the DISCONNECT packet of the socket at [r], as
    [Client.disconnect] writes them on the transport of [c]. *)
Definition disconnect_writes (cid : ClientId) (c : Client) (st : State) (r : SockRef)
  : list (ClientId * Frame * option bool) :=
  match sockets st !! r with
  | Some s =>
      if is_open (readyState (c_conn c))
      then map (fun f => (cid, f, Some true))
             (encoder st (mkPacket DISCONNECT (Some (s_nsp s)) None DNone))
      else []
  | None => []
  end.

(** X16.  [Client.disconnect()] closes every socket of the client and then
    the transport.  For each socket, in the order of their registration, a
    DISCONNECT packet of its namespace is written (when the transport is
    open) and the socket is closed with the reason [server namespace
    disconnect].  Only after that the transport is closed, once, and only
    if it was open; then the listeners of the client are detached and its
    decoder is destroyed.  In the end every socket of the client is
    disconnected and gone from its namespace, and the client holds no
    socket. *)
Theorem Client_disconnect_closes_all cid c st :
  clients st !! cid = Some c ->
  registered cid c st ->
  let run := Client_disconnect cid st in
  let st' := after run in
  let reason := "server namespace disconnect" in
  let opened := is_open (readyState (c_conn c)) in
  outcome run = Ret tt /\
  writes (trace run) = flat_map (disconnect_writes cid c st) (map snd (c_sockets c)) /\
  locals (trace run) =
    flat_map (fun r => [(OnSocket r, "disconnecting", [VStr reason]);
                        (OnSocket r, "disconnect", [VStr reason])])
      (map snd (c_sockets c)) /\
  (exists before,
     trace run = (before ++ if opened then [EvClose cid] else [])%list /\
     Forall closing_event before) /\
  (exists c',
     clients st' !! cid = Some c' /\
     c_sockets c' = [] /\
     is_open (readyState (c_conn c')) = false /\
     (if opened
      then readyState (c_conn c') = Closing /\ c_bound c' = false /\ c_decoder c' = false
      else c_conn c' = c_conn c /\ c_bound c' = c_bound c /\ c_decoder c' = c_decoder c)) /\
  (forall id r, (id, r) ∈ c_sockets c ->
     exists s, sockets st !! r = Some s /\
       sockets st' !! r = Some (set_s_connected false true s) /\
       exists n', nsps st' !! s_nsp s = Some n' /\
                  n_connected n' !! id = None /\ n_sockets n' !! id = None).
Proof.
  intros Hc Hreg run st' reason opened.
  set (body := fun r => Socket_disconnect_with (fun _ => mret tt) r false).
  set (prefix := fun (s : Socket) (c : Client) (st : State) =>
         transport_writes (s_client s) c (compress_of no_flags)
           (encoder st (mkPacket DISCONNECT (Some (s_nsp s)) None DNone))).
  assert (Hbody : forall r s n c st,
    sockets st !! r = Some s -> s_connected s = true -> nsps st !! s_nsp s = Some n ->
    clients st !! s_client s = Some c ->
    (forall r', omap_get (s_id s) (c_sockets c) = Some r' -> is_Some (sockets st !! r')) ->
    body r st =
    mkRun (Ret tt) (onclose_store r s n c st)
      (prefix s c st ++
       [EvLocal (OnSocket r) "disconnecting" [VStr reason] st;
        EvLocal (OnSocket r) "disconnect" [VStr reason] (onclose_store r s n c st)])).
  { intros. by apply Socket_disconnect_local_run. }
  assert (Hstable : forall s c c' st st',
    c_conn c' = c_conn c -> encoder st' = encoder st -> prefix s c' st' = prefix s c st).
  { intros s0 c1 c2 st1 st2 Hconn Henc. unfold prefix. rewrite Henc.
    by apply transport_writes_conn. }
  destruct (close_loop cid reason body prefix Hbody
              (fun s c st => transport_writes_writes _ _ _ _) Hstable
              (c_sockets c) st c Hc Hreg (fun e He => He) (proj1 Hreg))
    as (Ho & Hloc & Hwr & Hbr & Hev & _ & _ & _ &
        (c' & Hc' & _ & Hconn' & Hbound' & Hdec' & _ & _ & _ & _ & _) & Hent).
  set (loop := for_each (map snd (c_sockets c)) body st) in *.
  set (st2 := after loop) in *.
  set (c2 := set_c_sockets [] c').
  set (st3 := set_clients (<[cid := c2]> (clients st2)) st2).
  assert (Hc3 : clients st3 !! cid = Some c2) by apply lookup_insert_eq.
  assert (Hwrites : writes (trace loop) =
                    flat_map (disconnect_writes cid c st) (map snd (c_sockets c))).
  { rewrite Hwr. apply flat_map_ext_in. intros r Hr.
    apply elem_of_map_snd in Hr as (id & Hin).
    destruct (proj2 Hreg id r Hin) as (s & Hs & _ & Hcid & _).
    unfold close_writes, disconnect_writes, prefix, transport_writes, writeToEngine.
    rewrite Hs, Hcid. cbn. destruct (is_open (readyState (c_conn c))); [|reflexivity].
    apply writes_map_EvWrite. }
  assert (Hrun : run =
    let r := Client_close cid st3 in
    mkRun (outcome r) (after r) (trace loop ++ trace r)).
  { subst run. unfold Client_disconnect, get_client. erewrite bind_deref by exact Hc.
    fold body. rewrite bind_run. fold loop. rewrite Ho.
    unfold update_client. rewrite bind_modify. fold st2.
    rewrite (alter_as_insert _ _ c') by done. reflexivity. }
  assert (Hclose : Client_close cid st3 =
    if opened
    then mkRun (Ret tt)
           (set_clients
              (<[cid := set_c_decoder false (set_c_sockets []
                          (set_c_bound false
                             (set_c_conn (set_readyState Closing (c_conn c2)) c2)))]>
                 (clients st3)) st3)
           [EvClose cid]
    else mkRun (Ret tt) st3 []).
  { assert (Hop2 : is_open (readyState (c_conn c2)) = opened)
      by (unfold opened; by rewrite <- Hconn').
    unfold Client_close, get_client. erewrite bind_deref by exact Hc3.
    rewrite Hop2. destruct opened; [|reflexivity].
    rewrite (bind_ret _ _ _ _ _ _ (Conn_close_run cid c2 st3 Hc3)).
    erewrite Client_onclose_empty; [|cbn; apply lookup_insert_eq|reflexivity].
    cbn. rewrite insert_insert_eq. reflexivity. }
  subst st'. rewrite Hrun, Hclose. cbv zeta.
  assert (Hent' : forall st4, sockets st4 = sockets st2 -> nsps st4 = nsps st2 ->
    forall id r, (id, r) ∈ c_sockets c ->
      exists s, sockets st !! r = Some s /\
        sockets st4 !! r = Some (set_s_connected false true s) /\
        exists n', nsps st4 !! s_nsp s = Some n' /\
                   n_connected n' !! id = None /\ n_sockets n' !! id = None).
  { intros st4 Hs4 Hn4 id r Hin. rewrite Hs4, Hn4. by apply Hent. }
  destruct opened eqn:Hop; cbn [outcome after trace].
  - split; [reflexivity|]. split; [by rewrite writes_app, Hwrites, app_nil_r|].
    split; [by rewrite locals_app, Hloc, app_nil_r|].
    split; [exists (trace loop); by split|]. split.
    + eexists. split; [cbn [clients set_clients]; apply lookup_insert_eq|].
      cbn. done.
    + by apply Hent'.
  - rewrite app_nil_r. split; [reflexivity|]. split; [exact Hwrites|].
    split; [exact Hloc|]. split; [exists (trace loop); by rewrite app_nil_r|]. split.
    + exists c2. split; [exact Hc3|]. cbn [c2 c_sockets set_c_sockets c_conn c_bound c_decoder].
      split; [reflexivity|]. rewrite Hconn'. split; [exact Hop|]. done.
    + by apply Hent'.
Qed.

Lemma Client_disconnect_closes_all_witness :
  let run := Client_disconnect "c1" demo_server in
  writes (trace run) = [("c1", FText "1/,", Some true)] /\
  locals (trace run) =
    [(OnSocket 0, "disconnecting", [VStr "server namespace disconnect"]);
     (OnSocket 0, "disconnect", [VStr "server namespace disconnect"])] /\
  exists before, trace run = (before ++ [EvClose "c1"])%list.
Proof.
  destruct demo_registered as (c & Hc & Hso & Hopen & Hreg).
  destruct (Client_disconnect_closes_all "c1" c demo_server Hc Hreg)
    as (_ & Hw & Hl & (before & Htr & _) & _).
  cbv zeta. split; [|split].
  - rewrite Hw, Hso. unfold disconnect_writes. rewrite Hopen. vm_compute. reflexivity.
  - rewrite Hl, Hso. reflexivity.
  - exists before. rewrite Htr, Hopen. reflexivity.
Defined.

(** * Namespaces of the server *)

Lemma slashed_slashed name : String.get 0 (slashed name) = Some "/"%char.
Proof.
  unfold slashed. case_bool_decide as H; [reflexivity|].
  destruct (decide (String.get 0 name = Some "/"%char)) as [Heq|Hne]; [exact Heq|].
  by destruct H.
Qed.

(** X17.  [Server.of] with a name creates a namespace once.  The name is
    taken with a leading [/], whether it is given with it or without.  The
    first call for a name adds a fresh namespace with no socket, no
    middleware and a room set of its own, and leaves every other namespace
    as it is; every further call returns the same namespace and changes
    nothing.  A [connect] listener given with the call is added at each
    call, also when the namespace exists. *)
Theorem Server_of_idempotent name st :
  let first := Server_of name None st in
  first = Server_of (slashed name) None st /\
  outcome first = Ret (slashed name) /\
  trace first = [] /\
  Server_of name None (after first) = mkRun (Ret (slashed name)) (after first) [] /\
  (forall other n, nsps st !! other = Some n -> nsps (after first) !! other = Some n) /\
  (nsps st !! slashed name = None ->
   nsps (after first) =
     <[slashed name := new_Namespace (slashed name) (length (roomsets st))]> (nsps st) /\
   roomsets (after first) = (roomsets st ++ [∅])%list) /\
  (forall l n,
     nsps (after first) !! slashed name = Some n ->
     let again := Server_of name (Some l) (after first) in
     outcome again = Ret (slashed name) /\
     nsps (after again) !! slashed name =
       Some (set_n_listeners (n_listeners n ++ [("connect", l)]) n)).
Proof.
  intros first.
  assert (Hrun : forall fn st0 n,
    nsps st0 !! slashed name = Some n ->
    Server_of name fn st0 =
    mkRun (Ret (slashed name))
      (match fn with
       | Some l =>
           set_nsps (<[slashed name :=
                       set_n_listeners (n_listeners n ++ [("connect", l)]) n]> (nsps st0)) st0
       | None => st0
       end) []).
  { intros fn st0 n Hn. unfold Server_of, update_nsp. rewrite bind_gets, Hn.
    destruct fn as [l|]; msteps; [|reflexivity].
    rewrite (alter_as_insert _ _ n) by done. reflexivity. }
  assert (Hfirst : first =
    mkRun (Ret (slashed name))
      (match nsps st !! slashed name with
       | Some _ => st
       | None =>
           set_nsps (<[slashed name := new_Namespace (slashed name) (length (roomsets st))]>
                       (nsps st))
             (set_roomsets (roomsets st ++ [∅]) st)
       end) []).
  { subst first. destruct (nsps st !! slashed name) as [n|] eqn:Hn.
    - by rewrite (Hrun None st n).
    - unfold Server_of, new_roomset. rewrite bind_gets, Hn. msteps. reflexivity. }
  split.
  { subst first. unfold Server_of. by rewrite (slashed_id _ (slashed_slashed name)). }
  rewrite Hfirst. cbn [outcome after trace]. split; [reflexivity|]. split; [reflexivity|].
  destruct (nsps st !! slashed name) as [n|] eqn:Hn.
  - split; [by rewrite (Hrun None st n)|]. split; [done|]. split; [done|].
    intros l n0 Hn0. rewrite (Hrun (Some l) st n0 Hn0).
    cbn. by rewrite lookup_insert_eq.
  - set (st1 := set_nsps _ _).
    assert (Hn1 : nsps st1 !! slashed name =
                  Some (new_Namespace (slashed name) (length (roomsets st))))
      by apply lookup_insert_eq.
    split; [by rewrite (Hrun None st1 _ Hn1)|]. split.
    { intros other n Hother. cbn. rewrite lookup_insert_ne; [exact Hother|].
      intros <-. congruence. }
    split; [done|].
    intros l n0 Hn0. rewrite (Hrun (Some l) st1 n0 Hn0).
    cbn. by rewrite lookup_insert_eq.
Qed.

Lemma Server_of_idempotent_witness :
  let st := new_Server demo_encode 0 in
  Server_of "chat" None st = Server_of "/chat" None st /\
  Server_of "chat" None (after (Server_of "chat" None st)) =
    mkRun (Ret "/chat") (after (Server_of "chat" None st)) [].
Proof.
  destruct (Server_of_idempotent "chat" (new_Server demo_encode 0)) as (H1 & _ & _ & H4 & _).
  split; [exact H1|exact H4].
Defined.

(** ** The CONNECT packet of the default namespace *)

(** [attach] without an initial packet of the caller: what it hands to the
    engine. *)
Lemma Server_attach_run n0 st :
  nsps st !! "/" = Some n0 ->
  Server_attach None st =
  mkRun (Ret tt)
    (set_eio
       (Some (engine_attach
                (if bool_decide (n_fns n0 = [])
                 then Some (encoder st (mkPacket CONNECT (Some "/") None DNone))
                 else None))) st) [].
Proof.
  intros Hn. unfold Server_attach, get_nsp. msteps.
  destruct (n_fns n0) as [|f fns]; cbn [length].
  - rewrite bool_decide_eq_false_2 by lia. msteps. reflexivity.
  - rewrite bool_decide_eq_true_2 by lia. msteps. reflexivity.
Qed.

(** [use] appends the middleware and leaves the options of the engine as
    they are. *)
Lemma Namespace_use_run name n fn st :
  nsps st !! name = Some n ->
  exists st',
    Namespace_use name fn st = mkRun (Ret tt) st' [] /\
    nsps st' = <[name := set_n_fns (n_fns n ++ [fn]) n]> (nsps st) /\
    (initialPacket <$> eio st') = (initialPacket <$> eio st) /\
    encoder st' = encoder st /\ sockets st' = sockets st /\ clients st' = clients st.
Proof.
  intros Hn. unfold Namespace_use, get_nsp, update_nsp. msteps.
  assert (Ha : alter (fun n => set_n_fns (n_fns n ++ [fn]) n) name (nsps st) =
               <[name := set_n_fns (n_fns n ++ [fn]) n]> (nsps st))
    by exact (alter_as_insert (nsps st) name n _ Hn).
  destruct (eio st) as [e|] eqn:He; [destruct (bool_decide (n_name n = "/"))|];
    msteps; eexists; (split; [reflexivity|]); cbn; rewrite ?He, Ha; done.
Qed.

(** X18.  Whether the CONNECT packet of the default namespace travels with
    the handshake is settled by [attach] alone.  When all middleware of the
    default namespace is registered before [attach], the packet is issued
    exactly once: with no middleware [attach] hands it to the engine as
    [initialPacket] and [onconnect] writes nothing; with middleware [attach]
    hands over none and [onconnect] writes it.  When the first middleware is
    registered after [attach], [use] deletes the property [initialPacket] of
    the engine object and not the option that [attach] handed over: that
    option still holds the CONNECT packet, and [onconnect] writes a CONNECT
    packet as well. *)
Theorem connect_packet_handshake r s n0 c st :
  nsps st !! "/" = Some n0 ->
  n_name n0 = "/" ->
  sockets st !! r = Some s ->
  s_nsp s = "/" ->
  clients st !! s_client s = Some c ->
  is_open (readyState (c_conn c)) = true ->
  let frames := encoder st (mkPacket CONNECT (Some "/") None DNone) in
  let written := map (fun f => EvWrite (s_client s) f (Some true)) frames in
  let handed st' := initialPacket <$> eio st' in
  (let st1 := after (Server_attach None st) in
   if bool_decide (n_fns n0 = [])
   then handed st1 = Some (Some frames) /\ trace (Socket_onconnect r st1) = []
   else handed st1 = Some None /\ trace (Socket_onconnect r st1) = written) /\
  (forall fn,
     n_fns n0 = [] ->
     let st2 := after ((Server_attach None;; Namespace_use "/" fn) st) in
     handed st2 = Some (Some frames) /\ trace (Socket_onconnect r st2) = written).
Proof.
  intros Hn Hname Hs Hnsp Hc Hopen frames written handed.
  assert (Hw : transport_writes (s_client s) c (compress_of no_flags) frames = written).
  { by rewrite transport_writes_open. }
  split.
  - cbv zeta. rewrite (Server_attach_run n0 st Hn). cbn [after].
    set (st1 := set_eio _ st).
    assert (Hn1 : nsps st1 !! s_nsp s = Some n0) by (by rewrite Hnsp).
    rewrite (Socket_onconnect_run r s n0 c st1 Hs Hn1 Hc). cbn [trace].
    rewrite Hname, (bool_decide_eq_true_2 ("/" = "/")) by reflexivity. cbn [andb].
    subst st1. cbn [encoder set_eio eio fmap option_fmap option_map engine_attach initialPacket].
    unfold handed. cbn [eio set_eio fmap option_fmap option_map engine_attach initialPacket].
    destruct (n_fns n0) as [|f fns].
    + rewrite !bool_decide_eq_true_2 by reflexivity. done.
    + rewrite (bool_decide_eq_false_2 (_ = [])) by done.
      rewrite bool_decide_eq_false_2 by (cbn; lia).
      split; [reflexivity|]. rewrite Hnsp. exact Hw.
  - intros fn Hf st2. subst st2.
    rewrite (bind_ret_silent _ _ _ tt _ (Server_attach_run n0 st Hn)).
    set (st1 := set_eio _ st).
    assert (Hn1 : nsps st1 !! "/" = Some n0) by exact Hn.
    destruct (Namespace_use_run "/" n0 fn st1 Hn1)
      as (st2 & -> & Hnsps & Hip & Henc & Hso & Hcl).
    cbn [after]. split.
    + unfold handed. rewrite Hip. subst st1. cbn.
      rewrite Hf, bool_decide_eq_true_2 by reflexivity. reflexivity.
    + assert (Hs2 : sockets st2 !! r = Some s) by (by rewrite Hso).
      assert (Hn2 : nsps st2 !! s_nsp s = Some (set_n_fns (n_fns n0 ++ [fn]) n0)).
      { rewrite Hnsps, Hnsp. apply lookup_insert_eq. }
      assert (Hc2 : clients st2 !! s_client s = Some c) by (by rewrite Hcl).
      rewrite (Socket_onconnect_run r s _ c st2 Hs2 Hn2 Hc2). cbn [trace].
      cbn [n_name n_fns set_n_fns]. rewrite Hf. cbn [app length].
      rewrite (bool_decide_eq_false_2 (1 = 0)) by lia. rewrite andb_false_r.
      rewrite Henc, Hnsp. exact Hw.
Qed.

Lemma connect_packet_handshake_witness :
  let pass : Socket -> option string := fun _ => None in
  let frames := [FText "0/,"] in
  let early := after (Namespace_use "/" pass demo_server) in
  let late := after ((Server_attach None;; Namespace_use "/" pass) demo_server) in
  (initialPacket <$> eio (after (Server_attach None demo_server))) = Some (Some frames) /\
  trace (Socket_onconnect 0 (after (Server_attach None demo_server))) = [] /\
  (initialPacket <$> eio (after (Server_attach None early))) = Some None /\
  trace (Socket_onconnect 0 (after (Server_attach None early))) =
    [EvWrite "c1" (FText "0/,") (Some true)] /\
  (initialPacket <$> eio late) = Some (Some frames) /\
  trace (Socket_onconnect 0 late) = [EvWrite "c1" (FText "0/,") (Some true)].
Proof.
  cbv zeta.
  set (pass := fun _ : Socket => @None string).
  set (early := after (Namespace_use "/" pass demo_server)).
  eassert (Hn : nsps demo_server !! "/" = Some _) by (vm_compute; reflexivity).
  eassert (Hs : sockets demo_server !! 0 = Some _) by (vm_compute; reflexivity).
  eassert (Hc : clients demo_server !! "c1" = Some _) by (vm_compute; reflexivity).
  destruct (connect_packet_handshake 0 _ _ _ demo_server Hn eq_refl Hs eq_refl Hc eq_refl)
    as [H1 H2].
  eassert (Hn' : nsps early !! "/" = Some _) by (vm_compute; reflexivity).
  eassert (Hs' : sockets early !! 0 = Some _) by (vm_compute; reflexivity).
  eassert (Hc' : clients early !! "c1" = Some _) by (vm_compute; reflexivity).
  destruct (connect_packet_handshake 0 _ _ _ early Hn' eq_refl Hs' eq_refl Hc' eq_refl)
    as [H3 _].
  cbv zeta in H1, H3.
  rewrite bool_decide_eq_true_2 in H1 by reflexivity.
  rewrite bool_decide_eq_false_2 in H3 by discriminate.
  destruct H1 as [H1a H1b]. destruct H3 as [H3a H3b].
  destruct (H2 pass eq_refl) as [H2a H2b].
  split; [rewrite H1a; reflexivity|]. split; [exact H1b|].
  split; [exact H3a|]. split; [rewrite H3b; reflexivity|].
  split; [rewrite H2a; reflexivity|]. rewrite H2b. reflexivity.
Defined.

(** * Middleware *)

(** X19.  Middleware runs in the order of its registration and stops at the
    first error.  The error that [Namespace.run] hands on is the error of
    the first middleware that fails, all earlier ones having passed the
    socket; it is none exactly when every middleware passes.  [use] adds a
    middleware at the end, so that it is asked only when all earlier ones
    pass.  The same holds for the middleware of a socket, [Socket.run] and
    [Socket.use], on incoming events. *)
Theorem middleware_first_error :
  (forall fns s,
     match Namespace_run fns s with
     | Some err =>
         exists i f, fns !! i = Some f /\ f s = Some err /\
                     forall j g, j < i -> fns !! j = Some g -> g s = None
     | None => forall f, f ∈ fns -> f s = None
     end) /\
  (forall fns event,
     match Socket_run fns event with
     | Some err =>
         exists i f, fns !! i = Some f /\ f event = Some err /\
                     forall j g, j < i -> fns !! j = Some g -> g event = None
     | None => forall f, f ∈ fns -> f event = None
     end) /\
  (forall name n fn s st,
     nsps st !! name = Some n ->
     (n_fns <$> nsps (after (Namespace_use name fn st)) !! name) = Some (n_fns n ++ [fn])%list /\
     Namespace_run (n_fns n ++ [fn]) s =
       match Namespace_run (n_fns n) s with
       | Some err => Some err
       | None => fn s
       end) /\
  (forall fns fn event,
     Socket_run (Socket_use fns fn) event =
       match Socket_run fns event with
       | Some err => Some err
       | None => fn event
       end).
Proof.
  split; [|split; [|split]].
  - intros fns s. induction fns as [|f fns IH]; cbn [Namespace_run].
    { intros f Hf. apply elem_of_nil in Hf. destruct Hf. }
    destruct (f s) as [err|] eqn:Hf.
    + exists 0, f. split; [reflexivity|]. split; [exact Hf|]. intros j g Hj. lia.
    + destruct (Namespace_run fns s) as [err|].
      * destruct IH as (i & g & Hi & Hg & Hbefore). exists (S i), g.
        split; [exact Hi|]. split; [exact Hg|]. intros [|j] h Hj Hh.
        -- cbn in Hh. by injection Hh as <-.
        -- apply (Hbefore j); [lia|exact Hh].
      * intros g Hg. apply elem_of_cons in Hg as [->|Hg]; [exact Hf|by apply IH].
  - intros fns event. induction fns as [|f fns IH]; cbn [Socket_run].
    { intros f Hf. apply elem_of_nil in Hf. destruct Hf. }
    destruct (f event) as [err|] eqn:Hf.
    + exists 0, f. split; [reflexivity|]. split; [exact Hf|]. intros j g Hj. lia.
    + destruct (Socket_run fns event) as [err|].
      * destruct IH as (i & g & Hi & Hg & Hbefore). exists (S i), g.
        split; [exact Hi|]. split; [exact Hg|]. intros [|j] h Hj Hh.
        -- cbn in Hh. by injection Hh as <-.
        -- apply (Hbefore j); [lia|exact Hh].
      * intros g Hg. apply elem_of_cons in Hg as [->|Hg]; [exact Hf|by apply IH].
  - intros name n fn s st Hn. split.
    + destruct (Namespace_use_run name n fn st Hn) as (st' & -> & Hnsps & _).
      cbn [after]. by rewrite Hnsps, lookup_insert_eq.
    + induction (n_fns n) as [|f fns IH]; cbn; [by destruct (fn s)|].
      destruct (f s); [reflexivity|exact IH].
  - intros fns fn event. unfold Socket_use.
    induction fns as [|f fns IH]; cbn; [by destruct (fn event)|].
    destruct (f event); [reflexivity|exact IH].
Qed.

Lemma middleware_first_error_witness :
  let pass : Socket -> option string := fun _ => None in
  let deny : Socket -> option string := fun _ => Some "denied" in
  let st := after (Namespace_use "/" pass demo_server) in
  let socket := new_Socket (new_Namespace "/" 0) (new_Client "c9" demo_conn) (QObject []) 0 in
  (length <$> (n_fns <$> nsps (after (Namespace_use "/" deny st)) !! "/")) = Some 2 /\
  Namespace_run [pass; deny] socket = Some "denied".
Proof.
  cbv zeta.
  set (pass := fun _ : Socket => @None string).
  set (deny := fun _ : Socket => Some "denied").
  set (st := after (Namespace_use "/" pass demo_server)).
  destruct middleware_first_error as (_ & _ & Huse & _).
  eassert (Hn : nsps st !! "/" = Some _) by (vm_compute; reflexivity).
  destruct (Huse "/" _ deny
              (new_Socket (new_Namespace "/" 0) (new_Client "c9" demo_conn) (QObject []) 0)
              st Hn) as [H1 H2].
  split; [rewrite H1; reflexivity|exact H2].
Defined.

(** X20.  An approval that comes too late is dropped.  The client asks for
    a namespace and its transport is closed before the next tick.  That
    tick then ignores the new socket, whatever the middleware answered:
    nothing is written, no [connect] event is raised, and the socket is in
    no map of the namespace or of the client. *)
Theorem Client_connect_too_late cid c name n query st :
  clients st !! cid = Some c ->
  c_id c = cid ->
  is_Some (c_nsps c !! "/") ->
  String.get 0 name = Some "/"%char ->
  nsps st !! name = Some n ->
  ticks st = [] ->
  let socket := new_Socket n c query (clock st) in
  (Client_connect cid name (Some query);; Conn_close cid;; run_tick) st =
  mkRun (Ret tt)
    (set_clients (<[cid := set_c_conn (set_readyState Closing (c_conn c)) c]> (clients st))
       (set_sockets (sockets st ++ [socket]) st))
    [EvClose cid].
Proof.
  intros Hc Hid Hdefault Hslash Hn Hticks socket.
  rewrite (bind_ret_silent _ _ _ tt _ (Client_connect_adds cid c name query n st
                                         Hc Hdefault Hslash Hn)).
  fold socket. rewrite Hticks. cbn [app].
  set (err := Namespace_run (n_fns n) socket).
  set (st1 := set_ticks _ _).
  assert (Hc1 : clients st1 !! cid = Some c) by exact Hc.
  rewrite (bind_ret _ _ _ _ _ _ (Conn_close_run cid c st1 Hc1)).
  set (c2 := set_c_conn (set_readyState Closing (c_conn c)) c).
  set (st2 := set_clients _ st1).
  unfold run_tick. rewrite bind_gets. cbn [ticks st2 st1 set_clients set_ticks].
  rewrite bind_modify. cbn [run_task].
  set (st3 := set_ticks [] st2).
  assert (Hs : sockets st3 !! length (sockets st) = Some socket).
  { cbn. rewrite lookup_app_r by lia. by rewrite Nat.sub_diag. }
  assert (Hc3 : clients st3 !! s_client socket = Some c2).
  { cbn [s_client socket new_Socket]. rewrite Hid. apply lookup_insert_eq. }
  rewrite (Namespace_add_tick_closed name _ socket c2 err st3 Hs Hc3) by reflexivity.
  cbn. f_equal. subst st3 st2 st1. destruct st. cbn in *. by subst.
Qed.

Lemma Client_connect_too_late_witness :
  let st := after (Server_of "/chat" None demo_server) in
  let run := (Client_connect "c1" "/chat" (Some (QObject []));; Conn_close "c1";; run_tick) st in
  trace run = [EvClose "c1"] /\
  nsps (after run) = nsps st /\
  length (sockets (after run)) = 2.
Proof.
  cbv zeta.
  set (st := after (Server_of "/chat" None demo_server)).
  eassert (Hc : clients st !! "c1" = Some _) by (vm_compute; reflexivity).
  eassert (Hn : nsps st !! "/chat" = Some _) by (vm_compute; reflexivity).
  eassert (Hdef : is_Some (c_nsps _ !! "/")).
  2: pose proof (Client_connect_too_late "c1" _ "/chat" _ (QObject []) st Hc eq_refl Hdef
                   eq_refl Hn eq_refl) as H.
  { vm_compute. eauto. }
  cbv zeta in H. rewrite H. cbn [trace after nsps set_clients set_sockets sockets].
  split; [reflexivity|]. split; [reflexivity|]. rewrite length_app. reflexivity.
Defined.
